(** * Field resolution and CEF encoding of the Cloud Exchange log plugins

    A shallow embedding of the field-resolution and encoding code of four
    plugins of the repository:

    - [src/chronicle_cls/main.py]   (module [Chronicle]),
    - [src/solarwinds/main.py]      (module [SolarWinds]),
    - [src/arcsight/utils/arcsight_cef_generator.py] (module [ArcSight]),
    - [src/cloudtrail/utils/cloudtrail_helper.py]    (module [CloudTrail]).

    Python values are an inductive type, dictionaries are finite maps with
    string keys, a raised exception is the [Raise] case of a result type. *)

From Stdlib Require Import ZArith String Ascii List DecimalString.
From Stdlib Require Import Floats.SpecFloat Sorting.Permutation Sorting.Sorted.
From Stdlib Require Import Structures.OrdersEx.
From stdpp Require Import gmap strings list fin_maps.

Set Warnings "-register-all".
Local Open Scope Z_scope.
Local Open Scope string_scope.

(** ** Python values *)

Module Py.

(** A naive [datetime.datetime] object: its calendar fields. *)
Record datetime : Type := mk_datetime {
  dt_year : Z; dt_month : Z; dt_day : Z;
  dt_hour : Z; dt_minute : Z; dt_second : Z; dt_microsecond : Z
}.

(** The values a record, a mapping rule or a converter can hold. JSON
    objects are dictionaries with string keys; a float is an IEEE-754
    value; a text is the sequence of the bytes of its UTF-8 form. *)
Inductive pyval : Type :=
| VNone
| VBool (b : bool)
| VInt (n : Z)
| VFloat (f : spec_float)
| VStr (s : string)
| VList (l : list pyval)
| VDict (d : gmap string pyval)
| VDateTime (t : datetime).

(** The exceptions the modelled code raises or lets through. *)
Inductive exn : Type :=
| FieldNotFoundError (field : pyval)
| KeyError (key : string)
| TypeError
| AttributeError
| ValueError
| CEFTypeError
| JsonSchemaValidationError (msg : string).

Inductive result (A : Type) : Type :=
| Ok (a : A)
| Raise (e : exn).
Arguments Ok {A} a.
Arguments Raise {A} e.

Definition bind {A B : Type} (r : result A) (k : A -> result B) : result B :=
  match r with
  | Ok a => k a
  | Raise e => Raise e
  end.

(** [bool(v)]: the truth value Python gives [v]. *)
Definition truthy (v : pyval) : bool :=
  match v with
  | VNone => false
  | VBool b => b
  | VInt n => negb (Z.eqb n 0)
  | VFloat (S754_zero _) => false
  | VFloat _ => true
  | VStr s => negb (String.eqb s "")
  | VList l => match l with [] => false | _ :: _ => true end
  | VDict d => negb (Nat.eqb (size d) 0)
  | VDateTime _ => true
  end.

(** [isinstance(v, int)]; [bool] is a subclass of [int]. *)
Definition isinstance_int (v : pyval) : bool :=
  match v with
  | VInt _ | VBool _ => true
  | _ => false
  end.

(** [isinstance(v, str)]. *)
Definition isinstance_str (v : pyval) : bool :=
  match v with
  | VStr _ => true
  | _ => false
  end.

(** The numeric types of Python: [int] (with [bool]) and [float]. *)
Definition is_number (v : pyval) : bool :=
  match v with
  | VInt _ | VBool _ | VFloat _ => true
  | _ => false
  end.

(** [d[k]] for a string key. *)
Definition dict_getitem (d : gmap string pyval) (k : string) : result pyval :=
  match d !! k with
  | Some v => Ok v
  | None => Raise (KeyError k)
  end.

(** [str(n)] for an integer. *)
Definition str_of_int (n : Z) : string := NilZero.string_of_int (Z.to_int n).

(** [str(v)]. The textual form of a float, a container and a datetime is
    computed by the interpreter's [repr]; it is the parameter [repr]. *)
Definition py_str (repr : pyval -> string) (v : pyval) : string :=
  match v with
  | VStr s => s
  | VInt n => str_of_int n
  | VBool true => "True"
  | VBool false => "False"
  | VNone => "None"
  | _ => repr v
  end.

(** [len(s)]: a text is held as the bytes of its UTF-8 form, and [len]
    counts its characters: the bytes that begin one, which are all the bytes
    but the continuation bytes [10xxxxxx]. *)
Definition is_continuation_byte (c : ascii) : bool :=
  match c with
  | Ascii _ _ _ _ _ _ b6 b7 => b7 && negb b6
  end.

Fixpoint len (s : string) : nat :=
  match s with
  | EmptyString => O
  | String c s' => if is_continuation_byte c then len s' else S (len s')
  end.

(** [sep.join(l)] for a list of values: every item has to be a string. *)
Fixpoint all_strs (l : list pyval) : option (list string) :=
  match l with
  | [] => Some []
  | VStr s :: l' =>
      match all_strs l' with
      | Some ss => Some (s :: ss)
      | None => None
      end
  | _ :: _ => None
  end.

Definition str_join (sep : string) (l : list pyval) : result pyval :=
  match all_strs l with
  | Some ss => Ok (VStr (String.concat sep ss))
  | None => Raise TypeError
  end.

(** [s.strip(chars)] on the characters of a string. *)
Fixpoint lstrip (chars : list ascii) (s : list ascii) : list ascii :=
  match s with
  | [] => []
  | c :: s' => if existsb (Ascii.eqb c) chars then lstrip chars s' else s
  end.

Definition strip (chars : string) (s : string) : string :=
  let cs := list_ascii_of_string chars in
  string_of_list_ascii
    (rev (lstrip cs (rev (lstrip cs (list_ascii_of_string s))))).

(** [s.split(sep)] for a separator of one character: the pieces between the
    occurrences of [sep], at least one piece. *)
Fixpoint split_chars (sep : ascii) (s : list ascii) : list (list ascii) :=
  match s with
  | [] => [[]]
  | c :: s' =>
      if Ascii.eqb c sep then [] :: split_chars sep s'
      else match split_chars sep s' with
           | [] => [[c]]
           | p :: ps => (c :: p) :: ps
           end
  end.

Definition split (sep : ascii) (s : string) : list string :=
  map string_of_list_ascii (split_chars sep (list_ascii_of_string s)).

End Py.
Export Py.

(** ** [src/chronicle_cls/main.py] *)

(** A mapping rule ([extension_mapping]) and a record ([data]) are JSON
    objects: finite maps from strings to values. *)
Abbreviation rule := (gmap string pyval) (only parsing).
Abbreviation record := (gmap string pyval) (only parsing).

Module Chronicle.

(** [get_mapping_value_from_field(data, field)]. *)
Definition get_mapping_value_from_field (data : record) (field : string)
  : result pyval :=
  bind (dict_getitem data field) (fun v =>
  Ok (if truthy v || isinstance_int v then v else VStr "null")).

Section Resolver.

(** [repr] of the interpreter, see [py_str]. *)
Variable repr : pyval -> string.

(** [jsonpath(data, path)] of the [jsonpath] package: the list of matches;
    the empty list stands for the [False] it returns when nothing matches. *)
Variable jsonpath : record -> pyval -> result (list pyval).

(** The fall-back of the direct mode when a field is not in the record:
    the [elif "default_value" in extension_mapping] and [else] branches. *)
Definition default_or_not_found (extension_mapping : rule) (mapping_field : pyval)
  : result pyval :=
  match extension_mapping !! "default_value" with
  | Some d => Ok d
  | None => Raise (FieldNotFoundError mapping_field)
  end.

(** The loop [for field in field_list] of the composite case, with the
    [out_list] built so far. *)
Fixpoint composite_loop (extension_mapping : rule) (data : record)
    (mapping_field : pyval) (field_list : list string) (out_list : list pyval)
  : result pyval :=
  match field_list with
  | [] => str_join " - " out_list
  | field :: rest =>
      let field := strip "[]" (strip " " field) in
      if String.eqb field "NULL" then
        composite_loop extension_mapping data mapping_field rest
          (out_list ++ [VStr "NULL"])
      else
        match data !! field with
        | Some _ =>
            bind (get_mapping_value_from_field data field) (fun v =>
            composite_loop extension_mapping data mapping_field rest
              (out_list ++ [v]))
        | None => default_or_not_found extension_mapping mapping_field
        end
  end.

(** [get_field_value_from_data(extension_mapping, data, data_type, subtype,
    is_json_path)]; [data_type] and [subtype] are not used by the body. *)
Definition get_field_value_from_data (extension_mapping : rule) (data : record)
    (is_json_path : bool) : result pyval :=
  match extension_mapping !! "mapping_field" with
  | Some mapping_field =>
      if truthy mapping_field then
        if is_json_path then
          bind (jsonpath data mapping_field) (fun value =>
          match value with
          | [] => Raise (FieldNotFoundError mapping_field)
          | _ :: _ => Ok (VStr (String.concat "," (map (py_str repr) value)))
          end)
        else
          match mapping_field with
          | VStr s =>
              let field_list := split "-" s in
              if Nat.eqb (length field_list) 1 then
                match data !! s with
                | Some _ => get_mapping_value_from_field data s
                | None => default_or_not_found extension_mapping mapping_field
                end
              else
                composite_loop extension_mapping data mapping_field field_list []
          | _ => Raise AttributeError
          end
      else dict_getitem extension_mapping "default_value"
  | None => dict_getitem extension_mapping "default_value"
  end.

End Resolver.

(** The components of a composite mapping as the loop sees them, and what a
    component stands for: the literal ["NULL"], or the value of the record
    with the coercion of [get_mapping_value_from_field]; [None] when the
    record does not have it. *)
Definition trim_component (field : string) : string :=
  strip "[]" (strip " " field).

Definition components (s : string) : list string :=
  map trim_component (split "-" s).

Definition component_value (data : record) (c : string) : option pyval :=
  if String.eqb c "NULL" then Some (VStr "NULL")
  else match data !! c with
       | Some raw => Some (if truthy raw || isinstance_int raw then raw else VStr "null")
       | None => None
       end.

End Chronicle.

(** ** [src/solarwinds/main.py] *)

Module SolarWinds.

(** [get_mapping_value_from_field(data, field)]: the value and the flag
    telling that it was taken from the record. *)
Definition get_mapping_value_from_field (data : record) (field : string)
  : result (pyval * bool) :=
  bind (dict_getitem data field) (fun v =>
  Ok (if truthy v || isinstance_int v then (v, true) else (VStr "null", false))).

(** [extension_mapping.get("transformation") == "Time Stamp"]. *)
Definition is_time_stamp (extension_mapping : rule) : bool :=
  match extension_mapping !! "transformation" with
  | Some (VStr t) => String.eqb t "Time Stamp"
  | _ => false
  end.

Section Resolver.

Variable repr : pyval -> string.
Variable jsonpath : record -> pyval -> result (list pyval).

(** [int(v)] of the interpreter; [None] when it raises. *)
Variable py_int : pyval -> option Z.

(** [get_field_value_from_data]: the value and [mapped_field]. *)
Definition get_field_value_from_data (extension_mapping : rule) (data : record)
    (is_json_path : bool) : result (pyval * bool) :=
  let mapped_field := false in
  match extension_mapping !! "mapping_field" with
  | Some mapping_field =>
      if truthy mapping_field then
        if is_json_path then
          bind (jsonpath data mapping_field) (fun value =>
          match value with
          | [] => Raise (FieldNotFoundError mapping_field)
          | _ :: _ =>
              Ok (VStr (String.concat "," (map (py_str repr) value)), true)
          end)
        else
          let absent :=
            match extension_mapping !! "default_value" with
            | Some d => Ok (d, mapped_field)
            | None => Raise (FieldNotFoundError mapping_field)
            end in
          match mapping_field with
          | VStr s =>
              match data !! s with
              | Some v =>
                  if is_time_stamp extension_mapping && truthy v then
                    match py_int v with
                    | Some n => Ok (VInt n, true)
                    | None => get_mapping_value_from_field data s
                    end
                  else get_mapping_value_from_field data s
              | None => absent
              end
          | VList _ | VDict _ => Raise TypeError
          | _ => absent
          end
      else
        bind (dict_getitem extension_mapping "default_value") (fun d =>
        Ok (d, mapped_field))
  | None =>
      bind (dict_getitem extension_mapping "default_value") (fun d =>
      Ok (d, mapped_field))
  end.

(** Where a resolved value comes from. [from_record]: the joined matches
    of the JSON path, or the value stored under the mapped field (converted
    by [int] for a ["Time Stamp"]). *)
Inductive from_record (m : rule) (data : record) : bool -> pyval -> Prop :=
| from_json_path (mf : pyval) (matches : list pyval) :
    m !! "mapping_field" = Some mf -> truthy mf = true ->
    jsonpath data mf = Ok matches -> matches <> [] ->
    from_record m data true (VStr (String.concat "," (map (py_str repr) matches)))
| from_field (s : string) (raw : pyval) :
    m !! "mapping_field" = Some (VStr s) -> s <> "" ->
    data !! s = Some raw -> truthy raw || isinstance_int raw = true ->
    from_record m data false raw
| from_time_stamp (s : string) (raw : pyval) (n : Z) :
    m !! "mapping_field" = Some (VStr s) -> s <> "" ->
    data !! s = Some raw -> truthy raw = true -> py_int raw = Some n ->
    from_record m data false (VInt n).

(** [from_default]: the configured [default_value], taken when no mapping
    is configured or when the mapped field is not in the record. *)
Inductive from_default (m : rule) (data : record) : bool -> pyval -> Prop :=
| default_no_mapping (jp : bool) (d : pyval) :
    m !! "mapping_field" = None -> m !! "default_value" = Some d ->
    from_default m data jp d
| default_empty_mapping (jp : bool) (mf d : pyval) :
    m !! "mapping_field" = Some mf -> truthy mf = false ->
    m !! "default_value" = Some d ->
    from_default m data jp d
| default_field_absent (s : string) (d : pyval) :
    m !! "mapping_field" = Some (VStr s) -> s <> "" -> data !! s = None ->
    m !! "default_value" = Some d ->
    from_default m data false d.


(** [str.lower] and the tenant name that [AlertsHelper] gives. *)
Variable str_lower : string -> string.
Variable tenant_name : pyval.

(** [mapping_variables] of [get_headers]. *)
Definition mapping_variables (data_type : string) : gmap string pyval :=
  if String.eqb data_type "webtx" then ∅
  else {[ "$tenant_name" := tenant_name ]}.

(** The "Handle variable mappings" step on the value just stored. *)
Definition handle_variable (data_type : string) (v : pyval) : pyval :=
  match v with
  | VStr s =>
      match mapping_variables data_type !! str_lower s with
      | Some x => x
      | None => v
      end
  | _ => v
  end.

(** The loop of [get_headers] over [header_mappings.items()], from the
    [headers] and [mapped_field_flag] reached so far. A
    [FieldNotFoundError] skips the field, any other exception leaves the
    function. *)
Fixpoint get_headers_loop (items : list (string * rule)) (data : record)
    (data_type : string) (headers : gmap string pyval) (mapped_field_flag : bool)
  : result (gmap string pyval * bool) :=
  match items with
  | [] => Ok (headers, mapped_field_flag)
  | (cef_header, header_mapping) :: rest =>
      match get_field_value_from_data header_mapping data false with
      | Ok (v, mapped_field) =>
          get_headers_loop rest data data_type
            (<[cef_header := handle_variable data_type v]> headers)
            (if mapped_field then mapped_field else mapped_field_flag)
      | Raise (FieldNotFoundError _) =>
          get_headers_loop rest data data_type headers mapped_field_flag
      | Raise e => Raise e
      end
  end.

Definition get_headers (header_mappings : list (string * rule)) (data : record)
    (data_type : string) : result (gmap string pyval * bool) :=
  get_headers_loop header_mappings data data_type ∅ false.

(** ["is_json_path" in extension_mapping]. *)
Definition has_is_json_path (extension_mapping : rule) : bool :=
  match extension_mapping !! "is_json_path" with
  | Some _ => true
  | None => false
  end.

(** The loop of [get_extensions]. *)
Fixpoint get_extensions_loop (items : list (string * rule)) (data : record)
    (extension : gmap string pyval) (mapped_field_flag : bool)
  : result (gmap string pyval * bool) :=
  match items with
  | [] => Ok (extension, mapped_field_flag)
  | (cef_extension, extension_mapping) :: rest =>
      match get_field_value_from_data extension_mapping data
              (has_is_json_path extension_mapping) with
      | Ok (v, mapped_field) =>
          get_extensions_loop rest data (<[cef_extension := v]> extension)
            (if mapped_field then mapped_field else mapped_field_flag)
      | Raise (FieldNotFoundError _) =>
          get_extensions_loop rest data extension mapped_field_flag
      | Raise e => Raise e
      end
  end.

Definition get_extensions (extension_mappings : list (string * rule))
    (data : record) : result (gmap string pyval * bool) :=
  get_extensions_loop extension_mappings data ∅ false.

(** [cef_generator.get_cef_event(data, header, extension, ...)] of
    [utils/solarwinds_cef_generator.py]. *)
Variable get_cef_event :
  record -> gmap string pyval -> gmap string pyval -> result pyval.

(** The mappings of a subtype: the items of [subtype_mapping["header"]]
    and of [subtype_mapping["extension"]], in the order of the dictionary;
    [None] when the key is missing. *)
Record subtype_mapping : Type := {
  sm_header : option (list (string * rule));
  sm_extension : option (list (string * rule))
}.

(** One round of the loop [for data in raw_data] of [transform] (the
    [transformData] branch): the event appended to [transformed_data], if
    any. *)
Definition transform_record (sm : subtype_mapping) (data : record)
    (data_type : string) : option pyval :=
  if negb (truthy (VDict data)) then None
  else
    match sm_header sm with
    | None => None
    | Some header_mappings =>
        match get_headers header_mappings data data_type with
        | Raise _ => None
        | Ok (header, mapped_flag_header) =>
            match sm_extension sm with
            | None => None
            | Some extension_mappings =>
                match get_extensions extension_mappings data with
                | Raise _ => None
                | Ok (extension, mapped_flag_extension) =>
                    if negb (mapped_flag_header || mapped_flag_extension)
                    then None
                    else
                      match get_cef_event data header extension with
                      | Ok cef_generated_event =>
                          if truthy cef_generated_event
                          then Some cef_generated_event
                          else None
                      | Raise _ => None
                      end
                end
            end
        end
    end.

(** [transform(raw_data, data_type, subtype)] once the mappings of the
    subtype are found: the list [transformed_data]. *)
Fixpoint transform (sm : subtype_mapping) (raw_data : list record)
    (data_type : string) : list pyval :=
  match raw_data with
  | [] => []
  | data :: rest =>
      match transform_record sm data data_type with
      | Some ev => ev :: transform sm rest data_type
      | None => transform sm rest data_type
      end
  end.

End Resolver.

End SolarWinds.

(** ** [src/arcsight/utils/arcsight_cef_generator.py] *)

Module ArcSight.

(** [c * k] for a string [c]. *)
Fixpoint str_repeat (c : string) (k : nat) : string :=
  match k with
  | O => ""
  | S k' => c ++ str_repeat c k'
  end.

(** [sorted(l)] on strings: the ascending arrangement of [l] in the order
    of the code points. *)
Fixpoint insert_sorted (x : string) (l : list string) : list string :=
  match l with
  | [] => [x]
  | y :: l' => if String.leb x y then x :: l else y :: insert_sorted x l'
  end.

Definition sorted (l : list string) : list string :=
  fold_right insert_sorted [] l.

Section Generator.

Variable repr : pyval -> string.

(** [epoch_convertor()]: the function [convert(val, debug_name)]. *)
Definition epoch_convertor (val : pyval) : result pyval :=
  let val := py_str repr val in
  if Nat.ltb (len val) 13
  then Ok (VStr (val ++ str_repeat "0" (13 - len val)))
  else Ok (VStr val).

(** The local time of the platform at [seconds] and [microseconds] after
    the epoch; [None] where the platform or the range of years refuses. *)
Variable localtime : Z -> Z -> option datetime.

(** The seconds and microseconds the interpreter reads from a float
    timestamp; [None] for NaN, an infinity and an overflow. *)
Variable float_timeval : spec_float -> option (Z * Z).

(** [datetime.datetime.fromtimestamp(val)]: a number is converted, any
    other value is a [TypeError]. *)
Definition fromtimestamp (val : pyval) : result datetime :=
  let at_time (seconds microseconds : Z) :=
    match localtime seconds microseconds with
    | Some t => Ok t
    | None => Raise ValueError
    end in
  match val with
  | VInt n => at_time n 0
  | VBool b => at_time (Z.b2z b) 0
  | VFloat f =>
      match float_timeval f with
      | Some (seconds, microseconds) => at_time seconds microseconds
      | None => Raise ValueError
      end
  | _ => Raise TypeError
  end.

(** [datetime_converter()]: the function [convert(val, debug_name)]. *)
Definition datetime_converter (val : pyval) : result pyval :=
  match fromtimestamp val with
  | Ok t => Ok (VDateTime t)
  | Raise _ => Raise CEFTypeError
  end.

(** [SEVERITY_MAP], [AUDIT_SEVERITY_MAP] and [SEVERITY_UNKNOWN] of
    [utils/arcsight_constants.py], and [str.lower]. *)
Variable SEVERITY_MAP : gmap string pyval.
Variable AUDIT_SEVERITY_MAP : gmap string pyval.
Variable SEVERITY_UNKNOWN : pyval.
Variable str_lower : string -> string.

(** The value assigned to [headers["Severity"]] in [get_cef_event]. *)
Definition severity_value (subtype : string) (raw : pyval) : pyval :=
  if String.eqb subtype "audit"
  then default SEVERITY_UNKNOWN (AUDIT_SEVERITY_MAP !! str_lower (py_str repr raw))
  else default SEVERITY_UNKNOWN (SEVERITY_MAP !! str_lower (py_str repr raw)).

(** [headers] after the round of the loop [for header in possible_headers]
    of [get_cef_event] for ["Severity"], before the sanitizer is called. *)
Definition normalize_severity_header (headers : gmap string pyval)
    (subtype : string) : gmap string pyval :=
  match headers !! "Severity" with
  | Some raw => <["Severity" := severity_value subtype raw]> headers
  | None => headers
  end.

(** ["{}={}".format(k, v)]. *)
Definition format_pair (kv : string * pyval) : string :=
  fst kv ++ "=" ++ py_str repr (snd kv).

(** [extensions_str] of [get_cef_event], from the items of
    [extension_strs] in the order of the dictionary. *)
Definition extensions_str (extension_strs : list (string * pyval)) : string :=
  String.concat " " (sorted (map format_pair extension_strs)).

End Generator.

(** The extension portion as the specification words it: the pairs sorted
    by key, then rendered and joined. *)
Fixpoint insert_by_key (x : string * pyval) (l : list (string * pyval))
  : list (string * pyval) :=
  match l with
  | [] => [x]
  | y :: l' =>
      if String.leb (fst x) (fst y) then x :: l else y :: insert_by_key x l'
  end.

Definition extensions_str_by_key (repr : pyval -> string)
    (extension_strs : list (string * pyval)) : string :=
  String.concat " "
    (map (format_pair repr) (fold_right insert_by_key [] extension_strs)).

(** [a] is a prefix of [b]; two keys are related when one is a prefix of
    the other. *)
Fixpoint is_prefix (a b : string) : bool :=
  match a, b with
  | EmptyString, _ => true
  | String _ _, EmptyString => false
  | String c a', String d b' => Ascii.eqb c d && is_prefix a' b'
  end.

Definition prefix_related (a b : string) : bool :=
  is_prefix a b || is_prefix b a.

(** A platform for the examples: local time is UTC, years 1 to 9999. *)
Definition civil_from_days (days : Z) : Z * Z * Z :=
  let z := days + 719468 in
  let era := z / 146097 in
  let doe := z - era * 146097 in
  let yoe := (doe - doe / 1460 + doe / 36524 - doe / 146096) / 365 in
  let doy := doe - (365 * yoe + yoe / 4 - yoe / 100) in
  let mp := (5 * doy + 2) / 153 in
  let d := doy - (153 * mp + 2) / 5 + 1 in
  let m := if Z.ltb mp 10 then mp + 3 else mp - 9 in
  let y := yoe + era * 400 + (if Z.leb m 2 then 1 else 0) in
  (y, m, d).

Definition utc_localtime (seconds microseconds : Z) : option datetime :=
  let '(y, m, d) := civil_from_days (seconds / 86400) in
  let r := seconds mod 86400 in
  if Z.leb 1 y && Z.leb y 9999
  then Some (mk_datetime y m d (r / 3600) (r mod 3600 / 60) (r mod 60) microseconds)
  else None.

End ArcSight.

(** ** [src/cloudtrail/utils/cloudtrail_helper.py] *)

Module CloudTrail.

(** A name between double quotes, as the messages have it. *)
Definition quoted (name : string) : string :=
  String (ascii_of_nat 34) name ++ String (ascii_of_nat 34) "".

(** [validate_header_extension_subdict(instance)]: the three checks, by
    the keys that the rule has. *)
Definition validate_header_extension_subdict (instance : rule) : result unit :=
  match instance !! "mapping_field", instance !! "default_value" with
  | Some m, Some d =>
      if negb (truthy m) && negb (truthy d)
      then Raise (JsonSchemaValidationError
                    ("Both " ++ quoted "mapping" ++ " and " ++ quoted "default"
                     ++ " can not be empty"))
      else Ok tt
  | Some m, None =>
      if negb (truthy m)
      then Raise (JsonSchemaValidationError
                    (quoted "mapping" ++ " field can not be empty as no "
                     ++ quoted "default" ++ " is provided"))
      else Ok tt
  | None, Some d =>
      if negb (truthy d)
      then Raise (JsonSchemaValidationError
                    (quoted "default" ++ " field can not be empty as no "
                     ++ quoted "mapping" ++ " is provided"))
      else Ok tt
  | None, None => Ok tt
  end.

(** The keyword ["type"] of JSON Schema on a property that may be absent. *)
Definition property_has_type (is_type : pyval -> bool) (instance : rule)
    (name : string) : bool :=
  match instance !! name with
  | Some v => is_type v
  | None => true
  end.

Definition is_boolean (v : pyval) : bool :=
  match v with
  | VBool _ => true
  | _ => false
  end.

(** ["required": [name]]. *)
Definition required (instance : rule) (name : string) : bool :=
  match instance !! name with
  | Some _ => true
  | None => false
  end.

(** ["oneOf"]: exactly one of the sub-schemas accepts. *)
Definition one_of (accepted : list bool) : bool :=
  Nat.eqb (length (List.filter (fun b : bool => b) accepted)) 1.

(** [validate(instance=instance, schema=schema)] with the schema of
    [validate_extension_field]. *)
Definition extension_field_schema (instance : pyval) : bool :=
  match instance with
  | VDict d =>
      property_has_type isinstance_str d "mapping_field"
      && property_has_type isinstance_str d "default_value"
      && property_has_type isinstance_str d "transformation"
      && property_has_type is_boolean d "is_json_path"
      && Nat.leb 0 (size d)
      && Nat.leb (size d) 4
      && one_of [ one_of [required d "mapping_field"; required d "default_value"];
                  required d "mapping_field" && required d "default_value" ]
  | _ => false
  end.

(** The rule has nothing under [name], or a falsy value. *)
Definition absent_or_empty (instance : rule) (name : string) : bool :=
  match instance !! name with
  | Some v => negb (truthy v)
  | None => true
  end.

(** [validate_extension_field(instance)]. *)
Definition validate_extension_field (instance : pyval) : result unit :=
  if extension_field_schema instance then
    match instance with
    | VDict d => validate_header_extension_subdict d
    | _ => Raise TypeError
    end
  else Raise (JsonSchemaValidationError "instance is not valid under the schema").

End CloudTrail.

(** ** The precedence table of the resolver

    The table of the docstring of [get_field_value_from_data], over the
    presence of a default, of a mapping and of the mapped field in the
    record. *)

Module Precedence.

Inductive outcome : Type :=
| MappedValue
| DefaultValue
| NotFound
| InvalidConfiguration.

Definition precedence_table (default_present mapping_present value_present : bool)
  : outcome :=
  match default_present, mapping_present, value_present with
  | true, true, true => MappedValue
  | true, true, false => DefaultValue
  | true, false, true => DefaultValue
  | false, true, true => MappedValue
  | true, false, false => DefaultValue
  | false, true, false => NotFound
  | false, false, true => InvalidConfiguration
  | false, false, false => InvalidConfiguration
  end.

(** A default is present when the rule has the key [default_value]; a
    mapping is present when the rule has a truthy [mapping_field]; the
    value is present when the record has the mapped field. *)
Definition default_present (m : rule) : bool :=
  match m !! "default_value" with
  | Some _ => true
  | None => false
  end.

Definition mapping_present (m : rule) : bool :=
  match m !! "mapping_field" with
  | Some mf => truthy mf
  | None => false
  end.

Definition value_present (m : rule) (data : record) : bool :=
  match m !! "mapping_field" with
  | Some (VStr s) =>
      match data !! s with
      | Some _ => true
      | None => false
      end
  | _ => false
  end.

Definition table_outcome (m : rule) (data : record) : outcome :=
  precedence_table (default_present m) (mapping_present m) (value_present m data).

(** A mapping of several keys: a [mapping_field] with a hyphen. *)
Definition composite (m : rule) : bool :=
  match m !! "mapping_field" with
  | Some (VStr s) => negb (Nat.eqb (length (split "-" s)) 1)
  | _ => false
  end.

(** The rule has a string, or nothing, under [name]. *)
Definition string_or_absent (m : rule) (name : string) : bool :=
  match m !! name with
  | Some v => isinstance_str v
  | None => true
  end.

End Precedence.
Import Precedence.

(** ** Data of the examples *)

Module Examples.

(** [repr] in the examples: their values are strings, integers, booleans
    or [None], for which [str] does not call [repr]. *)
Definition no_repr (v : pyval) : string := "".

(** A record with a float zero. *)
Definition float_zero : pyval := VFloat (S754_zero false).
Definition score_record : gmap string pyval := {[ "score" := float_zero ]}.

(** A record with an empty string and an integer zero. *)
Definition user_record : gmap string pyval :=
  {[ "user" := VStr "" ; "count" := VInt 0 ]}.

(** [jsonpath] in the examples: the paths [$.name] on a record, as the
    package answers them; the examples use no other path. *)
Definition jsonpath_member (data : gmap string pyval) (path : pyval)
  : result (list pyval) :=
  match path with
  | VStr (String "$" (String "." name)) =>
      match data !! name with
      | Some v => Ok [v]
      | None => Ok []
      end
  | _ => Ok []
  end.

(** [int] in the examples, which call it on integers and booleans only. *)
Definition int_of_int (v : pyval) : option Z :=
  match v with
  | VInt n => Some n
  | VBool b => Some (Z.b2z b)
  | _ => None
  end.

(** [str.lower] on ASCII strings. *)
Definition ascii_lower (c : ascii) : ascii :=
  let n := nat_of_ascii c in
  if Nat.leb 65 n && Nat.leb n 90 then ascii_of_nat (n + 32) else c.

Definition lower (s : string) : string :=
  string_of_list_ascii (map ascii_lower (list_ascii_of_string s)).

(** A CEF generator that renders every record as the same line. *)
Definition fixed_cef_event (data header extension : gmap string pyval)
  : result pyval := Ok (VStr "CEF:0").

(** Mappings of a subtype: one header with a default only, one extension
    mapped to the field [user]. *)
Definition vendor_rule : gmap string pyval := {[ "default_value" := VStr "Netskope" ]}.
Definition user_rule : gmap string pyval :=
  {[ "mapping_field" := VStr "user" ; "default_value" := VStr "unknown" ]}.
Definition alert_mapping : SolarWinds.subtype_mapping :=
  {| SolarWinds.sm_header := Some [("Device Vendor", vendor_rule)];
     SolarWinds.sm_extension := Some [("suser", user_rule)] |}.

(** Three records: [user] set, [user] missing, [user] empty. *)
Definition alice_record : gmap string pyval := {[ "user" := VStr "alice" ]}.
Definition other_record : gmap string pyval := {[ "app" := VStr "box" ]}.

(** A rule in the JSON path mode, with a default. *)
Definition path_rule : gmap string pyval :=
  {[ "mapping_field" := VStr "$.user" ; "default_value" := VStr "unknown" ;
     "is_json_path" := VBool true ]}.

(** Composite rules and records for them. *)
Definition user_app_rule : gmap string pyval :=
  {[ "mapping_field" := VStr "user - [app]" ; "default_value" := VStr "none" ]}.
Definition user_count_rule : gmap string pyval :=
  {[ "mapping_field" := VStr "user-count" ; "default_value" := VStr "none" ]}.
Definition tab : string := String (ascii_of_nat 9) "".
Definition tab_mapping : string := "user" ++ tab ++ "-app".
Definition tab_rule : gmap string pyval :=
  {[ "mapping_field" := VStr tab_mapping ; "default_value" := VStr "none" ]}.
Definition user_app_record : gmap string pyval :=
  {[ "user" := VStr "alice" ; "app" := VStr "box" ; "count" := VInt 5 ]}.

(** Two extension dictionaries: the same pairs inserted in two orders, and
    a key that is a prefix of another key. *)
Definition pairs_b_a : list (string * pyval) := [("b", VStr "2"); ("a", VStr "1")].
Definition pairs_a_b : list (string * pyval) := [("a", VStr "1"); ("b", VStr "2")].
Definition pairs_prefix : list (string * pyval) := [("a", VStr "1"); ("a1", VStr "2")].

(** A platform without float timestamps, for the examples on integers. *)
Definition no_float_timeval (f : spec_float) : option (Z * Z) := None.

(** The first second of the epoch. *)
Definition epoch_start : datetime := mk_datetime 1970 1 1 0 0 0 0.

(** Severity tables for the examples. *)
Definition severity_map : gmap string pyval :=
  {[ "low" := VStr "Low" ; "high" := VStr "High" ]}.
Definition audit_severity_map : gmap string pyval :=
  {[ "low" := VStr "Info" ]}.
Definition severity_unknown : pyval := VStr "Unknown".
Definition severity_headers : gmap string pyval :=
  {[ "Name" := VStr "alert" ; "Severity" := VStr "HIGH" ]}.

(** Rules for the load check. *)
Definition empty_rule : gmap string pyval :=
  {[ "mapping_field" := VStr "" ; "default_value" := VStr "" ]}.
Definition empty_mapping_rule : gmap string pyval :=
  {[ "mapping_field" := VStr "" ]}.

(** The euro sign, one character of three bytes, and texts of five and of
    thirteen of them. *)
Definition euro : string :=
  String (ascii_of_nat 226) (String (ascii_of_nat 130) (String (ascii_of_nat 172) "")).
Definition five_euros : string := ArcSight.str_repeat euro 5.
Definition thirteen_euros : string := ArcSight.str_repeat euro 13.

End Examples.
Import Examples.

(** ** The subtype lookup and the JSON branch of [transform] *)

(** [get_subtype_mapping(mappings, subtype)], the same in
    [src/chronicle_cls/main.py] and [src/solarwinds/main.py]; [mappings] is
    given by its items in the order of the dictionary. *)
Module Subtype.

Section Lookup.

Variable str_lower : string -> string.
Variable str_upper : string -> string.
Context {V : Type}.

(** [{k.lower(): v for k, v in mappings.items()}]: a later item replaces an
    earlier one with the same lower-case key. *)
Definition lower_keys (mappings : list (string * V)) : gmap string V :=
  fold_left (fun acc kv => <[str_lower (fst kv) := snd kv]> acc) mappings ∅.

Definition get_subtype_mapping (mappings : list (string * V)) (subtype : string)
  : result V :=
  let mappings := lower_keys mappings in
  match mappings !! str_lower subtype with
  | Some v => Ok v
  | None =>
      match mappings !! str_upper subtype with
      | Some v => Ok v
      | None => Raise (KeyError (str_upper subtype))
      end
  end.

End Lookup.

End Subtype.

(** [src/chronicle_cls/main.py]: [map_json_data], the JSON branch of
    [transform], [get_headers] and [get_extensions]. The list [mappings]
    of the JSON branch holds field names. *)
Module ChronicleTransform.

(** The loop [for key in mappings] with the [mapped_dict] built so far. *)
Fixpoint map_json_loop (mappings : list string) (data mapped_dict : record)
  : record :=
  match mappings with
  | [] => mapped_dict
  | key :: rest =>
      match data !! key with
      | Some v => map_json_loop rest data (<[key := v]> mapped_dict)
      | None => map_json_loop rest data mapped_dict
      end
  end.

Definition map_json_data (mappings : list string) (data : record) : record :=
  match mappings with
  | [] => data
  | _ :: _ => map_json_loop mappings data ∅
  end.

(** The loop [for data in raw_data] of the JSON branch. *)
Definition transform_json_loop (subtype_mapping : list string)
    (raw_data : list record) : list record :=
  map (map_json_data subtype_mapping) raw_data.

Section JsonBranch.

Variable str_lower : string -> string.
Variable str_upper : string -> string.

(** [get_chronicle_mappings(self.mappings, "json")] followed by
    [chronicle_mappings["json"][data_type]]: the items of the dictionary of
    the data type, from a subtype to its list of field names, or the
    exception raised. *)
Variable json_mappings : string -> result (list (string * list string)).

(** The branch of [transform] taken when [transformData] is off. A data
    type other than ["alerts"] and ["events"] gets [raw_data] back before
    any mapping is read; every handler of the branch logs and raises
    again. *)
Definition transform_json (raw_data : list record) (data_type subtype : string)
  : result (list record) :=
  if negb (existsb (String.eqb data_type) ["alerts"; "events"])
  then Ok raw_data
  else
    bind (json_mappings data_type) (fun mappings =>
    bind (Subtype.get_subtype_mapping str_lower str_upper mappings subtype)
      (fun subtype_mapping =>
    Ok (transform_json_loop subtype_mapping raw_data))).

End JsonBranch.

Section Fields.

Variable repr : pyval -> string.
Variable jsonpath : record -> pyval -> result (list pyval).
Variable str_lower : string -> string.
Variable tenant_name : pyval.

(** [datetime.datetime.utcfromtimestamp(data.get("timestamp",
    time.time())).strftime("%Y-%m-%dT%H:%M:%SZ")]. *)
Variable event_timestamp : record -> result pyval.

(** The "Handle variable mappings" step: [mapping_variables] is
    [{"$tenant_name": tenant.name}]. *)
Definition handle_variable (v : pyval) : pyval :=
  match v with
  | VStr s =>
      if String.eqb (str_lower s) "$tenant_name" then tenant_name else v
  | _ => v
  end.

Fixpoint get_headers_loop (items : list (string * rule)) (data : record)
    (headers : gmap string pyval) : result (gmap string pyval) :=
  match items with
  | [] => Ok headers
  | (udm_header, header_mapping) :: rest =>
      match Chronicle.get_field_value_from_data repr jsonpath header_mapping
              data false with
      | Ok v =>
          get_headers_loop rest data (<[udm_header := handle_variable v]> headers)
      | Raise (FieldNotFoundError _) => get_headers_loop rest data headers
      | Raise e => Raise e
      end
  end.

Definition get_headers (header_mappings : list (string * rule)) (data : record)
  : result (gmap string pyval) :=
  bind (event_timestamp data) (fun ts =>
  get_headers_loop header_mappings data {[ "metadata.event_timestamp" := ts ]}).

Fixpoint get_extensions_loop (items : list (string * rule)) (data : record)
    (extension : gmap string pyval) : result (gmap string pyval) :=
  match items with
  | [] => Ok extension
  | (udm_extension, extension_mapping) :: rest =>
      match Chronicle.get_field_value_from_data repr jsonpath extension_mapping
              data (SolarWinds.has_is_json_path extension_mapping) with
      | Ok v => get_extensions_loop rest data (<[udm_extension := v]> extension)
      | Raise (FieldNotFoundError _) => get_extensions_loop rest data extension
      | Raise e => Raise e
      end
  end.

Definition get_extensions (extension_mappings : list (string * rule))
    (data : record) : result (gmap string pyval) :=
  get_extensions_loop extension_mappings data ∅.

End Fields.

End ChronicleTransform.

(** [src/solarwinds/main.py]: [map_json_data] and the JSON branch of
    [transform]. *)
Module SolarWindsJson.

Definition map_json_data (mappings : list string) (data : record) : record :=
  match mappings with
  | [] => data
  | _ :: _ =>
      if negb (truthy (VDict data)) then data
      else ChronicleTransform.map_json_loop mappings data ∅
  end.

(** The loop [for data in raw_data]: a falsy [mapped_dict] is counted and
    left out. *)
Fixpoint transform_json_loop (subtype_mapping : list string)
    (raw_data : list record) : list record :=
  match raw_data with
  | [] => []
  | data :: rest =>
      let mapped_dict := map_json_data subtype_mapping data in
      if truthy (VDict mapped_dict)
      then mapped_dict :: transform_json_loop subtype_mapping rest
      else transform_json_loop subtype_mapping rest
  end.

Section JsonBranch.

Variable str_lower : string -> string.
Variable str_upper : string -> string.

(** [get_solarwinds_mappings(self.mappings, "json")] followed by
    [solarwinds_mappings["json"][data_type]]: the items of the dictionary
    of the data type, or the exception raised. *)
Variable json_mappings : string -> result (list (string * list string)).

(** The branch of [transform] taken when [transformData] is off, for every
    data type; an empty [subtype_mapping] gets [raw_data] back. *)
Definition transform_json (raw_data : list record) (data_type subtype : string)
  : result (list record) :=
  bind (json_mappings data_type) (fun mappings =>
  bind (Subtype.get_subtype_mapping str_lower str_upper mappings subtype)
    (fun subtype_mapping =>
  match subtype_mapping with
  | [] => Ok raw_data
  | _ :: _ => Ok (transform_json_loop subtype_mapping raw_data)
  end)).

End JsonBranch.

End SolarWindsJson.

(** ** The sanitizers and the field tables of the CEF generator *)

(** [src/arcsight/utils/arcsight_cef_generator.py]: [epoch_sanitizer],
    [datetime_sanitizer], [_type_converter], [_valid_extensions] and the
    loop over the extensions of [get_cef_event]. *)
Module ArcSightRegistry.

(** [epoch_sanitizer()]: the function [sanitize(n, debug_name)]. *)
Definition epoch_sanitizer (n : pyval) : result pyval :=
  if isinstance_str n then Ok n else Raise CEFTypeError.

Section Sanitizers.

(** [t.strftime("%b %d %Y %H:%M:%S")]. *)
Variable strftime : datetime -> string.

(** [datetime_sanitizer()]: the function [sanitize(t, debug_name)]. *)
Definition datetime_sanitizer (t : pyval) : result pyval :=
  match t with
  | VDateTime d => Ok (VStr (strftime d))
  | _ => Raise CEFTypeError
  end.

End Sanitizers.

(** The mapping of a data type in the taxonomy: the subtypes with their
    sections ([header], [extension]) of rules, or, as under ["json"], the
    subtypes with their lists of field names. *)
Inductive data_mapping : Type :=
| CefMapping (subtypes : list (string * list (string * list (string * rule))))
| JsonMapping (subtypes : list (string * list string)).

Section FieldTable.

Variable repr : pyval -> string.

(** The converters of [_type_converter], or the sanitizers of
    [_valid_extensions], by the name of the transformation. *)
Context {C : Type}.
Variable table : gmap string C.

(** [table[key]]. *)
Definition table_getitem (key : pyval) : result C :=
  match key with
  | VStr t =>
      match table !! t with
      | Some c => Ok c
      | None => Raise (KeyError t)
      end
  | VList _ | VDict _ => Raise TypeError
  | _ => Raise (KeyError (py_str repr key))
  end.

(** [field_mapping.get("transformation", "String")]. *)
Definition transformation_of (field_mapping : rule) : pyval :=
  default (VStr "String") (field_mapping !! "transformation").

(** The four loops, from the innermost; an entry is the named tuple
    [(key_name, converter)] or [(key_name, sanitizer)]. *)
Fixpoint fields_loop (value : list (string * rule))
    (acc : gmap string (string * C)) : result (gmap string (string * C)) :=
  match value with
  | [] => Ok acc
  | (field, field_mapping) :: rest =>
      bind (table_getitem (transformation_of field_mapping)) (fun c =>
      fields_loop rest (<[field := (field, c)]> acc))
  end.

Fixpoint sections_loop (subtype_mapping : list (string * list (string * rule)))
    (acc : gmap string (string * C)) : result (gmap string (string * C)) :=
  match subtype_mapping with
  | [] => Ok acc
  | (key, value) :: rest =>
      bind (fields_loop value acc) (fun acc' => sections_loop rest acc')
  end.

Fixpoint subtypes_loop
    (subtypes : list (string * list (string * list (string * rule))))
    (acc : gmap string (string * C)) : result (gmap string (string * C)) :=
  match subtypes with
  | [] => Ok acc
  | (subtype, subtype_mapping) :: rest =>
      bind (sections_loop subtype_mapping acc) (fun acc' => subtypes_loop rest acc')
  end.

Fixpoint data_types_loop (mapping : list (string * data_mapping))
    (acc : gmap string (string * C)) : result (gmap string (string * C)) :=
  match mapping with
  | [] => Ok acc
  | (data_type, dm) :: rest =>
      if String.eqb data_type "json" then data_types_loop rest acc
      else
        match dm with
        | CefMapping subtypes =>
            bind (subtypes_loop subtypes acc) (fun acc' => data_types_loop rest acc')
        | JsonMapping [] => data_types_loop rest acc
        | JsonMapping (_ :: _) => Raise AttributeError
        end
  end.

(** [_type_converter()] with the converters as [table], and
    [_valid_extensions()] with the sanitizers as [table], on
    [self.mapping["taxonomy"]]. *)
Definition field_table (taxonomy : list (string * data_mapping))
  : result (gmap string (string * C)) :=
  data_types_loop taxonomy ∅.

End FieldTable.

(** The rules that the four loops visit, in the order of the visit; [None]
    when a data type other than ["json"] is not made of sections. *)
Definition subtype_rules
    (subtypes : list (string * list (string * list (string * rule))))
  : list (string * rule) :=
  concat (map (fun st => concat (map snd (snd st))) subtypes).

Fixpoint taxonomy_rules (taxonomy : list (string * data_mapping))
  : option (list (string * rule)) :=
  match taxonomy with
  | [] => Some []
  | (data_type, dm) :: rest =>
      if String.eqb data_type "json" then taxonomy_rules rest
      else
        match dm with
        | CefMapping subtypes =>
            match taxonomy_rules rest with
            | Some rules => Some (subtype_rules subtypes ++ rules)%list
            | None => None
            end
        | JsonMapping [] => taxonomy_rules rest
        | JsonMapping (_ :: _) => None
        end
  end.

Section ExtensionLoop.

Variable extension_converters : gmap string (string * (pyval -> result pyval)).
Variable valid_extensions : gmap string (string * (pyval -> result pyval)).

(** [self._equals_escaper], made by [escaper("=")]. *)
Variable equals_escaper : string -> string.

(** The loop [for name, value in extensions.items()] of [get_cef_event]
    with the [extension_strs] built so far: a field whose converter or
    sanitizer is missing or raises is logged and left out. *)
Fixpoint extension_loop (items : list (string * pyval))
    (extension_strs : gmap string pyval) : gmap string pyval :=
  match items with
  | [] => extension_strs
  | (name, value) :: rest =>
      match extension_converters !! name with
      | None => extension_loop rest extension_strs
      | Some (_, converter) =>
          match converter value with
          | Raise _ => extension_loop rest extension_strs
          | Ok value =>
              match valid_extensions !! name with
              | None => extension_loop rest extension_strs
              | Some (key_name, sanitizer) =>
                  match sanitizer value with
                  | Raise _ => extension_loop rest extension_strs
                  | Ok sanitized_value =>
                      let sanitized_value :=
                        match sanitized_value with
                        | VStr s => VStr (equals_escaper s)
                        | _ => sanitized_value
                        end in
                      extension_loop rest
                        (<[key_name := sanitized_value]> extension_strs)
                  end
              end
          end
      end
  end.

(** What one field adds to [extension_strs]: the key and the value stored,
    or [None] when the field is left out. *)
Definition extension_value (name : string) (value : pyval)
  : option (string * pyval) :=
  match extension_converters !! name with
  | None => None
  | Some (_, converter) =>
      match converter value with
      | Raise _ => None
      | Ok value =>
          match valid_extensions !! name with
          | None => None
          | Some (key_name, sanitizer) =>
              match sanitizer value with
              | Raise _ => None
              | Ok (VStr s) => Some (key_name, VStr (equals_escaper s))
              | Ok sanitized_value => Some (key_name, sanitized_value)
              end
          end
      end
  end.

End ExtensionLoop.

End ArcSightRegistry.

(** ** The load of the CloudTrail mappings *)

(** [src/cloudtrail/utils/cloudtrail_helper.py]: [validate_extension],
    [get_cloudtrail_mappings] and [extract_subtypes]. The taxonomy
    [mappings["taxonomy"]] is given by its items; under ["extension"] a
    subtype has a dictionary, given by its items in their order, or a value
    of any other kind, or nothing. *)
Module CloudTrailLoad.

(** The value under ["extension"]. [ExtensionDict] is a dictionary by its
    items in the order of the dictionary; [ExtensionOther] is any value, a
    dictionary among them being read in the order of its finite map. *)
Inductive extension_value : Type :=
| ExtensionDict (items : list (string * pyval))
| ExtensionOther (v : pyval).

Record subtype_map : Type := {
  header : option pyval;
  extension : option extension_value
}.

(** The errors of the load. A [MappingValidationError] is given by what
    its message names: the subtype, the field when it is a rule of the
    extension that failed, and the error of the validation. *)
Inductive load_error : Type :=
| LoadKeyError (key : string)
| MappingValidationError (subtype : string) (cef_field : option string) (err : exn)
| Uncaught (err : exn).

(** The type ["object"] of JSON Schema: the instance is a dictionary. *)
Definition is_object (instance : extension_value) : bool :=
  match instance with
  | ExtensionDict _ => true
  | ExtensionOther (VDict _) => true
  | ExtensionOther _ => false
  end.

(** The number of properties of an object. *)
Definition properties (instance : extension_value) : nat :=
  match instance with
  | ExtensionDict items => length items
  | ExtensionOther (VDict d) => size d
  | ExtensionOther _ => O
  end.

(** [validate_extension(instance)]: the schema
    [{"type": "object", "minProperties": 0}]. *)
Definition validate_extension (instance : extension_value) : result unit :=
  if is_object instance && Nat.leb 0 (properties instance) then Ok tt
  else Raise (JsonSchemaValidationError "instance is not of type 'object'").

(** [subtype_extension.items()]. *)
Definition extension_items (subtype_extension : extension_value)
  : result (list (string * pyval)) :=
  match subtype_extension with
  | ExtensionDict items => Ok items
  | ExtensionOther (VDict d) => Ok (map_to_list d)
  | ExtensionOther _ => Raise AttributeError
  end.

(** The loop [for cef_field, ext_dict in subtype_extension.items()]: a
    [JsonSchemaValidationError] becomes a [MappingValidationError]. *)
Fixpoint validate_fields (subtype : string) (items : list (string * pyval))
  : option load_error :=
  match items with
  | [] => None
  | (cef_field, ext_dict) :: rest =>
      match CloudTrail.validate_extension_field ext_dict with
      | Ok _ => validate_fields subtype rest
      | Raise (JsonSchemaValidationError msg) =>
          Some (MappingValidationError subtype (Some cef_field)
                  (JsonSchemaValidationError msg))
      | Raise err => Some (Uncaught err)
      end
  end.

(** The loop [for subtype, subtype_map in ...items()]: the extension of the
    subtype is validated as a whole, then rule by rule. *)
Fixpoint validate_subtypes (subtypes : list (string * subtype_map))
  : option load_error :=
  match subtypes with
  | [] => None
  | (subtype, sm) :: rest =>
      match extension sm with
      | None => Some (LoadKeyError "extension")
      | Some subtype_extension =>
          match validate_extension subtype_extension with
          | Raise (JsonSchemaValidationError msg) =>
              Some (MappingValidationError subtype None
                      (JsonSchemaValidationError msg))
          | Raise err => Some (Uncaught err)
          | Ok _ =>
              match extension_items subtype_extension with
              | Raise err => Some (Uncaught err)
              | Ok items =>
                  match validate_fields subtype items with
                  | Some e => Some e
                  | None => validate_subtypes rest
                  end
              end
          end
      end
  end.

(** [mappings["taxonomy"][data_type]] on the items of the taxonomy. *)
Fixpoint lookup_data_type (taxonomy : list (string * list (string * subtype_map)))
    (data_type : string) : option (list (string * subtype_map)) :=
  match taxonomy with
  | [] => None
  | (name, subtypes) :: rest =>
      if String.eqb name data_type then Some subtypes
      else lookup_data_type rest data_type
  end.

(** [get_cloudtrail_mappings(mappings, data_type)]: the taxonomy, or the
    error raised. *)
Definition get_cloudtrail_mappings
    (taxonomy : list (string * list (string * subtype_map))) (data_type : string)
  : load_error + list (string * list (string * subtype_map)) :=
  match lookup_data_type taxonomy data_type with
  | None => inl (LoadKeyError data_type)
  | Some data_type_specific_mapping =>
      match validate_subtypes data_type_specific_mapping with
      | Some e => inl e
      | None => inr taxonomy
      end
  end.

(** [extract_subtypes(mappings, data_type)]. *)
Definition extract_subtypes
    (taxonomy : list (string * list (string * subtype_map))) (data_type : string)
  : load_error + list string :=
  match lookup_data_type taxonomy data_type with
  | None => inl (LoadKeyError data_type)
  | Some subtypes => inr (map fst subtypes)
  end.

End CloudTrailLoad.

(** ** More data of the examples *)

Module MoreExamples.

(** [str.upper] on ASCII strings. *)
Definition ascii_upper (c : ascii) : ascii :=
  let n := nat_of_ascii c in
  if Nat.leb 97 n && Nat.leb n 122 then ascii_of_nat (n - 32) else c.

Definition upper (s : string) : string :=
  string_of_list_ascii (map ascii_upper (list_ascii_of_string s)).

(** The subtypes of a data type, two of them equal but for the case. *)
Definition subtype_items : list (string * nat) :=
  [("DLP", 1%nat); ("Malware", 2%nat); ("dlp", 3%nat)].

(** The field names of a JSON mapping, and the JSON mappings of three data
    types. *)
Definition json_fields : list string := ["user"; "app"].
Definition example_json_mappings (data_type : string)
  : result (list (string * list string)) :=
  if String.eqb data_type "alerts" then Ok [("DLP", json_fields); ("Malware", [])]
  else if String.eqb data_type "webtx" then Ok [("v2", json_fields)]
  else if String.eqb data_type "events" then Ok []
  else Raise (KeyError data_type).

(** A rule mapped to a field that no record of the examples has, and a
    rule with neither a mapping nor a default. *)
Definition missing_rule : gmap string pyval := {[ "mapping_field" := VStr "dst" ]}.
Definition broken_rule : gmap string pyval := {[ "transformation" := VStr "String" ]}.
Definition broken_mapping : SolarWinds.subtype_mapping :=
  {| SolarWinds.sm_header := Some [("Device Vendor", vendor_rule); ("Name", broken_rule)];
     SolarWinds.sm_extension := Some [("suser", user_rule)] |}.

(** Converters and sanitizers by transformation, and two taxonomies: in
    the second one a rule names a transformation that is in no table. *)
Definition string_converter (v : pyval) : result pyval :=
  match v with
  | VStr _ => Ok v
  | _ => Raise CEFTypeError
  end.
Definition example_converters : gmap string (pyval -> result pyval) :=
  {[ "String" := string_converter ; "Epoch" := ArcSight.epoch_convertor no_repr ]}.
Definition example_sanitizers : gmap string (pyval -> result pyval) :=
  {[ "String" := string_converter ; "Epoch" := ArcSightRegistry.epoch_sanitizer ]}.
Definition epoch_rule : gmap string pyval :=
  {[ "mapping_field" := VStr "timestamp" ; "transformation" := VStr "Epoch" ]}.
Definition bogus_rule : gmap string pyval :=
  {[ "mapping_field" := VStr "user" ; "transformation" := VStr "Bogus" ]}.
Definition example_rules : list (string * gmap string pyval) :=
  [("Device Vendor", vendor_rule); ("suser", user_rule); ("rt", epoch_rule)].
Definition example_taxonomy : list (string * ArcSightRegistry.data_mapping) :=
  [("json", ArcSightRegistry.JsonMapping [("dlp", ["user"])]);
   ("alerts", ArcSightRegistry.CefMapping
      [("dlp", [("header", [("Device Vendor", vendor_rule)]);
                ("extension", [("suser", user_rule); ("rt", epoch_rule)])])])].
Definition bogus_taxonomy : list (string * ArcSightRegistry.data_mapping) :=
  [("alerts", ArcSightRegistry.CefMapping
      [("dlp", [("extension", [("suser", bogus_rule)])])])].
Definition built_table (r : result (gmap string (string * (pyval -> result pyval))))
  : gmap string (string * (pyval -> result pyval)) :=
  match r with
  | Ok ft => ft
  | Raise _ => ∅
  end.
Definition example_extension_converters
  : gmap string (string * (pyval -> result pyval)) :=
  built_table (ArcSightRegistry.field_table no_repr example_converters
                 example_taxonomy).
Definition example_valid_extensions
  : gmap string (string * (pyval -> result pyval)) :=
  built_table (ArcSightRegistry.field_table no_repr example_sanitizers
                 example_taxonomy).

(** An escaper that puts a backslash before every [=]. *)
Fixpoint escape_equals (s : string) : string :=
  match s with
  | EmptyString => EmptyString
  | String c s' =>
      if Ascii.eqb c "="%char
      then String "\"%char (String c (escape_equals s'))
      else String c (escape_equals s')
  end.

(** A CloudTrail taxonomy with one subtype and two extension rules; one
    whose second subtype has an empty rule; and one whose second subtype
    has a list for its extension. *)
Definition good_subtype_map : CloudTrailLoad.subtype_map :=
  {| CloudTrailLoad.header := None;
     CloudTrailLoad.extension :=
       Some (CloudTrailLoad.ExtensionDict
               [("suser", VDict user_rule); ("rt", VDict epoch_rule)]) |}.
Definition cloudtrail_taxonomy
  : list (string * list (string * CloudTrailLoad.subtype_map)) :=
  [("alerts", [("dlp", good_subtype_map)])].
Definition bad_subtype_map : CloudTrailLoad.subtype_map :=
  {| CloudTrailLoad.header := None;
     CloudTrailLoad.extension :=
       Some (CloudTrailLoad.ExtensionDict
               [("suser", VDict user_rule); ("rt", VDict empty_rule)]) |}.
Definition cloudtrail_bad_taxonomy
  : list (string * list (string * CloudTrailLoad.subtype_map)) :=
  [("alerts", [("dlp", good_subtype_map); ("malware", bad_subtype_map)])].
Definition list_subtype_map : CloudTrailLoad.subtype_map :=
  {| CloudTrailLoad.header := None;
     CloudTrailLoad.extension :=
       Some (CloudTrailLoad.ExtensionOther (VList [VDict user_rule])) |}.
Definition cloudtrail_list_taxonomy
  : list (string * list (string * CloudTrailLoad.subtype_map)) :=
  [("alerts", [("dlp", good_subtype_map); ("malware", list_subtype_map)])].

(** The headers of a result, none when it is an exception. *)
Definition built_headers (r : result (gmap string pyval)) : gmap string pyval :=
  match r with
  | Ok h => h
  | Raise _ => ∅
  end.

(** A record that also has a field named as the whole composite mapping. *)
Definition whole_name_record : gmap string pyval :=
  <["user - [app]" := VStr "whole"]> user_app_record.

(** Timestamps of the examples. *)
Definition fixed_timestamp (data : gmap string pyval) : result pyval :=
  Ok (VStr "2023-11-14T22:13:20Z").
Definition failing_timestamp (data : gmap string pyval) : result pyval :=
  Raise TypeError.

(** Header mappings of the Chronicle examples and the headers of a
    record. *)
Definition udm_header_mappings : list (string * gmap string pyval) :=
  [("metadata.vendor_name", vendor_rule)].
Definition alice_headers : gmap string pyval :=
  built_headers
    (ChronicleTransform.get_headers no_repr jsonpath_member lower (VStr "tenant")
       fixed_timestamp udm_header_mappings alice_record).

End MoreExamples.
Import MoreExamples.

(** * Properties *)

Example strip_spaces_then_brackets : strip "[]" (strip " " " [a] ") = "a".
Proof. reflexivity. Qed.

Example split_hyphen : split "-" "a-b--c" = ["a"; "b"; ""; "c"].
Proof. reflexivity. Qed.

(** ** Python values and string helpers *)

Lemma dict_getitem_some (d : gmap string pyval) (k : string) (v : pyval) :
  d !! k = Some v -> dict_getitem d k = Ok v.
Proof. unfold dict_getitem. intros ->. reflexivity. Qed.

(** ** Coercion of falsy values, [get_mapping_value_from_field] *)

(** What both plugins return for a field that is in the record. *)
Lemma chronicle_mapping_value (data : gmap string pyval) (field : string) (v : pyval) :
  data !! field = Some v ->
  Chronicle.get_mapping_value_from_field data field
  = Ok (if truthy v || isinstance_int v then v else VStr "null").
Proof.
  intros H. unfold Chronicle.get_mapping_value_from_field.
  rewrite (dict_getitem_some _ _ _ H). reflexivity.
Qed.

Lemma solarwinds_mapping_value (data : gmap string pyval) (field : string) (v : pyval) :
  data !! field = Some v ->
  SolarWinds.get_mapping_value_from_field data field
  = Ok (if truthy v || isinstance_int v then (v, true) else (VStr "null", false)).
Proof.
  intros H. unfold SolarWinds.get_mapping_value_from_field.
  rewrite (dict_getitem_some _ _ _ H). reflexivity.
Qed.

(** C6, as stated, fails: the float zero is a falsy number, and both
    plugins coerce it to ["null"] instead of returning it as it is. *)
Lemma float_zero_is_coerced_to_null :
  is_number float_zero = true /\ truthy float_zero = false
  /\ Chronicle.get_mapping_value_from_field score_record "score" = Ok (VStr "null")
  /\ SolarWinds.get_mapping_value_from_field score_record "score"
     = Ok (VStr "null", false).
Proof. repeat split; reflexivity. Qed.

(** C6, amended: for a field of the record, a falsy value that is not an
    instance of [int] is coerced to ["null"] (the field is not treated as
    absent: nothing is raised), and a falsy instance of [int] ([0] and
    [False]) is returned as it is. *)
Theorem falsy_value_coercion (data : gmap string pyval) (field : string) (v : pyval) :
  data !! field = Some v ->
  truthy v = false ->
  (isinstance_int v = false ->
     Chronicle.get_mapping_value_from_field data field = Ok (VStr "null")
     /\ SolarWinds.get_mapping_value_from_field data field = Ok (VStr "null", false))
  /\ (isinstance_int v = true ->
     Chronicle.get_mapping_value_from_field data field = Ok v
     /\ SolarWinds.get_mapping_value_from_field data field = Ok (v, true)).
Proof.
  intros Hin Hf.
  rewrite (chronicle_mapping_value _ _ _ Hin), (solarwinds_mapping_value _ _ _ Hin).
  rewrite Hf. split; intros ->; split; reflexivity.
Qed.

Lemma falsy_value_coercion_witness :
  (Chronicle.get_mapping_value_from_field user_record "user" = Ok (VStr "null")
   /\ SolarWinds.get_mapping_value_from_field user_record "user"
      = Ok (VStr "null", false))
  /\ (Chronicle.get_mapping_value_from_field user_record "count" = Ok (VInt 0)
   /\ SolarWinds.get_mapping_value_from_field user_record "count"
      = Ok (VInt 0, true)).
Proof.
  split.
  - apply (falsy_value_coercion user_record "user" (VStr "")); reflexivity.
  - apply (falsy_value_coercion user_record "count" (VInt 0)); reflexivity.
Defined.

(** ** The mapped flag of the SolarWinds resolver *)

Section SolarWindsFlag.

Variable repr : pyval -> string.
Variable jsonpath : gmap string pyval -> pyval -> result (list pyval).
Variable py_int : pyval -> option Z.

Local Abbreviation resolve :=
  (SolarWinds.get_field_value_from_data repr jsonpath py_int).

Lemma truthy_str (s : string) : truthy (VStr s) = true -> s <> "".
Proof. simpl. intros H ->. discriminate. Qed.

(** The flag is [true] only for a value taken from the record. *)
Lemma mapped_flag_from_record (m data : gmap string pyval) (jp : bool) (v : pyval) :
  resolve m data jp = Ok (v, true) ->
  SolarWinds.from_record repr jsonpath py_int m data jp v.
Proof.
  unfold SolarWinds.get_field_value_from_data. cbv zeta.
  destruct (m !! "mapping_field") as [mf|] eqn:Hm.
  2:{ destruct (dict_getitem m "default_value"); unfold bind; congruence. }
  destruct (truthy mf) eqn:Ht.
  2:{ destruct (dict_getitem m "default_value"); unfold bind; congruence. }
  destruct jp.
  - destruct (jsonpath data mf) as [matches|e] eqn:Hj; unfold bind; [|congruence].
    destruct matches as [|x xs]; [congruence|].
    intros [= <-]. apply (SolarWinds.from_json_path repr jsonpath py_int m data mf (x :: xs)); auto; congruence.
  - assert (Habs : match m !! "default_value" with
                   | Some d => Ok (d, false)
                   | None => Raise (FieldNotFoundError mf)
                   end <> Ok (v, true)).
    { destruct (m !! "default_value"); congruence. }
    destruct mf as [| | | |s| | |]; try (intros H; exfalso; revert H; exact Habs);
      try congruence.
    pose proof (truthy_str _ Ht) as Hs.
    destruct (data !! s) as [raw|] eqn:Hd; [|intros H; exfalso; revert H; exact Habs].
    rewrite (solarwinds_mapping_value _ _ _ Hd).
    assert (Hplain : Ok (if truthy raw || isinstance_int raw
                         then (raw, true) else (VStr "null", false)) = Ok (v, true)
                     -> SolarWinds.from_record repr jsonpath py_int m data false v).
    { destruct (truthy raw || isinstance_int raw) eqn:Hc; intros [= <-].
      eapply SolarWinds.from_field; eauto. }
    destruct (truthy raw) eqn:Hraw; rewrite ?andb_false_r, ?andb_true_r;
      [|exact Hplain].
    destruct (SolarWinds.is_time_stamp m); [|exact Hplain].
    destruct (py_int raw) as [n|] eqn:Hi; [|exact Hplain].
    intros [= <-]. eapply SolarWinds.from_time_stamp; eauto.
Qed.

(** A default and a coerced ["null"] are returned without the flag. *)
Lemma from_default_flag (m data : gmap string pyval) (jp : bool) (d : pyval) :
  SolarWinds.from_default m data jp d -> resolve m data jp = Ok (d, false).
Proof.
  unfold SolarWinds.get_field_value_from_data. cbv zeta.
  intros [jp' d' Hm Hd|jp' mf d' Hm Hf Hd|s d' Hm Hs Ha Hd]; rewrite Hm.
  - unfold dict_getitem. rewrite Hd. reflexivity.
  - rewrite Hf. unfold dict_getitem. rewrite Hd. reflexivity.
  - destruct s; [congruence|]. cbn [truthy String.eqb negb].
    rewrite Ha, Hd. reflexivity.
Qed.


Variable str_lower : string -> string.
Variable tenant_name : pyval.
Variable get_cef_event :
  gmap string pyval -> gmap string pyval -> gmap string pyval -> result pyval.

Local Abbreviation headers_loop :=
  (SolarWinds.get_headers_loop repr jsonpath py_int str_lower tenant_name).
Local Abbreviation extensions_loop :=
  (SolarWinds.get_extensions_loop repr jsonpath py_int).
Local Abbreviation transform_record :=
  (SolarWinds.transform_record repr jsonpath py_int str_lower tenant_name
     get_cef_event).

(** The flag that a loop returns is the flag it started from or the flag of
    one of the fields. *)
Lemma headers_loop_flag (items : list (string * gmap string pyval))
    (data : gmap string pyval) (data_type : string) :
  forall (h : gmap string pyval) (f : bool) (h' : gmap string pyval),
  headers_loop items data data_type h f = Ok (h', true) ->
  f = true \/ exists name m v, In (name, m) items /\ resolve m data false = Ok (v, true).
Proof.
  induction items as [|[name m] rest IH]; intros h f h'; cbn [SolarWinds.get_headers_loop].
  - intros [= _ ->]. left. reflexivity.
  - destruct (resolve m data false) as [[v b]|e] eqn:Hr.
    + intros H. apply IH in H. destruct H as [H|(n & m' & v' & Hin & H)].
      * destruct b; [|left; exact H].
        right. exists name, m, v. split; [left; reflexivity|exact Hr].
      * right. exists n, m', v'. split; [right; exact Hin|exact H].
    + destruct e; try discriminate.
      intros H. apply IH in H. destruct H as [H|(n & m' & v' & Hin & H)].
      * left. exact H.
      * right. exists n, m', v'. split; [right; exact Hin|exact H].
Qed.

Lemma extensions_loop_flag (items : list (string * gmap string pyval))
    (data : gmap string pyval) :
  forall (x : gmap string pyval) (f : bool) (x' : gmap string pyval),
  extensions_loop items data x f = Ok (x', true) ->
  f = true \/ exists name m v, In (name, m) items
      /\ resolve m data (SolarWinds.has_is_json_path m) = Ok (v, true).
Proof.
  induction items as [|[name m] rest IH]; intros x f x';
    cbn [SolarWinds.get_extensions_loop].
  - intros [= _ ->]. left. reflexivity.
  - destruct (resolve m data (SolarWinds.has_is_json_path m)) as [[v b]|e] eqn:Hr.
    + intros H. apply IH in H. destruct H as [H|(n & m' & v' & Hin & H)].
      * destruct b; [|left; exact H].
        right. exists name, m, v. split; [left; reflexivity|exact Hr].
      * right. exists n, m', v'. split; [right; exact Hin|exact H].
    + destruct e; try discriminate.
      intros H. apply IH in H. destruct H as [H|(n & m' & v' & Hin & H)].
      * left. exact H.
      * right. exists n, m', v'. split; [right; exact Hin|exact H].
Qed.

(** The drop check of [transform]: with both dictionaries built, the
    record goes to the CEF generator exactly when one of the two flags is
    set. *)
Lemma transform_record_flags (sm : SolarWinds.subtype_mapping)
    (data : gmap string pyval) (data_type : string)
    (hm em : list (string * gmap string pyval))
    (header extension : gmap string pyval) (fh fe : bool) :
  truthy (VDict data) = true ->
  SolarWinds.sm_header sm = Some hm ->
  SolarWinds.sm_extension sm = Some em ->
  headers_loop hm data data_type ∅ false = Ok (header, fh) ->
  extensions_loop em data ∅ false = Ok (extension, fe) ->
  transform_record sm data data_type
  = if fh || fe
    then match get_cef_event data header extension with
         | Ok ev => if truthy ev then Some ev else None
         | Raise _ => None
         end
    else None.
Proof.
  intros Hd Hh He Hlh Hle. unfold SolarWinds.transform_record.
  rewrite Hd, Hh, He. unfold SolarWinds.get_headers, SolarWinds.get_extensions.
  rewrite Hlh, Hle. cbn [negb]. destruct (fh || fe); reflexivity.
Qed.

(** A record is emitted only when a header or an extension has the flag. *)
Lemma emitted_has_flag (sm : SolarWinds.subtype_mapping)
    (data : gmap string pyval) (data_type : string) (ev : pyval) :
  transform_record sm data data_type = Some ev ->
  exists hm em, SolarWinds.sm_header sm = Some hm
    /\ SolarWinds.sm_extension sm = Some em
    /\ ((exists name m v, In (name, m) hm /\ resolve m data false = Ok (v, true))
        \/ (exists name m v, In (name, m) em
            /\ resolve m data (SolarWinds.has_is_json_path m) = Ok (v, true))).
Proof.
  unfold SolarWinds.transform_record.
  destruct (negb (truthy (VDict data))); [discriminate|].
  destruct (SolarWinds.sm_header sm) as [hm|]; [|discriminate].
  unfold SolarWinds.get_headers.
  destruct (headers_loop hm data data_type ∅ false) as [[header fh]|e] eqn:Hlh;
    [|discriminate].
  destruct (SolarWinds.sm_extension sm) as [em|]; [|discriminate].
  unfold SolarWinds.get_extensions.
  destruct (extensions_loop em data ∅ false) as [[extension fe]|e] eqn:Hle;
    [|discriminate].
  intros H. exists hm, em. split; [reflexivity|]. split; [reflexivity|].
  destruct fh.
  - left. apply headers_loop_flag in Hlh. destruct Hlh as [Hf|Hx]; [discriminate|exact Hx].
  - destruct fe; [|discriminate].
    right. apply extensions_loop_flag in Hle.
    destruct Hle as [Hf|Hx]; [discriminate|exact Hx].
Qed.

(** A record none of whose fields has the flag is not emitted. *)
Lemma no_flag_dropped (sm : SolarWinds.subtype_mapping)
    (data : gmap string pyval) (data_type : string) :
  (forall hm name m v, SolarWinds.sm_header sm = Some hm -> In (name, m) hm ->
     resolve m data false <> Ok (v, true)) ->
  (forall em name m v, SolarWinds.sm_extension sm = Some em -> In (name, m) em ->
     resolve m data (SolarWinds.has_is_json_path m) <> Ok (v, true)) ->
  transform_record sm data data_type = None.
Proof.
  intros Hh He.
  destruct (transform_record sm data data_type) as [ev|] eqn:Ht; [|reflexivity].
  apply emitted_has_flag in Ht.
  destruct Ht as (hm & em & Hhm & Hem & [(n & m & v & Hin & Hr)|(n & m & v & Hin & Hr)]).
  - exfalso. exact (Hh hm n m v Hhm Hin Hr).
  - exfalso. exact (He em n m v Hem Hin Hr).
Qed.

(** C2: a record is emitted only if one of its header or extension fields
    is resolved with a value taken from the record (the mapped flag); a
    record whose every resolved value is a configured default is dropped;
    and with both dictionaries built the drop check is the disjunction of
    the header flag and the extension flag. *)
Theorem record_drop_policy (sm : SolarWinds.subtype_mapping)
    (data : gmap string pyval) (data_type : string) :
  (forall ev, transform_record sm data data_type = Some ev ->
     exists hm em, SolarWinds.sm_header sm = Some hm
       /\ SolarWinds.sm_extension sm = Some em
       /\ ((exists name m v, In (name, m) hm
              /\ resolve m data false = Ok (v, true)
              /\ SolarWinds.from_record repr jsonpath py_int m data false v)
           \/ (exists name m v, In (name, m) em
              /\ resolve m data (SolarWinds.has_is_json_path m) = Ok (v, true)
              /\ SolarWinds.from_record repr jsonpath py_int m data
                   (SolarWinds.has_is_json_path m) v)))
  /\ ((forall hm name m v b, SolarWinds.sm_header sm = Some hm -> In (name, m) hm ->
         resolve m data false = Ok (v, b) ->
         SolarWinds.from_default m data false v) ->
      (forall em name m v b, SolarWinds.sm_extension sm = Some em -> In (name, m) em ->
         resolve m data (SolarWinds.has_is_json_path m) = Ok (v, b) ->
         SolarWinds.from_default m data (SolarWinds.has_is_json_path m) v) ->
      transform_record sm data data_type = None)
  /\ (forall hm em header extension fh fe,
        truthy (VDict data) = true ->
        SolarWinds.sm_header sm = Some hm ->
        SolarWinds.sm_extension sm = Some em ->
        headers_loop hm data data_type ∅ false = Ok (header, fh) ->
        extensions_loop em data ∅ false = Ok (extension, fe) ->
        transform_record sm data data_type
        = if fh || fe
          then match get_cef_event data header extension with
               | Ok ev => if truthy ev then Some ev else None
               | Raise _ => None
               end
          else None).
Proof.
  split; [|split].
  - intros ev Hev. apply emitted_has_flag in Hev.
    destruct Hev as (hm & em & Hhm & Hem & H). exists hm, em.
    split; [exact Hhm|]. split; [exact Hem|].
    destruct H as [(n & m & v & Hin & Hr)|(n & m & v & Hin & Hr)].
    + left. exists n, m, v. split; [exact Hin|]. split; [exact Hr|].
      apply mapped_flag_from_record. exact Hr.
    + right. exists n, m, v. split; [exact Hin|]. split; [exact Hr|].
      apply mapped_flag_from_record. exact Hr.
  - intros Hh He. apply no_flag_dropped.
    + intros hm n m v Hhm Hin Hr.
      pose proof (from_default_flag _ _ _ _ (Hh hm n m v true Hhm Hin Hr)) as Hd.
      congruence.
    + intros em n m v Hem Hin Hr.
      pose proof (from_default_flag _ _ _ _ (He em n m v true Hem Hin Hr)) as Hd.
      congruence.
  - intros hm em header extension fh fe. apply transform_record_flags.
Qed.


End SolarWindsFlag.

(** The mappings of the examples on a record with the mapped field, on one
    without it and on one where it is empty. *)
Example alice_is_emitted :
  SolarWinds.transform_record no_repr jsonpath_member int_of_int lower
    (VStr "tenant") fixed_cef_event alert_mapping alice_record "alerts"
  = Some (VStr "CEF:0").
Proof. vm_compute. reflexivity. Qed.

Lemma record_drop_policy_witness :
  SolarWinds.transform_record no_repr jsonpath_member int_of_int lower
    (VStr "tenant") fixed_cef_event alert_mapping alice_record "alerts"
  = Some (VStr "CEF:0")
  /\ SolarWinds.transform_record no_repr jsonpath_member int_of_int lower
    (VStr "tenant") fixed_cef_event alert_mapping other_record "alerts" = None.
Proof.
  split.
  { apply (proj2 (proj2 (record_drop_policy no_repr jsonpath_member int_of_int
             lower (VStr "tenant") fixed_cef_event alert_mapping alice_record
             "alerts"))
             [("Device Vendor", vendor_rule)] [("suser", user_rule)]
             {[ "Device Vendor" := VStr "Netskope" ]} {[ "suser" := VStr "alice" ]}
             false true); reflexivity. }
  apply (proj1 (proj2 (record_drop_policy no_repr jsonpath_member int_of_int lower
           (VStr "tenant") fixed_cef_event alert_mapping other_record "alerts"))).
  - intros hm name m v b [= <-] [[= <- <-]|[]] Hr.
    vm_compute in Hr. injection Hr as <- <-.
    apply SolarWinds.default_no_mapping; reflexivity.
  - intros em name m v b [= <-] [[= <- <-]|[]] Hr.
    vm_compute in Hr. injection Hr as <- <-.
    apply (SolarWinds.default_field_absent user_rule other_record "user");
      [reflexivity|discriminate|reflexivity|reflexivity].
Defined.


(** ** The precedence table, [get_field_value_from_data] *)

Section PrecedenceTable.

Variable repr : pyval -> string.
Variable jsonpath : gmap string pyval -> pyval -> result (list pyval).
Variable py_int : pyval -> option Z.

Local Abbreviation chronicle_resolve :=
  (Chronicle.get_field_value_from_data repr jsonpath).
Local Abbreviation solarwinds_resolve :=
  (SolarWinds.get_field_value_from_data repr jsonpath py_int).

(** Direct mode of the Chronicle resolver, one key. *)
Lemma chronicle_direct_table (m data : gmap string pyval) :
  string_or_absent m "mapping_field" = true ->
  composite m = false ->
  match table_outcome m data with
  | MappedValue =>
      exists s raw, m !! "mapping_field" = Some (VStr s) /\ data !! s = Some raw
        /\ chronicle_resolve m data false
           = Ok (if truthy raw || isinstance_int raw then raw else VStr "null")
  | DefaultValue =>
      exists d, m !! "default_value" = Some d /\ chronicle_resolve m data false = Ok d
  | NotFound =>
      exists mf, m !! "mapping_field" = Some mf
        /\ chronicle_resolve m data false = Raise (FieldNotFoundError mf)
  | InvalidConfiguration =>
      chronicle_resolve m data false = Raise (KeyError "default_value")
  end.
Proof.
  unfold string_or_absent, composite, table_outcome, default_present,
    mapping_present, value_present, Chronicle.get_field_value_from_data,
    Chronicle.default_or_not_found, dict_getitem.
  destruct (m !! "mapping_field") as [mf|] eqn:Hm.
  2:{ intros _ _. destruct (m !! "default_value") as [d|] eqn:Hd; cbn.
      - exists d. auto.
      - reflexivity. }
  destruct mf as [| | | |s| | |]; try discriminate. intros _ Hc.
  apply negb_false_iff in Hc. rewrite Hc.
  destruct (truthy (VStr s)) eqn:Ht.
  - destruct (data !! s) as [raw|] eqn:Hs.
    + rewrite (chronicle_mapping_value _ _ _ Hs).
      destruct (m !! "default_value"); cbn; exists s, raw; auto.
    + destruct (m !! "default_value") as [d|] eqn:Hd; cbn.
      * exists d. auto.
      * exists (VStr s). auto.
  - destruct (m !! "default_value") as [d|] eqn:Hd; destruct (data !! s); cbn;
      try (exists d; auto); reflexivity.
Qed.

(** Direct mode of the SolarWinds resolver. *)
Lemma solarwinds_direct_table (m data : gmap string pyval) :
  string_or_absent m "mapping_field" = true ->
  match table_outcome m data with
  | MappedValue =>
      exists s raw, m !! "mapping_field" = Some (VStr s) /\ data !! s = Some raw
        /\ solarwinds_resolve m data false
           = let plain :=
               Ok (if truthy raw || isinstance_int raw
                   then (raw, true) else (VStr "null", false)) in
             if SolarWinds.is_time_stamp m && truthy raw
             then match py_int raw with
                  | Some n => Ok (VInt n, true)
                  | None => plain
                  end
             else plain
  | DefaultValue =>
      exists d, m !! "default_value" = Some d
        /\ solarwinds_resolve m data false = Ok (d, false)
  | NotFound =>
      exists mf, m !! "mapping_field" = Some mf
        /\ solarwinds_resolve m data false = Raise (FieldNotFoundError mf)
  | InvalidConfiguration =>
      solarwinds_resolve m data false = Raise (KeyError "default_value")
  end.
Proof.
  unfold string_or_absent, table_outcome, default_present,
    mapping_present, value_present, SolarWinds.get_field_value_from_data,
    dict_getitem.
  cbv zeta.
  destruct (m !! "mapping_field") as [mf|] eqn:Hm.
  2:{ intros _. destruct (m !! "default_value") as [d|] eqn:Hd; cbn.
      - exists d. auto.
      - reflexivity. }
  destruct mf as [| | | |s| | |]; try discriminate. intros _.
  destruct (truthy (VStr s)) eqn:Ht.
  - destruct (data !! s) as [raw|] eqn:Hs.
    + rewrite (solarwinds_mapping_value _ _ _ Hs).
      destruct (m !! "default_value"); cbn; exists s, raw; auto.
    + destruct (m !! "default_value") as [d|] eqn:Hd; cbn.
      * exists d. auto.
      * exists (VStr s). auto.
  - destruct (m !! "default_value") as [d|] eqn:Hd; destruct (data !! s); cbn;
      try (exists d; auto); reflexivity.
Qed.

(** JSON path mode of both resolvers: the matches are joined, and no match
    is a [FieldNotFoundError] whether or not the rule has a default. *)
Lemma json_path_mode (m data : gmap string pyval) (mf : pyval) (matches : list pyval) :
  m !! "mapping_field" = Some mf -> truthy mf = true ->
  jsonpath data mf = Ok matches ->
  chronicle_resolve m data true
  = match matches with
    | [] => Raise (FieldNotFoundError mf)
    | _ :: _ => Ok (VStr (String.concat "," (map (py_str repr) matches)))
    end
  /\ solarwinds_resolve m data true
  = match matches with
    | [] => Raise (FieldNotFoundError mf)
    | _ :: _ => Ok (VStr (String.concat "," (map (py_str repr) matches)), true)
    end.
Proof.
  intros Hm Ht Hj.
  unfold Chronicle.get_field_value_from_data, SolarWinds.get_field_value_from_data.
  cbv zeta. rewrite Hm, Ht, Hj. unfold bind. split; reflexivity.
Qed.

(** A rule that [validate_extension_field] accepts has a string or nothing
    as its mapping, and a mapping or a default to resolve. *)
Lemma validated_rule_resolvable (m data : gmap string pyval) :
  CloudTrail.validate_extension_field (VDict m) = Ok tt ->
  string_or_absent m "mapping_field" = true
  /\ table_outcome m data <> InvalidConfiguration.
Proof.
  unfold CloudTrail.validate_extension_field, CloudTrail.extension_field_schema,
    CloudTrail.validate_header_extension_subdict, CloudTrail.property_has_type,
    CloudTrail.required, CloudTrail.one_of, string_or_absent, table_outcome,
    default_present, mapping_present, value_present.
  destruct (m !! "mapping_field") as [mf|] eqn:Hm;
    destruct (m !! "default_value") as [d|] eqn:Hd.
  - destruct (isinstance_str mf) eqn:Hs; [|cbn; discriminate].
    intros _. split; [reflexivity|].
    destruct (truthy mf); destruct mf; try discriminate;
      destruct (data !! s); discriminate.
  - destruct (isinstance_str mf) eqn:Hs; [|cbn; discriminate].
    destruct (truthy mf) eqn:Ht.
    + intros _. split; [reflexivity|].
      destruct mf; try discriminate. destruct (data !! s); discriminate.
    + cbn [negb]. intros H. exfalso. revert H.
      match goal with |- context [if ?c then _ else _] => destruct c end;
        discriminate.
  - intros _. split; [reflexivity|]. discriminate.
  - intros H. exfalso. revert H. cbn [List.filter length Nat.eqb andb].
    rewrite !andb_false_r. discriminate.
Qed.

(** C1, amended: in the direct mode with a single key both resolvers yield
    the outcome of the precedence table, where the mapped value is the
    value of the record with a falsy value that is not an [int] coerced to
    ["null"] (and, in the SolarWinds resolver, converted by [int] for a
    ["Time Stamp"]); in the JSON path mode the matches are joined and no
    match is a [FieldNotFoundError] even when a default exists; a rule that
    the load check accepts never falls in the two rows without mapping and
    default. *)
Theorem resolution_precedence (m data : gmap string pyval) :
  (string_or_absent m "mapping_field" = true -> composite m = false ->
   match table_outcome m data with
   | MappedValue =>
       exists s raw, m !! "mapping_field" = Some (VStr s) /\ data !! s = Some raw
         /\ chronicle_resolve m data false
            = Ok (if truthy raw || isinstance_int raw then raw else VStr "null")
   | DefaultValue =>
       exists d, m !! "default_value" = Some d /\ chronicle_resolve m data false = Ok d
   | NotFound =>
       exists mf, m !! "mapping_field" = Some mf
         /\ chronicle_resolve m data false = Raise (FieldNotFoundError mf)
   | InvalidConfiguration =>
       chronicle_resolve m data false = Raise (KeyError "default_value")
   end)
  /\ (string_or_absent m "mapping_field" = true ->
   match table_outcome m data with
   | MappedValue =>
       exists s raw, m !! "mapping_field" = Some (VStr s) /\ data !! s = Some raw
         /\ solarwinds_resolve m data false
            = let plain :=
                Ok (if truthy raw || isinstance_int raw
                    then (raw, true) else (VStr "null", false)) in
              if SolarWinds.is_time_stamp m && truthy raw
              then match py_int raw with
                   | Some n => Ok (VInt n, true)
                   | None => plain
                   end
              else plain
   | DefaultValue =>
       exists d, m !! "default_value" = Some d
         /\ solarwinds_resolve m data false = Ok (d, false)
   | NotFound =>
       exists mf, m !! "mapping_field" = Some mf
         /\ solarwinds_resolve m data false = Raise (FieldNotFoundError mf)
   | InvalidConfiguration =>
       solarwinds_resolve m data false = Raise (KeyError "default_value")
   end)
  /\ (forall mf matches,
        m !! "mapping_field" = Some mf -> truthy mf = true ->
        jsonpath data mf = Ok matches ->
        chronicle_resolve m data true
        = match matches with
          | [] => Raise (FieldNotFoundError mf)
          | _ :: _ => Ok (VStr (String.concat "," (map (py_str repr) matches)))
          end
        /\ solarwinds_resolve m data true
        = match matches with
          | [] => Raise (FieldNotFoundError mf)
          | _ :: _ => Ok (VStr (String.concat "," (map (py_str repr) matches)), true)
          end)
  /\ (CloudTrail.validate_extension_field (VDict m) = Ok tt ->
      string_or_absent m "mapping_field" = true
      /\ table_outcome m data <> InvalidConfiguration).
Proof.
  split; [|split; [|split]].
  - apply chronicle_direct_table.
  - apply solarwinds_direct_table.
  - intros mf matches. apply json_path_mode.
  - apply validated_rule_resolvable.
Qed.

End PrecedenceTable.

(** C1, as stated, fails: in the JSON path mode a rule with a default whose
    path matches nothing in the record is not resolved to the default, a
    [FieldNotFoundError] is raised. *)
Lemma json_path_ignores_default :
  table_outcome path_rule other_record = DefaultValue
  /\ jsonpath_member other_record (VStr "$.user") = Ok []
  /\ Chronicle.get_field_value_from_data no_repr jsonpath_member
       path_rule other_record true
     = Raise (FieldNotFoundError (VStr "$.user"))
  /\ SolarWinds.get_field_value_from_data no_repr jsonpath_member int_of_int
       path_rule other_record true
     = Raise (FieldNotFoundError (VStr "$.user")).
Proof. repeat split; vm_compute; reflexivity. Qed.

Lemma resolution_precedence_witness :
  Chronicle.get_field_value_from_data no_repr jsonpath_member
    user_rule alice_record false = Ok (VStr "alice")
  /\ SolarWinds.get_field_value_from_data no_repr jsonpath_member int_of_int
    user_rule other_record false = Ok (VStr "unknown", false).
Proof.
  split.
  - pose proof (proj1 (resolution_precedence no_repr jsonpath_member int_of_int
                         user_rule alice_record) eq_refl eq_refl) as H.
    change (table_outcome user_rule alice_record) with MappedValue in H.
    destruct H as (s & raw & Hm & Hd & Hr).
    vm_compute in Hm. injection Hm as <-.
    vm_compute in Hd. injection Hd as <-.
    exact Hr.
  - pose proof (proj1 (proj2 (resolution_precedence no_repr jsonpath_member
                         int_of_int user_rule other_record)) eq_refl) as H.
    change (table_outcome user_rule other_record) with DefaultValue in H.
    destruct H as (d & Hd & Hr).
    vm_compute in Hd. injection Hd as <-.
    exact Hr.
Defined.

(** ** Composite mappings of the Chronicle resolver *)

Lemma all_strs_app (l : list pyval) (ss : list string) (x : string) :
  all_strs l = Some ss -> all_strs (l ++ [VStr x])%list = Some (ss ++ [x])%list.
Proof.
  revert ss. induction l as [|v l IH]; intros ss.
  - intros [= <-]. reflexivity.
  - destruct v; try discriminate. cbn [all_strs app].
    destruct (all_strs l) as [ss'|]; [|discriminate].
    intros [= <-]. rewrite (IH ss' eq_refl). reflexivity.
Qed.

Section Composite.

Variable repr : pyval -> string.
Variable jsonpath : gmap string pyval -> pyval -> result (list pyval).
Variable m data : gmap string pyval.
Variable mf : pyval.

Local Abbreviation loop := (Chronicle.composite_loop m data mf).

(** One round of the loop, by what the component stands for. *)
Lemma composite_loop_step (field : string) (rest : list string) (out : list pyval) :
  loop (field :: rest) out
  = match Chronicle.component_value data (Chronicle.trim_component field) with
    | Some v => loop rest (out ++ [v])%list
    | None => Chronicle.default_or_not_found m mf
    end.
Proof.
  cbn [Chronicle.composite_loop]. unfold Chronicle.component_value.
  fold (Chronicle.trim_component field).
  destruct (String.eqb (Chronicle.trim_component field) "NULL"); [reflexivity|].
  destruct (data !! Chronicle.trim_component field) as [raw|] eqn:Hd; [|reflexivity].
  rewrite (chronicle_mapping_value _ _ _ Hd). reflexivity.
Qed.

(** Every component stands for a string: the strings are joined. *)
Lemma composite_loop_joined (fields : list string) :
  forall (out : list pyval) (done_ strs : list string),
  all_strs out = Some done_ ->
  map (Chronicle.component_value data) (map Chronicle.trim_component fields)
  = map (fun x => Some (VStr x)) strs ->
  loop fields out = Ok (VStr (String.concat " - " (done_ ++ strs)%list)).
Proof.
  induction fields as [|field rest IH]; intros out done_ strs Hout Hall.
  - destruct strs; [|discriminate]. rewrite app_nil_r.
    cbn [Chronicle.composite_loop]. unfold str_join. rewrite Hout. reflexivity.
  - destruct strs as [|x strs]; [discriminate|].
    cbn [map] in Hall. injection Hall as Hx Hrest.
    rewrite composite_loop_step, Hx.
    rewrite (IH (out ++ [VStr x])%list (done_ ++ [x])%list strs
               (all_strs_app _ _ _ Hout) Hrest).
    rewrite <- app_assoc. reflexivity.
Qed.

(** A component that the record does not have: the fall-back is returned,
    whatever the other components are. *)
Lemma composite_loop_absent (fields : list string) :
  forall out : list pyval,
  (exists c, In c (map Chronicle.trim_component fields)
     /\ Chronicle.component_value data c = None) ->
  loop fields out = Chronicle.default_or_not_found m mf.
Proof.
  induction fields as [|field rest IH]; intros out (c & Hin & Hc).
  - destruct Hin.
  - rewrite composite_loop_step.
    destruct (Chronicle.component_value data (Chronicle.trim_component field))
      as [v|] eqn:Hv; [|reflexivity].
    apply IH. exists c. split; [|exact Hc].
    destruct Hin as [<-|Hin]; [congruence|exact Hin].
Qed.

End Composite.

Lemma composite_is_truthy (m : gmap string pyval) (s : string) :
  m !! "mapping_field" = Some (VStr s) -> composite m = true ->
  truthy (VStr s) = true /\ Nat.eqb (length (split "-" s)) 1 = false.
Proof.
  unfold composite. intros ->. intros H. apply negb_true_iff in H.
  split; [|exact H]. destruct s; [discriminate H|reflexivity].
Qed.

(** C3, amended: in the direct mode a mapping with a hyphen is split into
    components; each component is stripped of the spaces around it and then
    of the square brackets around it; the component [NULL] stands for the
    string ["NULL"] without a look-up; when every component stands for a
    string, the result is these strings joined with [" - "]; when the
    record lacks a component, the result is the [default_value] of the
    rule if it has one (no partial join) and a [FieldNotFoundError]
    otherwise. *)
Theorem composite_resolution (repr : pyval -> string)
    (jsonpath : gmap string pyval -> pyval -> result (list pyval))
    (m data : gmap string pyval) (s : string) :
  m !! "mapping_field" = Some (VStr s) ->
  composite m = true ->
  Chronicle.components s
  = map (fun field => strip "[]" (strip " " field)) (split "-" s)
  /\ Chronicle.component_value data "NULL" = Some (VStr "NULL")
  /\ (forall strs,
        map (Chronicle.component_value data) (Chronicle.components s)
        = map (fun x => Some (VStr x)) strs ->
        Chronicle.get_field_value_from_data repr jsonpath m data false
        = Ok (VStr (String.concat " - " strs)))
  /\ ((exists c, In c (Chronicle.components s)
         /\ Chronicle.component_value data c = None) ->
      Chronicle.get_field_value_from_data repr jsonpath m data false
      = match m !! "default_value" with
        | Some d => Ok d
        | None => Raise (FieldNotFoundError (VStr s))
        end).
Proof.
  intros Hm Hc. destruct (composite_is_truthy m s Hm Hc) as [Ht Hl].
  split; [reflexivity|]. split; [reflexivity|].
  unfold Chronicle.get_field_value_from_data. rewrite Hm, Ht, Hl. split.
  - intros strs Hall.
    apply (composite_loop_joined m data (VStr s) (split "-" s) [] [] strs);
      [reflexivity|exact Hall].
  - intros Habs.
    apply (composite_loop_absent m data (VStr s) (split "-" s) [] Habs).
Qed.

Lemma composite_resolution_witness :
  Chronicle.get_field_value_from_data no_repr jsonpath_member
    user_app_rule user_app_record false = Ok (VStr "alice - box")
  /\ Chronicle.get_field_value_from_data no_repr jsonpath_member
    user_app_rule alice_record false = Ok (VStr "none").
Proof.
  split.
  - apply (proj1 (proj2 (proj2 (composite_resolution no_repr jsonpath_member
             user_app_rule user_app_record "user - [app]" eq_refl eq_refl)))
             ["alice"; "box"]).
    vm_compute. reflexivity.
  - apply (proj2 (proj2 (proj2 (composite_resolution no_repr jsonpath_member
             user_app_rule alice_record "user - [app]" eq_refl eq_refl)))).
    exists "app". split; [vm_compute; auto|vm_compute; reflexivity].
Defined.

(** C3, as stated, fails: a tab around a component is not trimmed, so the
    field of the record is not found and the default is returned; and
    components that all resolve are not joined when one of the values is
    not a string, [join] raises a [TypeError]. *)
Lemma composite_not_joined :
  Chronicle.components tab_mapping = ["user" ++ tab; "app"]
  /\ Chronicle.get_field_value_from_data no_repr jsonpath_member
       tab_rule user_app_record false = Ok (VStr "none")
  /\ map (Chronicle.component_value user_app_record) (Chronicle.components "user-count")
     = [Some (VStr "alice"); Some (VInt 5)]
  /\ Chronicle.get_field_value_from_data no_repr jsonpath_member
       user_count_rule user_app_record false = Raise TypeError.
Proof. repeat split; vm_compute; reflexivity. Qed.

(** ** The epoch converter *)

Lemma len_append (a b : string) : len (a ++ b) = (len a + len b)%nat.
Proof.
  induction a as [|c a IH]; [reflexivity|].
  change (String c a ++ b) with (String c (a ++ b)). cbn [len]. rewrite IH.
  destruct (is_continuation_byte c); reflexivity.
Qed.

Lemma len_str_repeat_char (c : ascii) (k : nat) :
  is_continuation_byte c = false ->
  len (ArcSight.str_repeat (String c "") k) = k.
Proof.
  intros Hc. induction k as [|k IH]; [reflexivity|].
  cbn [ArcSight.str_repeat]. rewrite len_append, IH. cbn [len]. rewrite Hc.
  reflexivity.
Qed.

Lemma len_le_length (s : string) : (len s <= String.length s)%nat.
Proof.
  induction s as [|c s IH]; [apply Nat.le_refl|].
  cbn [len String.length]. destruct (is_continuation_byte c); lia.
Qed.

(** C4, as stated, fails: an input that is not textual is not refused; the
    integer is turned into text by [str] and padded. *)
Lemma epoch_convertor_accepts_integer :
  isinstance_str (VInt 169999999999) = false
  /\ ArcSight.epoch_convertor no_repr (VInt 169999999999) = Ok (VStr "1699999999990").
Proof. split; reflexivity. Qed.

(** C4, amended: the epoch converter accepts every value and never raises;
    it takes the text [str(val)], pads a text of fewer than 13 characters on
    the right with ['0'] to exactly 13 characters, and returns a text of 13
    characters or more unchanged; ["169999999999"] gives ["1699999999990"].
    The characters are those that [len] counts, not the bytes of the
    text. *)
Theorem epoch_convertor_pads (repr : pyval -> string) (val : pyval) :
  let text := py_str repr val in
  let padded := text ++ ArcSight.str_repeat "0" (13 - len text) in
  ((len text < 13)%nat ->
     ArcSight.epoch_convertor repr val = Ok (VStr padded)
     /\ len padded = 13%nat)
  /\ ((13 <= len text)%nat ->
     ArcSight.epoch_convertor repr val = Ok (VStr text))
  /\ ArcSight.epoch_convertor repr (VStr "169999999999") = Ok (VStr "1699999999990").
Proof.
  intros text padded. unfold ArcSight.epoch_convertor. fold text.
  split; [|split].
  - intros Hlt. apply Nat.ltb_lt in Hlt. rewrite Hlt. split; [reflexivity|].
    unfold padded. rewrite len_append, len_str_repeat_char by reflexivity.
    apply Nat.ltb_lt in Hlt. lia.
  - intros Hge. apply Nat.ltb_ge in Hge. rewrite Hge. reflexivity.
  - reflexivity.
Qed.

Lemma epoch_convertor_pads_witness :
  ArcSight.epoch_convertor no_repr (VStr "1700000000")
  = Ok (VStr "1700000000000")
  /\ ArcSight.epoch_convertor no_repr (VStr "1699999999990123")
  = Ok (VStr "1699999999990123")
  /\ ArcSight.epoch_convertor no_repr (VStr five_euros)
  = Ok (VStr (five_euros ++ "00000000"))
  /\ ArcSight.epoch_convertor no_repr (VStr thirteen_euros)
  = Ok (VStr thirteen_euros).
Proof.
  split; [|split; [|split]].
  - apply (proj1 (epoch_convertor_pads no_repr (VStr "1700000000"))).
    cbn. lia.
  - apply (proj1 (proj2 (epoch_convertor_pads no_repr (VStr "1699999999990123")))).
    cbn. lia.
  - apply (proj1 (epoch_convertor_pads no_repr (VStr five_euros))).
    apply Nat.ltb_lt. reflexivity.
  - apply (proj1 (proj2 (epoch_convertor_pads no_repr (VStr thirteen_euros)))).
    apply Nat.leb_le. reflexivity.
Defined.

(** ** The order of the rendered extensions *)

Lemma leb_iff (x y : string) :
  String.leb x y = true <-> String_as_OT.lt x y \/ x = y.
Proof.
  unfold String.leb. change String.compare with String_as_OT.compare.
  destruct (String_as_OT.compare_spec x y) as [H|H|H].
  - split; [right; exact H|reflexivity].
  - split; [left; exact H|reflexivity].
  - split; [discriminate|].
    intros [H'|H'].
    + exfalso. apply (StrictOrder_Irreflexive x).
      exact (StrictOrder_Transitive _ _ _ H' H).
    + subst. exfalso. exact (StrictOrder_Irreflexive _ H).
Qed.

Lemma leb_trans (x y z : string) :
  String.leb x y = true -> String.leb y z = true -> String.leb x z = true.
Proof.
  rewrite !leb_iff. intros [H1| ->] [H2| ->]; auto.
  left. exact (StrictOrder_Transitive _ _ _ H1 H2).
Qed.

Lemma leb_false_flip (x y : string) :
  String.leb x y = false -> String.leb y x = true.
Proof.
  intros H. destruct (String.leb_total x y) as [H'|H']; [congruence|exact H'].
Qed.

(** Insertions commute, so [sorted] does not depend on the order of its
    argument. *)
Lemma insert_sorted_comm (x y : string) (l : list string) :
  ArcSight.insert_sorted x (ArcSight.insert_sorted y l)
  = ArcSight.insert_sorted y (ArcSight.insert_sorted x l).
Proof.
  induction l as [|a l IH]; cbn [ArcSight.insert_sorted].
  - destruct (String.leb x y) eqn:Hxy; destruct (String.leb y x) eqn:Hyx;
      try reflexivity.
    + rewrite (String.leb_antisym _ _ Hxy Hyx). reflexivity.
    + apply leb_false_flip in Hxy. congruence.
  - destruct (String.leb y a) eqn:Hya; destruct (String.leb x a) eqn:Hxa;
      cbn [ArcSight.insert_sorted]; rewrite ?Hya, ?Hxa.
    + destruct (String.leb x y) eqn:Hxy; destruct (String.leb y x) eqn:Hyx;
        try reflexivity.
      * rewrite (String.leb_antisym _ _ Hxy Hyx). reflexivity.
      * apply leb_false_flip in Hxy. congruence.
    + destruct (String.leb x y) eqn:Hxy; [|reflexivity].
      rewrite (leb_trans _ _ _ Hxy Hya) in Hxa. discriminate.
    + destruct (String.leb y x) eqn:Hyx; [|reflexivity].
      rewrite (leb_trans _ _ _ Hyx Hxa) in Hya. discriminate.
    + rewrite IH. reflexivity.
Qed.

Lemma sorted_permutation_invariant (l l' : list string) :
  Permutation l l' -> ArcSight.sorted l = ArcSight.sorted l'.
Proof.
  induction 1 as [|x l l' _ IH|x y l|l l' l'' _ IH1 _ IH2];
    unfold ArcSight.sorted in *; cbn [fold_right].
  - reflexivity.
  - rewrite IH. reflexivity.
  - apply insert_sorted_comm.
  - congruence.
Qed.

Lemma insert_sorted_permutation (x : string) (l : list string) :
  Permutation (ArcSight.insert_sorted x l) (x :: l).
Proof.
  induction l as [|a l IH]; cbn; [reflexivity|].
  destruct (String.leb x a); [reflexivity|].
  rewrite IH. apply perm_swap.
Qed.

Lemma sorted_permutation (l : list string) : Permutation (ArcSight.sorted l) l.
Proof.
  induction l as [|x l IH]; [reflexivity|].
  unfold ArcSight.sorted in *. cbn [fold_right].
  rewrite insert_sorted_permutation, IH. reflexivity.
Qed.

Lemma insert_sorted_ordered (x : string) (l : list string) :
  StronglySorted (fun a b => String.leb a b = true) l ->
  StronglySorted (fun a b => String.leb a b = true) (ArcSight.insert_sorted x l).
Proof.
  induction 1 as [|a l Hs IH Ha]; cbn.
  - constructor; constructor.
  - destruct (String.leb x a) eqn:Hxa.
    + constructor; [constructor; assumption|].
      constructor; [exact Hxa|].
      eapply List.Forall_impl; [|exact Ha].
      intros b Hab. exact (leb_trans _ _ _ Hxa Hab).
    + constructor; [exact IH|].
      apply (Permutation_Forall (Permutation_sym (insert_sorted_permutation x l))).
      constructor; [exact (leb_false_flip _ _ Hxa)|exact Ha].
Qed.

Lemma sorted_ordered (l : list string) :
  StronglySorted (fun a b => String.leb a b = true) (ArcSight.sorted l).
Proof.
  induction l as [|x l IH]; [constructor|].
  unfold ArcSight.sorted in *. cbn [fold_right].
  apply insert_sorted_ordered. exact IH.
Qed.

(** Two strings that start with unrelated keys compare as the keys do. *)
Lemma compare_unrelated_keys (k1 : string) :
  forall k2 r1 r2 : string,
  ArcSight.is_prefix k1 k2 = false -> ArcSight.is_prefix k2 k1 = false ->
  String.compare (k1 ++ r1) (k2 ++ r2) = String.compare k1 k2.
Proof.
  induction k1 as [|c k1 IH]; intros [|d k2] r1 r2; try discriminate.
  cbn [ArcSight.is_prefix].
  change (String c k1 ++ r1) with (String c (k1 ++ r1)).
  change (String d k2 ++ r2) with (String d (k2 ++ r2)).
  cbn [String.compare].
  destruct (Ascii.compare c d) eqn:Hcd; try reflexivity.
  apply Ascii.compare_eq_iff in Hcd. subst d.
  rewrite Ascii.eqb_refl. cbn [andb]. apply IH.
Qed.

Lemma leb_unrelated_keys (repr : pyval -> string) (x y : string * pyval) :
  ArcSight.prefix_related (fst x) (fst y) = false ->
  String.leb (ArcSight.format_pair repr x) (ArcSight.format_pair repr y)
  = String.leb (fst x) (fst y).
Proof.
  unfold ArcSight.prefix_related. intros H. apply orb_false_iff in H.
  destruct H as [H1 H2]. unfold String.leb, ArcSight.format_pair.
  rewrite (compare_unrelated_keys _ _ _ _ H1 H2). reflexivity.
Qed.

Lemma insert_by_key_permutation (x : string * pyval) (l : list (string * pyval)) :
  Permutation (ArcSight.insert_by_key x l) (x :: l).
Proof.
  induction l as [|a l IH]; cbn; [reflexivity|].
  destruct (String.leb (fst x) (fst a)); [reflexivity|].
  rewrite IH. apply perm_swap.
Qed.

Lemma by_key_permutation (l : list (string * pyval)) :
  Permutation (fold_right ArcSight.insert_by_key [] l) l.
Proof.
  induction l as [|x l IH]; [reflexivity|]. cbn [fold_right].
  rewrite insert_by_key_permutation, IH. reflexivity.
Qed.

Lemma insert_by_key_rendered (repr : pyval -> string) (x : string * pyval)
    (l : list (string * pyval)) :
  List.Forall (fun y => ArcSight.prefix_related (fst x) (fst y) = false) l ->
  map (ArcSight.format_pair repr) (ArcSight.insert_by_key x l)
  = ArcSight.insert_sorted (ArcSight.format_pair repr x)
      (map (ArcSight.format_pair repr) l).
Proof.
  induction 1 as [|y l Hy _ IH]; [reflexivity|].
  cbn [ArcSight.insert_by_key ArcSight.insert_sorted map].
  rewrite (leb_unrelated_keys repr x y Hy).
  destruct (String.leb (fst x) (fst y)); [reflexivity|].
  cbn [map]. rewrite IH. reflexivity.
Qed.

(** With no key a prefix of another key, the code's order is the order of
    the keys. *)
Lemma sorted_by_key_without_prefixes (repr : pyval -> string)
    (l : list (string * pyval)) :
  ForallOrdPairs (fun x y => ArcSight.prefix_related (fst x) (fst y) = false) l ->
  ArcSight.extensions_str repr l = ArcSight.extensions_str_by_key repr l.
Proof.
  unfold ArcSight.extensions_str, ArcSight.extensions_str_by_key, ArcSight.sorted.
  intros H. f_equal. induction H as [|x l Hx _ IH]; [reflexivity|].
  cbn [fold_right map]. rewrite IH. symmetry. apply insert_by_key_rendered.
  apply (Permutation_Forall (Permutation_sym (by_key_permutation l))). exact Hx.
Qed.

(** C5, as stated, fails: the rendered pairs are sorted as whole strings,
    not by key; the key ["a"] is before the key ["a1"], but ["a1=2"] is
    before ["a=1"]. *)
Lemma extensions_not_sorted_by_key :
  String.ltb "a" "a1" = true
  /\ ArcSight.extensions_str no_repr pairs_prefix = "a1=2 a=1"
  /\ ArcSight.extensions_str_by_key no_repr pairs_prefix = "a=1 a1=2".
Proof. repeat split; reflexivity. Qed.

(** C5, amended: the extension portion is the pairs rendered as
    [key=value], these strings sorted in ascending order of their code
    points and joined with one space, which is the order of the keys when
    no key is a prefix of another key; the same pairs give the same string
    in whatever order they were inserted; the pairs [b: "2"] and [a: "1"]
    give ["a=1 b=2"]. *)
Theorem extensions_str_sorted (repr : pyval -> string)
    (extension_strs : list (string * pyval)) :
  let rendered := map (ArcSight.format_pair repr) extension_strs in
  (exists ordered,
     ArcSight.extensions_str repr extension_strs = String.concat " " ordered
     /\ Permutation ordered rendered
     /\ StronglySorted (fun a b => String.leb a b = true) ordered)
  /\ (ForallOrdPairs
        (fun x y => ArcSight.prefix_related (fst x) (fst y) = false)
        extension_strs ->
      ArcSight.extensions_str repr extension_strs
      = ArcSight.extensions_str_by_key repr extension_strs)
  /\ (forall other, Permutation extension_strs other ->
        ArcSight.extensions_str repr other
        = ArcSight.extensions_str repr extension_strs)
  /\ ArcSight.extensions_str repr [("b", VStr "2"); ("a", VStr "1")] = "a=1 b=2".
Proof.
  intros rendered. split; [|split; [|split]].
  - exists (ArcSight.sorted rendered). split; [reflexivity|].
    split; [apply sorted_permutation|apply sorted_ordered].
  - apply sorted_by_key_without_prefixes.
  - intros other Hp. unfold ArcSight.extensions_str. f_equal.
    apply sorted_permutation_invariant. apply Permutation_map.
    apply Permutation_sym. exact Hp.
  - reflexivity.
Qed.

Lemma extensions_str_sorted_witness :
  ArcSight.extensions_str no_repr pairs_a_b = ArcSight.extensions_str no_repr pairs_b_a
  /\ ArcSight.extensions_str no_repr pairs_b_a
     = ArcSight.extensions_str_by_key no_repr pairs_b_a.
Proof.
  split.
  - apply (proj1 (proj2 (proj2 (extensions_str_sorted no_repr pairs_b_a))) pairs_a_b).
    apply perm_swap.
  - apply (proj1 (proj2 (extensions_str_sorted no_repr pairs_b_a))).
    repeat constructor.
Defined.

(** ** The datetime converter *)

(** C7, as stated, fails: a raw number is accepted and converted to a
    datetime object, and a structured datetime value is refused. *)
Lemma datetime_converter_accepts_number :
  ArcSight.datetime_converter ArcSight.utc_localtime no_float_timeval (VInt 0)
  = Ok (VDateTime epoch_start)
  /\ ArcSight.datetime_converter ArcSight.utc_localtime no_float_timeval
       (VDateTime epoch_start)
     = Raise CEFTypeError.
Proof. split; reflexivity. Qed.

(** C7, amended: the DateTime converter accepts only a number; a value
    that is not a number (a string, a datetime, [None], a container) is
    refused with a [CEFTypeError]; an integer timestamp in the range of
    the platform is converted to the datetime object of that instant, and
    every result is a datetime object. *)
Theorem datetime_converter_numbers (localtime : Z -> Z -> option datetime)
    (float_timeval : spec_float -> option (Z * Z)) (val : pyval) :
  (is_number val = false ->
     ArcSight.datetime_converter localtime float_timeval val = Raise CEFTypeError)
  /\ (forall n t, val = VInt n -> localtime n 0 = Some t ->
     ArcSight.datetime_converter localtime float_timeval val = Ok (VDateTime t))
  /\ (forall r, ArcSight.datetime_converter localtime float_timeval val = Ok r ->
     is_number val = true /\ exists t, r = VDateTime t).
Proof.
  unfold ArcSight.datetime_converter, ArcSight.fromtimestamp.
  split; [|split].
  - destruct val; try discriminate; reflexivity.
  - intros n t -> Ht. rewrite Ht. reflexivity.
  - intros r.
    destruct val as [|b|n|f|s|l|d|t0]; try discriminate.
    + destruct (localtime (Z.b2z b) 0) as [t|]; [|discriminate].
      intros [= <-]. split; [reflexivity|]. exists t. reflexivity.
    + destruct (localtime n 0) as [t|]; [|discriminate].
      intros [= <-]. split; [reflexivity|]. exists t. reflexivity.
    + destruct (float_timeval f) as [[sec us]|]; [|discriminate].
      destruct (localtime sec us) as [t|]; [|discriminate].
      intros [= <-]. split; [reflexivity|]. exists t. reflexivity.
Qed.

Lemma datetime_converter_numbers_witness :
  ArcSight.datetime_converter ArcSight.utc_localtime no_float_timeval
    (VStr "2023-11-14") = Raise CEFTypeError
  /\ ArcSight.datetime_converter ArcSight.utc_localtime no_float_timeval
    (VInt 1700000000) = Ok (VDateTime (mk_datetime 2023 11 14 22 13 20 0)).
Proof.
  split.
  - apply (proj1 (datetime_converter_numbers ArcSight.utc_localtime
             no_float_timeval (VStr "2023-11-14"))).
    reflexivity.
  - apply (proj1 (proj2 (datetime_converter_numbers ArcSight.utc_localtime
             no_float_timeval (VInt 1700000000))) 1700000000); reflexivity.
Defined.

(** ** Severity normalization *)

(** C8: the raw severity is turned into lower-case text and looked up in
    the audit table when the subtype is ["audit"] and in the general table
    otherwise; a value that the table does not have becomes
    [SEVERITY_UNKNOWN], a value that it has becomes its entry; the result
    replaces the ["Severity"] header and no other header changes. *)
Theorem severity_normalization (repr : pyval -> string)
    (SEVERITY_MAP AUDIT_SEVERITY_MAP : gmap string pyval)
    (SEVERITY_UNKNOWN : pyval) (str_lower : string -> string)
    (headers : gmap string pyval) (subtype : string) (raw : pyval) :
  let table := if String.eqb subtype "audit"
               then AUDIT_SEVERITY_MAP else SEVERITY_MAP in
  let key := str_lower (py_str repr raw) in
  let normalized :=
    ArcSight.severity_value repr SEVERITY_MAP AUDIT_SEVERITY_MAP
      SEVERITY_UNKNOWN str_lower subtype raw in
  let headers' :=
    ArcSight.normalize_severity_header repr SEVERITY_MAP AUDIT_SEVERITY_MAP
      SEVERITY_UNKNOWN str_lower headers subtype in
  (table !! key = None -> normalized = SEVERITY_UNKNOWN)
  /\ (forall canonical, table !! key = Some canonical -> normalized = canonical)
  /\ (headers !! "Severity" = Some raw ->
      headers' !! "Severity" = Some normalized
      /\ forall name, name <> "Severity" -> headers' !! name = headers !! name).
Proof.
  intros table key normalized headers'.
  unfold normalized, headers', ArcSight.severity_value,
    ArcSight.normalize_severity_header.
  fold key. unfold table.
  split; [|split].
  - destruct (String.eqb subtype "audit"); intros ->; reflexivity.
  - intros canonical. destruct (String.eqb subtype "audit"); intros ->; reflexivity.
  - intros ->. split.
    + rewrite lookup_insert_eq. reflexivity.
    + intros name Hne. rewrite lookup_insert_ne; [reflexivity|congruence].
Qed.

Lemma severity_normalization_witness :
  ArcSight.severity_value no_repr severity_map audit_severity_map
    severity_unknown lower "dlp" (VStr "HIGH") = VStr "High"
  /\ ArcSight.severity_value no_repr severity_map audit_severity_map
    severity_unknown lower "audit" (VStr "HIGH") = VStr "Unknown"
  /\ ArcSight.normalize_severity_header no_repr severity_map audit_severity_map
    severity_unknown lower severity_headers "dlp" !! "Severity" = Some (VStr "High").
Proof.
  split; [|split].
  - apply (proj1 (proj2 (severity_normalization no_repr severity_map
             audit_severity_map severity_unknown lower severity_headers
             "dlp" (VStr "HIGH"))) (VStr "High")).
    reflexivity.
  - apply (proj1 (severity_normalization no_repr severity_map
             audit_severity_map severity_unknown lower severity_headers
             "audit" (VStr "HIGH"))).
    reflexivity.
  - apply (proj2 (proj2 (severity_normalization no_repr severity_map
             audit_severity_map severity_unknown lower severity_headers
             "dlp" (VStr "HIGH")))).
    reflexivity.
Defined.

(** ** The load check of the mapping rules *)

(** C9: [validate_extension_field] raises a validation error for a rule
    whose [mapping_field] and [default_value] are both absent or empty, and
    for a rule whose [mapping_field] is present and empty while it has no
    [default_value]; a rule where one of the two is not empty passes the
    check of the two fields, and passes the load check when it also has
    the shape that the schema asks for. *)
Theorem load_check_rejects_empty_rules (instance : gmap string pyval) :
  (CloudTrail.absent_or_empty instance "mapping_field" = true ->
   CloudTrail.absent_or_empty instance "default_value" = true ->
   exists msg, CloudTrail.validate_extension_field (VDict instance)
               = Raise (JsonSchemaValidationError msg))
  /\ (forall mf, instance !! "mapping_field" = Some mf -> truthy mf = false ->
      instance !! "default_value" = None ->
      exists msg, CloudTrail.validate_extension_field (VDict instance)
                  = Raise (JsonSchemaValidationError msg))
  /\ (CloudTrail.absent_or_empty instance "mapping_field" = false
      \/ CloudTrail.absent_or_empty instance "default_value" = false ->
      CloudTrail.validate_header_extension_subdict instance = Ok tt
      /\ (CloudTrail.extension_field_schema (VDict instance) = true ->
          CloudTrail.validate_extension_field (VDict instance) = Ok tt)).
Proof.
  assert (Hboth : CloudTrail.absent_or_empty instance "mapping_field" = true ->
                  CloudTrail.absent_or_empty instance "default_value" = true ->
                  exists msg, CloudTrail.validate_extension_field (VDict instance)
                              = Raise (JsonSchemaValidationError msg)).
  { unfold CloudTrail.absent_or_empty, CloudTrail.validate_extension_field.
    intros Hm Hd.
    destruct (CloudTrail.extension_field_schema (VDict instance)) eqn:Hs;
      [|eexists; reflexivity].
    unfold CloudTrail.validate_header_extension_subdict.
    destruct (instance !! "mapping_field") as [mf|] eqn:Em;
      destruct (instance !! "default_value") as [d|] eqn:Ed;
      rewrite ?Hm, ?Hd; cbn [andb]; try (eexists; reflexivity).
    exfalso. revert Hs.
    unfold CloudTrail.extension_field_schema, CloudTrail.required,
      CloudTrail.one_of.
    rewrite Em, Ed. cbn [List.filter length Nat.eqb andb].
    rewrite !andb_false_r. discriminate. }
  split; [exact Hboth|]. split.
  - intros mf Hm Hf Hd. apply Hboth; unfold CloudTrail.absent_or_empty.
    + rewrite Hm, Hf. reflexivity.
    + rewrite Hd. reflexivity.
  - intros Hone.
    assert (Hsub : CloudTrail.validate_header_extension_subdict instance = Ok tt).
    { revert Hone.
      unfold CloudTrail.absent_or_empty, CloudTrail.validate_header_extension_subdict.
      destruct (instance !! "mapping_field") as [mf|];
        destruct (instance !! "default_value") as [d|];
        intros [H|H]; try discriminate; rewrite ?H; cbn [andb];
        rewrite ?andb_false_r; reflexivity. }
    split; [exact Hsub|].
    intros Hs. unfold CloudTrail.validate_extension_field. rewrite Hs. exact Hsub.
Qed.

Lemma load_check_rejects_empty_rules_witness :
  (exists msg, CloudTrail.validate_extension_field (VDict empty_rule)
               = Raise (JsonSchemaValidationError msg))
  /\ (exists msg, CloudTrail.validate_extension_field (VDict empty_mapping_rule)
               = Raise (JsonSchemaValidationError msg))
  /\ CloudTrail.validate_extension_field (VDict user_rule) = Ok tt.
Proof.
  split; [|split].
  - apply (proj1 (load_check_rejects_empty_rules empty_rule)); reflexivity.
  - apply (proj1 (proj2 (load_check_rejects_empty_rules empty_mapping_rule))
             (VStr "")); reflexivity.
  - apply (proj2 (proj2 (load_check_rejects_empty_rules user_rule))).
    + left. reflexivity.
    + reflexivity.
Defined.

(** ** The JSON branch: [map_json_data] *)

Lemma elem_of_cons_decide (k key : string) (rest : list string) :
  bool_decide (k ∈ key :: rest) = bool_decide (k = key) || bool_decide (k ∈ rest).
Proof.
  destruct (bool_decide (k = key)) eqn:Hk; destruct (bool_decide (k ∈ rest)) eqn:Hr;
    cbn [orb].
  - apply bool_decide_eq_true_2, elem_of_cons. left.
    apply bool_decide_eq_true_1 in Hk. exact Hk.
  - apply bool_decide_eq_true_2, elem_of_cons. left.
    apply bool_decide_eq_true_1 in Hk. exact Hk.
  - apply bool_decide_eq_true_2, elem_of_cons. right.
    apply bool_decide_eq_true_1 in Hr. exact Hr.
  - apply bool_decide_eq_false_2. intros H. apply elem_of_cons in H.
    apply bool_decide_eq_false_1 in Hk. apply bool_decide_eq_false_1 in Hr.
    destruct H; contradiction.
Qed.

Lemma map_json_loop_lookup (mappings : list string) (data : gmap string pyval) :
  forall (mapped_dict : gmap string pyval) (k : string),
  ChronicleTransform.map_json_loop mappings data mapped_dict !! k
  = if bool_decide (k ∈ mappings)
    then match data !! k with
         | Some v => Some v
         | None => mapped_dict !! k
         end
    else mapped_dict !! k.
Proof.
  induction mappings as [|key rest IH]; intros acc k;
    cbn [ChronicleTransform.map_json_loop].
  - reflexivity.
  - rewrite elem_of_cons_decide.
    destruct (data !! key) as [v|] eqn:Hkey; rewrite IH;
      destruct (decide (k = key)) as [->|Hne].
    + rewrite Hkey, lookup_insert_eq.
      rewrite (bool_decide_eq_true_2 (key = key)) by reflexivity.
      destruct (bool_decide (key ∈ rest)); reflexivity.
    + rewrite lookup_insert_ne by congruence.
      rewrite (bool_decide_eq_false_2 (k = key)) by exact Hne. reflexivity.
    + rewrite Hkey.
      rewrite (bool_decide_eq_true_2 (key = key)) by reflexivity.
      destruct (bool_decide (key ∈ rest)); reflexivity.
    + rewrite (bool_decide_eq_false_2 (k = key)) by exact Hne. reflexivity.
Qed.

(** X1: [map_json_data] keeps of a record exactly the fields named in a
    non-empty list of mappings, with their values; with the empty list it
    returns the whole record. *)
Theorem map_json_data_filters (mappings : list string) (data : gmap string pyval)
    (k : string) :
  (k ∈ mappings ->
     ChronicleTransform.map_json_data mappings data !! k = data !! k)
  /\ (mappings <> [] -> k ∉ mappings ->
     ChronicleTransform.map_json_data mappings data !! k = None)
  /\ (mappings = [] -> ChronicleTransform.map_json_data mappings data = data).
Proof.
  split; [|split].
  - intros Hin. destruct mappings as [|key rest]; [reflexivity|].
    unfold ChronicleTransform.map_json_data. rewrite map_json_loop_lookup.
    rewrite bool_decide_eq_true_2 by exact Hin.
    rewrite lookup_empty. destruct (data !! k); reflexivity.
  - intros Hne Hnot. destruct mappings as [|key rest]; [congruence|].
    unfold ChronicleTransform.map_json_data. rewrite map_json_loop_lookup.
    rewrite bool_decide_eq_false_2 by exact Hnot. apply lookup_empty.
  - intros ->. reflexivity.
Qed.

Lemma map_json_loop_empty_record (mappings : list string)
    (mapped_dict : gmap string pyval) :
  ChronicleTransform.map_json_loop mappings ∅ mapped_dict = mapped_dict.
Proof.
  induction mappings as [|key rest IH]; [reflexivity|].
  cbn [ChronicleTransform.map_json_loop]. rewrite lookup_empty. exact IH.
Qed.

Lemma falsy_dict_empty (d : gmap string pyval) :
  truthy (VDict d) = false -> d = ∅.
Proof.
  cbn [truthy]. intros H. apply negb_false_iff, Nat.eqb_eq in H.
  apply map_size_empty_iff. exact H.
Qed.

Lemma solarwinds_map_json_data (mappings : list string) (data : gmap string pyval) :
  SolarWindsJson.map_json_data mappings data
  = ChronicleTransform.map_json_data mappings data.
Proof.
  unfold SolarWindsJson.map_json_data, ChronicleTransform.map_json_data.
  destruct mappings as [|key rest]; [reflexivity|].
  destruct (truthy (VDict data)) eqn:Ht; [reflexivity|].
  cbn [negb]. apply falsy_dict_empty in Ht. subst data.
  symmetry. apply map_json_loop_empty_record.
Qed.

(** X2: the guard [or not data] of the SolarWinds [map_json_data] changes
    nothing: on every list of mappings and every record it returns what the
    Chronicle [map_json_data] returns, and for a record without fields that
    is the record itself. *)
Theorem map_json_data_agree (mappings : list string) (data : gmap string pyval) :
  SolarWindsJson.map_json_data mappings data
  = ChronicleTransform.map_json_data mappings data
  /\ ChronicleTransform.map_json_data mappings ∅ = ∅.
Proof.
  split; [apply solarwinds_map_json_data|].
  destruct mappings as [|key rest]; [reflexivity|].
  apply map_json_loop_empty_record.
Qed.

(** X3: the record that [map_json_data] returns is a part of the record it
    was given, and filtering it again with the same mappings changes
    nothing. *)
Theorem map_json_data_idempotent (mappings : list string)
    (data : gmap string pyval) :
  ChronicleTransform.map_json_data mappings data ⊆ data
  /\ ChronicleTransform.map_json_data mappings
       (ChronicleTransform.map_json_data mappings data)
     = ChronicleTransform.map_json_data mappings data.
Proof.
  destruct mappings as [|key rest]; [split; reflexivity|].
  unfold ChronicleTransform.map_json_data. split.
  - apply map_subseteq_spec. intros k v. rewrite map_json_loop_lookup.
    destruct (bool_decide (k ∈ key :: rest)); rewrite ?lookup_empty;
      [|discriminate].
    destruct (data !! k); [tauto|discriminate].
  - apply map_eq. intros k. rewrite !map_json_loop_lookup.
    destruct (bool_decide (k ∈ key :: rest)); rewrite ?lookup_empty;
      [|reflexivity].
    destruct (data !! k); reflexivity.
Qed.

(** ** The JSON branch of [transform] *)

Lemma solarwinds_transform_json_loop (subtype_mapping : list string)
    (raw_data : list (gmap string pyval)) :
  SolarWindsJson.transform_json_loop subtype_mapping raw_data
  = List.filter (fun d => truthy (VDict d))
      (ChronicleTransform.transform_json_loop subtype_mapping raw_data).
Proof.
  induction raw_data as [|data rest IH]; [reflexivity|].
  cbn [SolarWindsJson.transform_json_loop ChronicleTransform.transform_json_loop
       map List.filter].
  rewrite solarwinds_map_json_data.
  destruct (truthy (VDict (ChronicleTransform.map_json_data subtype_mapping data)));
    rewrite IH; reflexivity.
Qed.

Lemma handled_data_type (data_type : string) :
  existsb (String.eqb data_type) ["alerts"; "events"] = true
  <-> data_type = "alerts" \/ data_type = "events".
Proof.
  cbn [existsb]. rewrite !orb_true_iff, !String.eqb_eq. split.
  - intros [H|[H|H]]; [left; exact H|right; exact H|discriminate].
  - intros [H|H]; [left; exact H|right; left; exact H].
Qed.

(** X4: the JSON branch of [transform]. For a data type other than
    ["alerts"] and ["events"] Chronicle returns the input as it is, without
    reading a mapping. For these two data types both plugins raise what the
    retrieval of the subtype mapping raises, and otherwise Chronicle returns
    one record for each input record, in order, even when nothing of the
    record is left. SolarWinds, for every data type, with a non-empty list
    of mappings returns these records without the empty ones; with the
    empty list it returns the input, which is also what the records of
    Chronicle are then. *)
Theorem transform_json_outputs (str_lower str_upper : string -> string)
    (json_mappings : string -> result (list (string * list string)))
    (raw_data : list (gmap string pyval)) (data_type subtype : string) :
  let retrieved :=
    bind (json_mappings data_type) (fun mappings =>
      Subtype.get_subtype_mapping str_lower str_upper mappings subtype) in
  let chronicle :=
    ChronicleTransform.transform_json str_lower str_upper json_mappings
      raw_data data_type subtype in
  let solarwinds :=
    SolarWindsJson.transform_json str_lower str_upper json_mappings
      raw_data data_type subtype in
  (data_type <> "alerts" -> data_type <> "events" -> chronicle = Ok raw_data)
  /\ (forall e, retrieved = Raise e ->
      solarwinds = Raise e
      /\ (data_type = "alerts" \/ data_type = "events" -> chronicle = Raise e))
  /\ (forall subtype_mapping, retrieved = Ok subtype_mapping ->
      let records := map (ChronicleTransform.map_json_data subtype_mapping) raw_data in
      length records = length raw_data
      /\ (data_type = "alerts" \/ data_type = "events" -> chronicle = Ok records)
      /\ (subtype_mapping <> [] ->
          solarwinds = Ok (List.filter (fun d => truthy (VDict d)) records))
      /\ (subtype_mapping = [] -> solarwinds = Ok raw_data /\ records = raw_data)).
Proof.
  intros retrieved chronicle solarwinds.
  unfold chronicle, solarwinds, ChronicleTransform.transform_json,
    SolarWindsJson.transform_json.
  split; [|split].
  - intros Ha He.
    destruct (existsb (String.eqb data_type) ["alerts"; "events"]) eqn:Hin;
      [|reflexivity].
    apply handled_data_type in Hin. tauto.
  - intros e Hr. unfold retrieved in Hr. split.
    + destruct (json_mappings data_type) as [mappings|e']; cbn [bind] in *;
        [|congruence].
      rewrite Hr. reflexivity.
    + intros Hin. apply handled_data_type in Hin. rewrite Hin. cbn [negb].
      destruct (json_mappings data_type) as [mappings|e']; cbn [bind] in *;
        [|congruence].
      rewrite Hr. reflexivity.
  - intros subtype_mapping Hr. unfold retrieved in Hr.
    split; [apply length_map|].
    destruct (json_mappings data_type) as [mappings|e']; cbn [bind] in *;
      [|discriminate].
    rewrite Hr. cbn [bind]. split; [|split].
    + intros Hin. apply handled_data_type in Hin. rewrite Hin. reflexivity.
    + intros Hne. destruct subtype_mapping as [|key rest]; [congruence|].
      rewrite solarwinds_transform_json_loop. reflexivity.
    + intros ->. split; [reflexivity|]. cbn. apply map_id.
Qed.

Lemma map_json_data_filters_witness :
  ChronicleTransform.map_json_data json_fields user_app_record !! "user"
  = Some (VStr "alice")
  /\ ChronicleTransform.map_json_data json_fields user_app_record !! "count" = None
  /\ ChronicleTransform.map_json_data [] user_app_record = user_app_record.
Proof.
  split; [|split].
  - apply (proj1 (map_json_data_filters json_fields user_app_record "user")).
    apply elem_of_cons. left. reflexivity.
  - apply (proj1 (proj2 (map_json_data_filters json_fields user_app_record "count"))).
    + discriminate.
    + intros H. apply elem_of_cons in H. destruct H as [H|H]; [discriminate|].
      apply elem_of_cons in H. destruct H as [H|H]; [discriminate|].
      apply elem_of_nil in H. exact H.
  - apply (proj2 (proj2 (map_json_data_filters [] user_app_record "user"))).
    reflexivity.
Defined.

Lemma transform_json_outputs_witness :
  ChronicleTransform.transform_json lower upper example_json_mappings
    [user_app_record; ∅; score_record] "webtx" "v2"
  = Ok [user_app_record; ∅; score_record]
  /\ SolarWindsJson.transform_json lower upper example_json_mappings
       [user_app_record; ∅; score_record] "webtx" "v2"
     = Ok [ChronicleTransform.map_json_data json_fields user_app_record]
  /\ ChronicleTransform.transform_json lower upper example_json_mappings
       [user_app_record; ∅; score_record] "alerts" "dlp"
     = Ok [ChronicleTransform.map_json_data json_fields user_app_record; ∅; ∅]
  /\ SolarWindsJson.transform_json lower upper example_json_mappings
       [user_app_record; ∅] "alerts" "malware"
     = Ok [user_app_record; ∅]
  /\ ChronicleTransform.transform_json lower upper example_json_mappings
       [user_app_record] "events" "page"
     = Raise (KeyError "PAGE").
Proof.
  split; [|split; [|split; [|split]]].
  - apply (proj1 (transform_json_outputs lower upper example_json_mappings
             [user_app_record; ∅; score_record] "webtx" "v2")); discriminate.
  - rewrite (proj1 (proj2 (proj2 (proj2 (proj2 (transform_json_outputs lower upper
               example_json_mappings [user_app_record; ∅; score_record]
               "webtx" "v2")) json_fields eq_refl)))) by discriminate.
    vm_compute. reflexivity.
  - rewrite (proj1 (proj2 (proj2 (proj2 (transform_json_outputs lower upper
               example_json_mappings [user_app_record; ∅; score_record]
               "alerts" "dlp")) json_fields eq_refl)))
      by (left; reflexivity).
    vm_compute. reflexivity.
  - apply (proj1 (proj2 (proj2 (proj2 (proj2 (proj2 (transform_json_outputs lower
             upper example_json_mappings [user_app_record; ∅]
             "alerts" "malware")) [] eq_refl))) eq_refl)).
  - apply (proj2 (proj1 (proj2 (transform_json_outputs lower upper
             example_json_mappings [user_app_record] "events" "page"))
             (KeyError "PAGE") eq_refl)).
    right. reflexivity.
Defined.

(** ** The subtype lookup *)

Section SubtypeLookup.

Variable str_lower : string -> string.
Variable str_upper : string -> string.
Context {V : Type}.

Local Abbreviation lowered := (Subtype.lower_keys str_lower (V := V)).

Lemma lower_keys_fold (items : list (string * V)) :
  forall (acc : gmap string V) (k : string) (v : V),
  fold_left (fun acc kv => <[str_lower (fst kv) := snd kv]> acc) items acc !! k
  = Some v ->
  acc !! k = Some v
  \/ exists k0, In (k0, v) items /\ str_lower k0 = k.
Proof.
  induction items as [|[k1 v1] rest IH]; intros acc k v; cbn [fold_left fst snd].
  - intros H. left. exact H.
  - intros H. apply IH in H. destruct H as [H|(k0 & Hin & Hk)].
    + destruct (decide (str_lower k1 = k)) as [<-|Hne].
      * rewrite lookup_insert_eq in H. injection H as <-.
        right. exists k1. split; [left; reflexivity|reflexivity].
      * rewrite lookup_insert_ne in H by exact Hne. left. exact H.
    + right. exists k0. split; [right; exact Hin|exact Hk].
Qed.

Lemma lower_keys_found (items : list (string * V)) :
  forall (acc : gmap string V) (k : string),
  is_Some (acc !! k) \/ (exists k0 v0, In (k0, v0) items /\ str_lower k0 = k) ->
  is_Some (fold_left (fun acc kv => <[str_lower (fst kv) := snd kv]> acc)
             items acc !! k).
Proof.
  induction items as [|[k1 v1] rest IH]; intros acc k; cbn [fold_left fst snd].
  - intros [H|(k0 & v0 & [] & _)]. exact H.
  - intros [H|(k0 & v0 & [Heq|Hin] & Hk)]; apply IH.
    + left. destruct (decide (str_lower k1 = k)) as [<-|Hne].
      * rewrite lookup_insert_eq. eauto.
      * rewrite lookup_insert_ne by exact Hne. exact H.
    + left. injection Heq as -> ->. rewrite Hk, lookup_insert_eq. eauto.
    + right. exists k0, v0. split; [exact Hin|exact Hk].
Qed.

(** X5: [get_subtype_mapping] finds a subtype whatever its case: it
    returns the entry stored under the lower-case subtype, and it succeeds
    exactly when a key of the mappings is equal to the subtype but for the
    case; the second look-up, under the upper-case subtype, never finds
    anything, so every other subtype is a [KeyError]. *)
Theorem get_subtype_mapping_case_insensitive
    (mappings : list (string * V)) (subtype : string) :
  (forall s, str_lower (str_upper s) = str_lower s) ->
  (forall s, str_lower (str_lower s) = str_lower s) ->
  Subtype.get_subtype_mapping str_lower str_upper mappings subtype
  = match lowered mappings !! str_lower subtype with
    | Some v => Ok v
    | None => Raise (KeyError (str_upper subtype))
    end
  /\ ((exists v, Subtype.get_subtype_mapping str_lower str_upper mappings subtype
                 = Ok v)
      <-> exists k0 v0, In (k0, v0) mappings /\ str_lower k0 = str_lower subtype)
  /\ (forall other, str_lower other = str_lower subtype ->
      forall v,
      Subtype.get_subtype_mapping str_lower str_upper mappings other = Ok v
      <-> Subtype.get_subtype_mapping str_lower str_upper mappings subtype = Ok v).
Proof.
  intros Hlu Hll.
  assert (Hget : forall s,
    Subtype.get_subtype_mapping str_lower str_upper mappings s
    = match lowered mappings !! str_lower s with
      | Some v => Ok v
      | None => Raise (KeyError (str_upper s))
      end).
  { intros s. unfold Subtype.get_subtype_mapping. cbv zeta.
    destruct (lowered mappings !! str_lower s) as [v|] eqn:Hl; [reflexivity|].
    destruct (lowered mappings !! str_upper s) as [v|] eqn:Hu; [|reflexivity].
    exfalso. unfold Subtype.lower_keys in Hu.
    apply lower_keys_fold in Hu. destruct Hu as [Hu|(k0 & Hin & Hk)].
    - rewrite lookup_empty in Hu. discriminate.
    - assert (Hs : str_lower s = str_upper s).
      { rewrite <- (Hlu s), <- Hk, Hll. reflexivity. }
      rewrite Hs in Hl.
      assert (Hsome : is_Some (lowered mappings !! str_upper s)).
      { apply lower_keys_found. right. exists k0, v. split; [exact Hin|exact Hk]. }
      rewrite Hl in Hsome. destruct Hsome as [x Hx]. discriminate. }
  split; [apply Hget|]. split.
  - rewrite Hget. split.
    + intros [v Hv].
      destruct (lowered mappings !! str_lower subtype) as [w|] eqn:Hl;
        [|discriminate].
      unfold Subtype.lower_keys in Hl. apply lower_keys_fold in Hl.
      destruct Hl as [Hl|(k0 & Hin & Hk)].
      * rewrite lookup_empty in Hl. discriminate.
      * exists k0, w. split; [exact Hin|exact Hk].
    + intros (k0 & v0 & Hin & Hk).
      assert (Hsome : is_Some (lowered mappings !! str_lower subtype)).
      { apply lower_keys_found. right. exists k0, v0. split; [exact Hin|exact Hk]. }
      destruct Hsome as [w Hw]. rewrite Hw. exists w. reflexivity.
  - intros other Ho v. rewrite (Hget other), (Hget subtype), Ho.
    destruct (lowered mappings !! str_lower subtype); split; congruence.
Qed.

End SubtypeLookup.

Lemma ascii_lower_upper (c : ascii) : ascii_lower (ascii_upper c) = ascii_lower c.
Proof. destruct c as [[] [] [] [] [] [] [] []]; reflexivity. Qed.

Lemma ascii_lower_lower (c : ascii) : ascii_lower (ascii_lower c) = ascii_lower c.
Proof. destruct c as [[] [] [] [] [] [] [] []]; reflexivity. Qed.

Lemma lower_upper (s : string) : lower (upper s) = lower s.
Proof.
  unfold lower, upper. rewrite list_ascii_of_string_of_list_ascii, map_map.
  f_equal. apply map_ext. intros c. apply ascii_lower_upper.
Qed.

Lemma lower_lower (s : string) : lower (lower s) = lower s.
Proof.
  unfold lower. rewrite list_ascii_of_string_of_list_ascii, map_map.
  f_equal. apply map_ext. intros c. apply ascii_lower_lower.
Qed.

Lemma get_subtype_mapping_case_insensitive_witness :
  Subtype.get_subtype_mapping lower upper subtype_items "Dlp" = Ok 3%nat
  /\ Subtype.get_subtype_mapping lower upper subtype_items "webtx"
     = Raise (KeyError "WEBTX").
Proof.
  split.
  - rewrite (proj1 (get_subtype_mapping_case_insensitive lower upper
               subtype_items "Dlp" lower_upper lower_lower)).
    reflexivity.
  - rewrite (proj1 (get_subtype_mapping_case_insensitive lower upper
               subtype_items "webtx" lower_upper lower_lower)).
    reflexivity.
Defined.

(** ** Fields that fail in [get_headers] and [get_extensions] *)

Section FieldFailures.

Variable repr : pyval -> string.
Variable jsonpath : gmap string pyval -> pyval -> result (list pyval).
Variable py_int : pyval -> option Z.
Variable str_lower : string -> string.
Variable tenant_name : pyval.
Variable get_cef_event :
  gmap string pyval -> gmap string pyval -> gmap string pyval -> result pyval.

Local Abbreviation resolve :=
  (SolarWinds.get_field_value_from_data repr jsonpath py_int).
Local Abbreviation headers_loop :=
  (SolarWinds.get_headers_loop repr jsonpath py_int str_lower tenant_name).
Local Abbreviation extensions_loop :=
  (SolarWinds.get_extensions_loop repr jsonpath py_int).
Local Abbreviation transform_record :=
  (SolarWinds.transform_record repr jsonpath py_int str_lower tenant_name
     get_cef_event).
Local Abbreviation transform :=
  (SolarWinds.transform repr jsonpath py_int str_lower tenant_name get_cef_event).

(** X6: a field whose resolution raises [FieldNotFoundError] is left out
    and nothing else changes: [get_headers] and [get_extensions] return
    what they return for the mappings without that field. *)
Theorem field_not_found_is_skipped (before after : list (string * gmap string pyval))
    (name : string) (m data : gmap string pyval) (data_type : string)
    (field : pyval) :
  (resolve m data false = Raise (FieldNotFoundError field) ->
   SolarWinds.get_headers repr jsonpath py_int str_lower tenant_name
     (before ++ (name, m) :: after) data data_type
   = SolarWinds.get_headers repr jsonpath py_int str_lower tenant_name
       (before ++ after) data data_type)
  /\ (resolve m data (SolarWinds.has_is_json_path m)
      = Raise (FieldNotFoundError field) ->
   SolarWinds.get_extensions repr jsonpath py_int
     (before ++ (name, m) :: after) data
   = SolarWinds.get_extensions repr jsonpath py_int (before ++ after) data).
Proof.
  unfold SolarWinds.get_headers, SolarWinds.get_extensions. split; intros Hr.
  - generalize (∅ : gmap string pyval) as h. generalize false as f.
    induction before as [|[n1 m1] rest IH]; intros f h;
      cbn [app SolarWinds.get_headers_loop].
    + rewrite Hr. reflexivity.
    + destruct (resolve m1 data false) as [[v b]|e]; [apply IH|].
      destruct e; try reflexivity. apply IH.
  - generalize (∅ : gmap string pyval) as x. generalize false as f.
    induction before as [|[n1 m1] rest IH]; intros f x;
      cbn [app SolarWinds.get_extensions_loop].
    + rewrite Hr. reflexivity.
    + destruct (resolve m1 data (SolarWinds.has_is_json_path m1)) as [[v b]|e];
        [apply IH|].
      destruct e; try reflexivity. apply IH.
Qed.

(** A rule without a mapping and without a default cannot be resolved. *)
Lemma unresolvable_rule (m data : gmap string pyval) (jp : bool) :
  mapping_present m = false -> m !! "default_value" = None ->
  resolve m data jp = Raise (KeyError "default_value").
Proof.
  unfold mapping_present, SolarWinds.get_field_value_from_data, dict_getitem.
  cbv zeta. intros Hm Hd.
  destruct (m !! "mapping_field") as [mf|]; [rewrite Hm|]; rewrite Hd; reflexivity.
Qed.

Lemma headers_loop_raises (items : list (string * gmap string pyval))
    (data : gmap string pyval) (data_type name : string) (m : gmap string pyval)
    (key : string) :
  In (name, m) items -> resolve m data false = Raise (KeyError key) ->
  forall h f, exists e, headers_loop items data data_type h f = Raise e.
Proof.
  intros Hin Hr. induction items as [|[n1 m1] rest IH]; [destruct Hin|].
  intros h f. cbn [SolarWinds.get_headers_loop].
  destruct Hin as [[= -> ->]|Hin].
  - rewrite Hr. eexists. reflexivity.
  - destruct (resolve m1 data false) as [[v b]|e]; [apply IH; exact Hin|].
    destruct e; try (eexists; reflexivity). apply IH. exact Hin.
Qed.

Lemma extensions_loop_raises (items : list (string * gmap string pyval))
    (data : gmap string pyval) (name : string) (m : gmap string pyval)
    (key : string) :
  In (name, m) items ->
  resolve m data (SolarWinds.has_is_json_path m) = Raise (KeyError key) ->
  forall x f, exists e, extensions_loop items data x f = Raise e.
Proof.
  intros Hin Hr. induction items as [|[n1 m1] rest IH]; [destruct Hin|].
  intros x f. cbn [SolarWinds.get_extensions_loop].
  destruct Hin as [[= -> ->]|Hin].
  - rewrite Hr. eexists. reflexivity.
  - destruct (resolve m1 data (SolarWinds.has_is_json_path m1)) as [[v b]|e];
      [apply IH; exact Hin|].
    destruct e; try (eexists; reflexivity). apply IH. exact Hin.
Qed.

(** X7: one header or extension rule that has neither a truthy
    [mapping_field] nor a [default_value] stops the whole subtype:
    [transform] emits nothing, whatever the records are. *)
Theorem unresolvable_rule_drops_all (sm : SolarWinds.subtype_mapping)
    (raw_data : list (gmap string pyval)) (data_type name : string)
    (m : gmap string pyval) :
  mapping_present m = false -> m !! "default_value" = None ->
  (exists hm, SolarWinds.sm_header sm = Some hm /\ In (name, m) hm)
  \/ (exists em, SolarWinds.sm_extension sm = Some em /\ In (name, m) em) ->
  transform sm raw_data data_type = [].
Proof.
  intros Hm Hd Hin.
  assert (Hrec : forall data, transform_record sm data data_type = None).
  { intros data. unfold SolarWinds.transform_record.
    destruct (negb (truthy (VDict data))); [reflexivity|].
    destruct (SolarWinds.sm_header sm) as [hm|] eqn:Hh; [|reflexivity].
    unfold SolarWinds.get_headers.
    destruct Hin as [(hm' & Hhm & Hin)|(em & Hem & Hin)].
    - injection Hhm as <-.
      destruct (headers_loop_raises hm data data_type name m "default_value" Hin
                  (unresolvable_rule m data false Hm Hd) ∅ false) as [e He].
      rewrite He. reflexivity.
    - destruct (headers_loop hm data data_type ∅ false) as [[h fh]|e];
        [|reflexivity].
      rewrite Hem. unfold SolarWinds.get_extensions.
      destruct (extensions_loop_raises em data name m "default_value" Hin
                  (unresolvable_rule m data _ Hm Hd) ∅ false) as [e He].
      rewrite He. reflexivity. }
  induction raw_data as [|data rest IH]; [reflexivity|].
  cbn [SolarWinds.transform]. rewrite Hrec. exact IH.
Qed.

(** X8: outside the ["Time Stamp"] transformation and the composite
    mappings, the SolarWinds resolver returns the value that the Chronicle
    resolver returns, and raises when it raises. *)
Theorem resolvers_agree (m data : gmap string pyval) (jp : bool) :
  string_or_absent m "mapping_field" = true ->
  composite m = false ->
  SolarWinds.is_time_stamp m = false ->
  match resolve m data jp with
  | Ok (v, _) => Chronicle.get_field_value_from_data repr jsonpath m data jp = Ok v
  | Raise e => Chronicle.get_field_value_from_data repr jsonpath m data jp = Raise e
  end.
Proof.
  unfold string_or_absent, composite, SolarWinds.get_field_value_from_data,
    Chronicle.get_field_value_from_data, Chronicle.default_or_not_found,
    dict_getitem.
  cbv zeta. intros Hs Hc Ht.
  destruct (m !! "mapping_field") as [mf|] eqn:Hm.
  2:{ destruct (m !! "default_value"); reflexivity. }
  destruct (truthy mf) eqn:Htr.
  2:{ destruct (m !! "default_value"); reflexivity. }
  destruct jp.
  - destruct (jsonpath data mf) as [[|x xs]|e]; reflexivity.
  - destruct mf as [| | | |s| | |]; try discriminate.
    apply negb_false_iff in Hc. rewrite Hc, Ht. cbn [andb].
    destruct (data !! s) as [raw|] eqn:Hd.
    + rewrite (solarwinds_mapping_value _ _ _ Hd), (chronicle_mapping_value _ _ _ Hd).
      destruct (truthy raw || isinstance_int raw); reflexivity.
    + destruct (m !! "default_value"); reflexivity.
Qed.

(** X9: in the direct mode a value returned with the mapped flag is never
    an empty one: it is truthy or an [int]. *)
Theorem mapped_value_not_empty (m data : gmap string pyval) (v : pyval) :
  resolve m data false = Ok (v, true) ->
  truthy v || isinstance_int v = true.
Proof.
  intros H. apply mapped_flag_from_record in H.
  inversion H as [| s raw Hm Hs Hd Ht | s raw n Hm Hs Hd Ht Hi]; subst.
  - exact Ht.
  - apply orb_true_r.
Qed.

Lemma transform_app (sm : SolarWinds.subtype_mapping)
    (first second : list (gmap string pyval)) (data_type : string) :
  transform sm (first ++ second) data_type
  = (transform sm first data_type ++ transform sm second data_type)%list.
Proof.
  induction first as [|data rest IH]; [reflexivity|].
  cbn [app SolarWinds.transform].
  destruct (transform_record sm data data_type); rewrite IH; reflexivity.
Qed.

(** X10: [transform] handles the records one by one: the events of a batch
    are the events of its first part followed by the events of the rest;
    there are never more events than records, every event is truthy and
    comes from a record that is not empty. *)
Theorem transform_batches (sm : SolarWinds.subtype_mapping)
    (first second : list (gmap string pyval)) (data_type : string) :
  transform sm (first ++ second) data_type
  = (transform sm first data_type ++ transform sm second data_type)%list
  /\ (length (transform sm first data_type) <= length first)%nat
  /\ (forall ev, In ev (transform sm first data_type) ->
      truthy ev = true
      /\ exists data, In data first /\ data <> ∅
           /\ transform_record sm data data_type = Some ev).
Proof.
  split; [apply transform_app|]. split.
  - induction first as [|data rest IH]; [reflexivity|].
    cbn [SolarWinds.transform length].
    destruct (transform_record sm data data_type); cbn [length]; lia.
  - induction first as [|data rest IH]; [intros ev []|].
    intros ev. cbn [SolarWinds.transform].
    destruct (transform_record sm data data_type) as [ev0|] eqn:Hr.
    + intros [<-|Hin].
      * split.
        -- revert Hr. unfold SolarWinds.transform_record.
           destruct (negb (truthy (VDict data))); [discriminate|].
           destruct (SolarWinds.sm_header sm) as [hm|]; [|discriminate].
           destruct (SolarWinds.get_headers _ _ _ _ _ hm data data_type)
             as [[h fh]|]; [|discriminate].
           destruct (SolarWinds.sm_extension sm) as [em|]; [|discriminate].
           destruct (SolarWinds.get_extensions _ _ _ em data)
             as [[x fe]|]; [|discriminate].
           destruct (negb (fh || fe)); [discriminate|].
           destruct (get_cef_event data h x) as [c|]; [|discriminate].
           destruct (truthy c) eqn:Hc; [|discriminate].
           intros [= <-]. exact Hc.
        -- exists data. split; [left; reflexivity|]. split; [|exact Hr].
           intros ->. revert Hr. unfold SolarWinds.transform_record.
           cbn. discriminate.
      * destruct (IH ev Hin) as (Ht & d & Hd & Hne & Hrd).
        split; [exact Ht|]. exists d. split; [right; exact Hd|]. split; assumption.
    + intros Hin. destruct (IH ev Hin) as (Ht & d & Hd & Hne & Hrd).
      split; [exact Ht|]. exists d. split; [right; exact Hd|]. split; assumption.
Qed.

End FieldFailures.

(** ** The Epoch and DateTime transformations *)

(** X11: the Epoch transformation never drops a field: the converter's
    result is a text of at least 13 characters (and so of at least 13
    bytes), the sanitizer accepts it unchanged, and converting it again
    changes nothing. *)
Theorem epoch_pipeline (repr : pyval -> string) (val : pyval) :
  exists text,
    ArcSight.epoch_convertor repr val = Ok (VStr text)
    /\ bind (ArcSight.epoch_convertor repr val) ArcSightRegistry.epoch_sanitizer
       = Ok (VStr text)
    /\ (13 <= len text)%nat
    /\ (13 <= String.length text)%nat
    /\ ArcSight.epoch_convertor repr (VStr text) = Ok (VStr text).
Proof.
  unfold ArcSight.epoch_convertor.
  destruct (Nat.ltb (len (py_str repr val)) 13) eqn:Hlt.
  - eexists. split; [reflexivity|]. split; [reflexivity|].
    assert (Hlen : len (py_str repr val
                        ++ ArcSight.str_repeat "0" (13 - len (py_str repr val)))
                   = 13%nat).
    { rewrite len_append, len_str_repeat_char by reflexivity.
      apply Nat.ltb_lt in Hlt. lia. }
    split; [lia|]. split; [rewrite <- Hlen at 1; apply len_le_length|].
    cbn [py_str]. rewrite Hlen. reflexivity.
  - exists (py_str repr val). apply Nat.ltb_ge in Hlt.
    split; [reflexivity|]. split; [reflexivity|].
    split; [exact Hlt|].
    split; [exact (Nat.le_trans _ _ _ Hlt (len_le_length _))|].
    cbn [py_str]. apply Nat.ltb_ge in Hlt. rewrite Hlt. reflexivity.
Qed.

(** X12: the DateTime transformation yields a value exactly for the
    timestamps that [fromtimestamp] accepts, and then it is the formatted
    text of that datetime; the sanitizer alone accepts datetime objects
    only, so it refuses every raw number and string. *)
Theorem datetime_pipeline (localtime : Z -> Z -> option datetime)
    (float_timeval : spec_float -> option (Z * Z)) (strftime : datetime -> string)
    (val r : pyval) :
  (bind (ArcSight.datetime_converter localtime float_timeval val)
     (ArcSightRegistry.datetime_sanitizer strftime) = Ok r
   <-> exists t, ArcSight.fromtimestamp localtime float_timeval val = Ok t
                 /\ r = VStr (strftime t))
  /\ (ArcSightRegistry.datetime_sanitizer strftime val = Ok r ->
      exists t, val = VDateTime t)
  /\ (is_number val = true \/ isinstance_str val = true ->
      ArcSightRegistry.datetime_sanitizer strftime val = Raise CEFTypeError).
Proof.
  unfold ArcSight.datetime_converter. split; [|split].
  - destruct (ArcSight.fromtimestamp localtime float_timeval val) as [t|e];
      cbn [bind ArcSightRegistry.datetime_sanitizer].
    + split.
      * intros [= <-]. exists t. split; reflexivity.
      * intros (t' & [= <-] & ->). reflexivity.
    + split; [discriminate|]. intros (t' & H & _). discriminate.
  - destruct val; try discriminate. intros _. eexists. reflexivity.
  - destruct val; intros [H|H]; try discriminate; reflexivity.
Qed.

Lemma datetime_pipeline_witness :
  ArcSightRegistry.datetime_sanitizer (fun t => "Jan 01 1970 00:00:00") (VInt 0)
  = Raise CEFTypeError.
Proof.
  apply (proj2 (proj2 (datetime_pipeline ArcSight.utc_localtime no_float_timeval
           (fun t => "Jan 01 1970 00:00:00") (VInt 0) VNone))).
  left. reflexivity.
Defined.

(** ** The load check, completed *)

Lemma nonempty_rule_accepted (instance : gmap string pyval) :
  CloudTrail.absent_or_empty instance "mapping_field" = false
  \/ CloudTrail.absent_or_empty instance "default_value" = false ->
  CloudTrail.extension_field_schema (VDict instance) = true ->
  CloudTrail.validate_extension_field (VDict instance) = Ok tt.
Proof.
  intros Hone Hs.
  unfold CloudTrail.validate_extension_field. rewrite Hs.
  revert Hone.
  unfold CloudTrail.absent_or_empty, CloudTrail.validate_header_extension_subdict.
  destruct (instance !! "mapping_field") as [mf|];
    destruct (instance !! "default_value") as [d|];
    intros [H|H]; try discriminate; rewrite ?H; cbn [andb];
    rewrite ?andb_false_r; reflexivity.
Qed.

(** X13: [validate_extension_field] accepts exactly the rules of the shape
    that the schema asks for in which [mapping_field] or [default_value]
    is not empty; anything that is not a JSON object is refused. *)
Theorem validate_extension_field_accepts (instance : pyval) :
  CloudTrail.validate_extension_field instance = Ok tt
  <-> exists d, instance = VDict d
      /\ CloudTrail.extension_field_schema (VDict d) = true
      /\ (CloudTrail.absent_or_empty d "mapping_field" = false
          \/ CloudTrail.absent_or_empty d "default_value" = false).
Proof.
  split.
  - unfold CloudTrail.validate_extension_field.
    destruct (CloudTrail.extension_field_schema instance) eqn:Hs; [|discriminate].
    destruct instance as [| | | | | |d|]; try discriminate Hs.
    intros Hv. exists d. split; [reflexivity|]. split; [exact Hs|].
    revert Hv Hs.
    unfold CloudTrail.validate_header_extension_subdict, CloudTrail.absent_or_empty,
      CloudTrail.extension_field_schema, CloudTrail.required, CloudTrail.one_of.
    destruct (d !! "mapping_field") as [mf|];
      destruct (d !! "default_value") as [df|].
    + destruct (truthy mf); [intros; left; reflexivity|].
      destruct (truthy df); [intros; right; reflexivity|]. discriminate.
    + destruct (truthy mf); [intros; left; reflexivity|]. discriminate.
    + destruct (truthy df); [intros; right; reflexivity|]. discriminate.
    + intros _. cbn [List.filter length Nat.eqb andb].
      rewrite !andb_false_r. discriminate.
  - intros (d & -> & Hs & Hone). apply nonempty_rule_accepted; assumption.
Qed.

(** ** The field tables of the CEF generator *)

Section FieldTables.

Variable repr : pyval -> string.
Context {C : Type}.
Variable table : gmap string C.

Local Abbreviation getitem := (ArcSightRegistry.table_getitem repr table).
Local Abbreviation floop := (ArcSightRegistry.fields_loop repr table).

Lemma fields_loop_app (a b : list (string * gmap string pyval)) :
  forall acc, floop (a ++ b) acc = bind (floop a acc) (floop b).
Proof.
  induction a as [|[f m] a IH]; intros acc; [reflexivity|].
  cbn [app ArcSightRegistry.fields_loop].
  destruct (getitem (ArcSightRegistry.transformation_of m)) as [c|e];
    cbn [bind]; [apply IH|reflexivity].
Qed.

Lemma sections_loop_flat (secs : list (string * list (string * gmap string pyval))) :
  forall acc,
  ArcSightRegistry.sections_loop repr table secs acc
  = floop (concat (map snd secs)) acc.
Proof.
  induction secs as [|[key value] rest IH]; intros acc; [reflexivity|].
  cbn [ArcSightRegistry.sections_loop map concat snd].
  rewrite fields_loop_app.
  destruct (floop value acc) as [acc'|e]; cbn [bind]; [apply IH|reflexivity].
Qed.

Lemma subtypes_loop_flat
    (subtypes : list (string * list (string * list (string * gmap string pyval)))) :
  forall acc,
  ArcSightRegistry.subtypes_loop repr table subtypes acc
  = floop (ArcSightRegistry.subtype_rules subtypes) acc.
Proof.
  unfold ArcSightRegistry.subtype_rules.
  induction subtypes as [|[st secs] rest IH]; intros acc; [reflexivity|].
  cbn [ArcSightRegistry.subtypes_loop map concat snd].
  rewrite fields_loop_app, sections_loop_flat.
  destruct (floop (concat (map snd secs)) acc) as [acc'|e]; cbn [bind];
    [apply IH|reflexivity].
Qed.

Lemma data_types_loop_flat (taxonomy : list (string * ArcSightRegistry.data_mapping)) :
  forall acc,
  match ArcSightRegistry.taxonomy_rules taxonomy with
  | Some rules =>
      ArcSightRegistry.data_types_loop repr table taxonomy acc = floop rules acc
  | None =>
      exists e, ArcSightRegistry.data_types_loop repr table taxonomy acc = Raise e
  end.
Proof.
  induction taxonomy as [|[dt dm] rest IH]; intros acc; [reflexivity|].
  cbn [ArcSightRegistry.data_types_loop ArcSightRegistry.taxonomy_rules].
  destruct (String.eqb dt "json"); [apply IH|].
  destruct dm as [subtypes|[|j js]].
  - rewrite subtypes_loop_flat.
    destruct (ArcSightRegistry.taxonomy_rules rest) as [rules|] eqn:Hr.
    + rewrite fields_loop_app.
      destruct (floop (ArcSightRegistry.subtype_rules subtypes) acc) as [acc'|e];
        cbn [bind]; [|reflexivity].
      specialize (IH acc'). exact IH.
    + destruct (floop (ArcSightRegistry.subtype_rules subtypes) acc) as [acc'|e];
        cbn [bind]; [|eexists; reflexivity].
      specialize (IH acc'). exact IH.
  - apply IH.
  - eexists. reflexivity.
Qed.

Lemma fields_loop_ok_iff (rules : list (string * gmap string pyval)) :
  forall acc,
  (exists ft, floop rules acc = Ok ft)
  <-> List.Forall (fun fr => exists c,
        getitem (ArcSightRegistry.transformation_of (snd fr)) = Ok c) rules.
Proof.
  induction rules as [|[f m] rest IH]; intros acc.
  - split; [constructor|]. intros _. exists acc. reflexivity.
  - cbn [ArcSightRegistry.fields_loop]. split.
    + intros [ft Hft].
      destruct (getitem (ArcSightRegistry.transformation_of m)) as [c|e] eqn:Hc;
        [|discriminate].
      constructor; [exists c; exact Hc|].
      apply (IH (<[f := (f, c)]> acc)). exists ft. exact Hft.
    + intros H. inversion H as [|x l [c Hc] Hrest]; subst.
      cbn [snd] in Hc. rewrite Hc. cbn [bind]. apply IH. exact Hrest.
Qed.

(** X14: the table of converters (or of sanitizers) is built exactly when
    every rule outside the ["json"] data type names a transformation of
    the table; one unknown transformation, in any subtype, makes the
    construction raise. *)
Theorem field_table_built_iff (taxonomy : list (string * ArcSightRegistry.data_mapping))
    (rules : list (string * gmap string pyval)) :
  ArcSightRegistry.taxonomy_rules taxonomy = Some rules ->
  ((exists ft, ArcSightRegistry.field_table repr table taxonomy = Ok ft)
   <-> List.Forall (fun fr => exists c,
         getitem (ArcSightRegistry.transformation_of (snd fr)) = Ok c) rules)
  /\ (forall field m e, In (field, m) rules ->
        getitem (ArcSightRegistry.transformation_of m) = Raise e ->
        exists e', ArcSightRegistry.field_table repr table taxonomy = Raise e').
Proof.
  intros Hr. unfold ArcSightRegistry.field_table.
  pose proof (data_types_loop_flat taxonomy ∅) as Hflat. rewrite Hr in Hflat.
  rewrite Hflat. split; [apply fields_loop_ok_iff|].
  intros field m e Hin He.
  destruct (floop rules ∅) as [ft|e'] eqn:Hl; [|exists e'; reflexivity].
  exfalso.
  assert (Hall : List.Forall (fun fr => exists c,
            getitem (ArcSightRegistry.transformation_of (snd fr)) = Ok c) rules).
  { apply (fields_loop_ok_iff rules ∅). exists ft. exact Hl. }
  rewrite List.Forall_forall in Hall. destruct (Hall _ Hin) as [c Hc].
  cbn [snd] in Hc. congruence.
Qed.

Lemma fields_loop_keeps (rules : list (string * gmap string pyval)) (f : string) :
  forall acc ft,
  floop rules acc = Ok ft -> ~ In f (map fst rules) -> ft !! f = acc !! f.
Proof.
  induction rules as [|[f1 m] rest IH]; intros acc ft.
  - intros [= <-] _. reflexivity.
  - cbn [ArcSightRegistry.fields_loop map fst].
    destruct (getitem (ArcSightRegistry.transformation_of m)) as [c|e];
      [|discriminate].
    cbn [bind]. intros Hl Hnot. rewrite (IH _ _ Hl).
    + apply lookup_insert_ne. intros ->. apply Hnot. left. reflexivity.
    + intros Hin. apply Hnot. right. exact Hin.
Qed.

Lemma fields_loop_entry (rules : list (string * gmap string pyval)) (f : string) :
  forall acc ft entry,
  floop rules acc = Ok ft -> ft !! f = Some entry ->
  acc !! f = Some entry
  \/ exists m c, In (f, m) rules
       /\ getitem (ArcSightRegistry.transformation_of m) = Ok c
       /\ entry = (f, c).
Proof.
  induction rules as [|[f1 m] rest IH]; intros acc ft entry.
  - intros [= <-] H. left. exact H.
  - cbn [ArcSightRegistry.fields_loop].
    destruct (getitem (ArcSightRegistry.transformation_of m)) as [c|e] eqn:Hc;
      [|discriminate].
    cbn [bind]. intros Hl Hf. destruct (IH _ _ _ Hl Hf) as [H|(m' & c' & Hin & Hc' & He)].
    + destruct (decide (f1 = f)) as [->|Hne].
      * rewrite lookup_insert_eq in H. injection H as <-.
        right. exists m, c. split; [left; reflexivity|]. split; [exact Hc|reflexivity].
      * rewrite lookup_insert_ne in H by exact Hne. left. exact H.
    + right. exists m', c'. split; [right; exact Hin|]. split; assumption.
Qed.

Lemma field_table_key_name (taxonomy : list (string * ArcSightRegistry.data_mapping))
    (ft : gmap string (string * C)) (f key_name : string) (c : C) :
  ArcSightRegistry.field_table repr table taxonomy = Ok ft ->
  ft !! f = Some (key_name, c) -> key_name = f.
Proof.
  unfold ArcSightRegistry.field_table. intros Hl Hf.
  pose proof (data_types_loop_flat taxonomy ∅) as Hflat.
  destruct (ArcSightRegistry.taxonomy_rules taxonomy) as [rules|].
  - rewrite Hflat in Hl.
    destruct (fields_loop_entry rules f ∅ ft (key_name, c) Hl Hf)
      as [H|(m & c' & Hin & Hc & [= -> ->])].
    + rewrite lookup_empty in H. discriminate.
    + reflexivity.
  - destruct Hflat as [e He]. congruence.
Qed.

(** X15: in a table that was built, the entry of a field carries the name
    of the field and the converter of a rule configured for that field;
    when several subtypes configure the field, the last rule visited
    decides. *)
Theorem field_table_entries (taxonomy : list (string * ArcSightRegistry.data_mapping))
    (rules : list (string * gmap string pyval)) (ft : gmap string (string * C)) :
  ArcSightRegistry.taxonomy_rules taxonomy = Some rules ->
  ArcSightRegistry.field_table repr table taxonomy = Ok ft ->
  (forall f key_name c, ft !! f = Some (key_name, c) ->
     key_name = f
     /\ exists m, In (f, m) rules
          /\ getitem (ArcSightRegistry.transformation_of m) = Ok c)
  /\ (forall before f m after,
        rules = (before ++ (f, m) :: after)%list -> ~ In f (map fst after) ->
        exists c, getitem (ArcSightRegistry.transformation_of m) = Ok c
                  /\ ft !! f = Some (f, c)).
Proof.
  intros Hr. unfold ArcSightRegistry.field_table.
  pose proof (data_types_loop_flat taxonomy ∅) as Hflat. rewrite Hr in Hflat.
  rewrite Hflat. intros Hl. split.
  - intros f k c Hf.
    destruct (fields_loop_entry rules f ∅ ft (k, c) Hl Hf)
      as [H|(m & c' & Hin & Hc & [= -> ->])].
    + rewrite lookup_empty in H. discriminate.
    + split; [reflexivity|]. exists m. split; assumption.
  - intros before f m after -> Hnot.
    rewrite fields_loop_app in Hl.
    destruct (floop before ∅) as [acc|e]; [|discriminate]. cbn [bind] in Hl.
    cbn [ArcSightRegistry.fields_loop] in Hl.
    destruct (getitem (ArcSightRegistry.transformation_of m)) as [c|e] eqn:Hc;
      [|discriminate].
    cbn [bind] in Hl. exists c. split; [reflexivity|].
    rewrite (fields_loop_keeps after f _ _ Hl Hnot). apply lookup_insert_eq.
Qed.

Lemma fields_loop_domain (rules : list (string * gmap string pyval)) (f : string) :
  forall acc ft,
  floop rules acc = Ok ft ->
  (is_Some (ft !! f) <-> is_Some (acc !! f) \/ In f (map fst rules)).
Proof.
  induction rules as [|[f1 m] rest IH]; intros acc ft.
  - intros [= <-]. cbn. tauto.
  - cbn [ArcSightRegistry.fields_loop map fst].
    destruct (getitem (ArcSightRegistry.transformation_of m)) as [c|e];
      [|discriminate].
    cbn [bind]. intros Hl. rewrite (IH _ _ Hl).
    destruct (decide (f1 = f)) as [->|Hne].
    + rewrite lookup_insert_eq. split; [intros _; right; left; reflexivity|].
      intros _. left. eauto.
    + rewrite lookup_insert_ne by exact Hne. cbn [In]. tauto.
Qed.

Lemma field_table_domain (taxonomy : list (string * ArcSightRegistry.data_mapping))
    (ft : gmap string (string * C)) (f : string) :
  ArcSightRegistry.field_table repr table taxonomy = Ok ft ->
  exists rules, ArcSightRegistry.taxonomy_rules taxonomy = Some rules
    /\ (is_Some (ft !! f) <-> In f (map fst rules)).
Proof.
  unfold ArcSightRegistry.field_table. intros Hl.
  pose proof (data_types_loop_flat taxonomy ∅) as Hflat.
  destruct (ArcSightRegistry.taxonomy_rules taxonomy) as [rules|].
  - exists rules. split; [reflexivity|]. rewrite Hflat in Hl.
    rewrite (fields_loop_domain rules f ∅ ft Hl). rewrite lookup_empty.
    split; [intros [[x Hx]|H]; [discriminate|exact H]|intros H; right; exact H].
  - destruct Hflat as [e He]. congruence.
Qed.

End FieldTables.

(** X16: the table of converters and the table of sanitizers built from
    one taxonomy have the same fields, and the sanitizer entry of a field
    is stored under the name of the field: in [get_cef_event] a field that
    has a converter always has a sanitizer. *)
Theorem converters_and_sanitizers_match (repr : pyval -> string)
    (converters sanitizers : gmap string (pyval -> result pyval))
    (taxonomy : list (string * ArcSightRegistry.data_mapping))
    (extension_converters valid_extensions :
       gmap string (string * (pyval -> result pyval)))
    (name : string) :
  ArcSightRegistry.field_table repr converters taxonomy = Ok extension_converters ->
  ArcSightRegistry.field_table repr sanitizers taxonomy = Ok valid_extensions ->
  (is_Some (extension_converters !! name) <-> is_Some (valid_extensions !! name))
  /\ (forall key_name sanitizer,
        valid_extensions !! name = Some (key_name, sanitizer) -> key_name = name).
Proof.
  intros Hc Hs.
  destruct (field_table_domain repr converters taxonomy _ name Hc) as (r1 & Hr1 & H1).
  destruct (field_table_domain repr sanitizers taxonomy _ name Hs) as (r2 & Hr2 & H2).
  assert (r1 = r2) by congruence. subst r2. split.
  - rewrite H1, H2. tauto.
  - intros k san Hv.
    apply (field_table_key_name repr sanitizers taxonomy _ name k san Hs Hv).
Qed.

(** ** The loop over the extensions of [get_cef_event] *)

Section ExtensionPipeline.

Variable extension_converters : gmap string (string * (pyval -> result pyval)).
Variable valid_extensions : gmap string (string * (pyval -> result pyval)).
Variable equals_escaper : string -> string.

Local Abbreviation eloop :=
  (ArcSightRegistry.extension_loop extension_converters valid_extensions
     equals_escaper).
Local Abbreviation evalue :=
  (ArcSightRegistry.extension_value extension_converters valid_extensions
     equals_escaper).

Lemma extension_loop_step (name : string) (value : pyval)
    (rest : list (string * pyval)) (acc : gmap string pyval) :
  eloop ((name, value) :: rest) acc
  = eloop rest match evalue name value with
               | Some (k, sv) => <[k := sv]> acc
               | None => acc
               end.
Proof.
  cbn [ArcSightRegistry.extension_loop]. unfold ArcSightRegistry.extension_value.
  destruct (extension_converters !! name) as [[k1 converter]|]; [|reflexivity].
  destruct (converter value) as [v1|e]; [|reflexivity].
  destruct (valid_extensions !! name) as [[key_name sanitizer]|]; [|reflexivity].
  destruct (sanitizer v1) as [sv|e]; [|reflexivity].
  destruct sv; reflexivity.
Qed.

Lemma extension_loop_app (a b : list (string * pyval)) :
  forall acc, eloop (a ++ b) acc = eloop b (eloop a acc).
Proof.
  induction a as [|[n v] a IH]; intros acc; [reflexivity|].
  cbn [app]. rewrite !extension_loop_step. apply IH.
Qed.

(** X17: in [get_cef_event] an extension whose converter or sanitizer is
    missing or raises is left out and the other extensions are rendered as
    without it; an extension that passes both stages is stored under its
    key with the sanitized value, and a sanitized string is stored
    escaped. *)
Theorem extension_field_pipeline (before after : list (string * pyval))
    (name : string) (value : pyval) (acc : gmap string pyval) :
  (evalue name value = None ->
     eloop (before ++ (name, value) :: after) acc = eloop (before ++ after) acc)
  /\ (forall key_name stored, evalue name value = Some (key_name, stored) ->
     eloop (before ++ [(name, value)]) acc !! key_name = Some stored
     /\ (forall s, stored = VStr s ->
         exists k converter sanitizer converted sanitized,
           extension_converters !! name = Some (k, converter)
           /\ converter value = Ok converted
           /\ valid_extensions !! name = Some (key_name, sanitizer)
           /\ sanitizer converted = Ok (VStr sanitized)
           /\ s = equals_escaper sanitized)).
Proof.
  split.
  - intros Hn. rewrite !extension_loop_app, extension_loop_step, Hn. reflexivity.
  - intros key_name stored Hs. split.
    + rewrite extension_loop_app, extension_loop_step, Hs.
      cbn [ArcSightRegistry.extension_loop]. apply lookup_insert_eq.
    + intros s ->. revert Hs. unfold ArcSightRegistry.extension_value.
      destruct (extension_converters !! name) as [[k1 converter]|]; [|discriminate].
      destruct (converter value) as [v1|e] eqn:Hc; [|discriminate].
      destruct (valid_extensions !! name) as [[k2 sanitizer]|]; [|discriminate].
      destruct (sanitizer v1) as [sv|e] eqn:Hsv; [|discriminate].
      destruct sv; intros [= <- <-]; try discriminate.
      exists k1, converter, sanitizer, v1, s0. repeat split; assumption.
Qed.

End ExtensionPipeline.

(** ** The load of the CloudTrail mappings *)

Lemma validate_extension_field_raises (instance : pyval) (err : exn) :
  CloudTrail.validate_extension_field instance = Raise err ->
  exists msg, err = JsonSchemaValidationError msg.
Proof.
  unfold CloudTrail.validate_extension_field.
  destruct (CloudTrail.extension_field_schema instance) eqn:Hs.
  - destruct instance; cbn [CloudTrail.extension_field_schema] in Hs;
      try discriminate.
    unfold CloudTrail.validate_header_extension_subdict.
    destruct (d !! "mapping_field") as [m|], (d !! "default_value") as [dv|];
      repeat match goal with
             | |- context [if ?b then _ else _] => destruct b
             end;
      intros [= <-] || discriminate; eexists; reflexivity.
  - intros [= <-]. eexists. reflexivity.
Qed.

Lemma validate_fields_none (subtype : string) (items : list (string * pyval)) :
  CloudTrailLoad.validate_fields subtype items = None
  <-> List.Forall (fun fr => CloudTrail.validate_extension_field (snd fr) = Ok tt)
        items.
Proof.
  induction items as [|[f r] rest IH]; cbn [CloudTrailLoad.validate_fields].
  - split; [constructor|reflexivity].
  - destruct (CloudTrail.validate_extension_field r) as [[]|e] eqn:Hv.
    + rewrite IH. split.
      * intros H. constructor; [exact Hv|exact H].
      * intros H. inversion H. assumption.
    + split.
      * destruct e; discriminate.
      * intros H. inversion H as [|x l Hx]. cbn [snd] in Hx. congruence.
Qed.

Lemma validate_fields_first (subtype : string)
    (before after : list (string * pyval)) (field : string) (ext_dict : pyval)
    (msg : string) :
  List.Forall (fun fr => CloudTrail.validate_extension_field (snd fr) = Ok tt)
    before ->
  CloudTrail.validate_extension_field ext_dict
  = Raise (JsonSchemaValidationError msg) ->
  CloudTrailLoad.validate_fields subtype (before ++ (field, ext_dict) :: after)%list
  = Some (CloudTrailLoad.MappingValidationError subtype (Some field)
            (JsonSchemaValidationError msg)).
Proof.
  intros Hb Hv.
  induction Hb as [|[f r] l Hr _ IH]; cbn [app CloudTrailLoad.validate_fields].
  - rewrite Hv. reflexivity.
  - cbn [snd] in Hr. rewrite Hr. exact IH.
Qed.

Lemma validate_fields_caught (subtype : string) (items : list (string * pyval))
    (err : exn) :
  CloudTrailLoad.validate_fields subtype items
  <> Some (CloudTrailLoad.Uncaught err).
Proof.
  induction items as [|[f r] rest IH]; cbn [CloudTrailLoad.validate_fields];
    [discriminate|].
  destruct (CloudTrail.validate_extension_field r) as [[]|e] eqn:Hv; [exact IH|].
  apply validate_extension_field_raises in Hv. destruct Hv as [msg ->].
  discriminate.
Qed.

Lemma validate_extension_object (instance : CloudTrailLoad.extension_value) :
  (CloudTrailLoad.is_object instance = true ->
   CloudTrailLoad.validate_extension instance = Ok tt
   /\ exists items, CloudTrailLoad.extension_items instance = Ok items)
  /\ (CloudTrailLoad.is_object instance = false ->
      exists msg, CloudTrailLoad.validate_extension instance
                  = Raise (JsonSchemaValidationError msg)).
Proof.
  unfold CloudTrailLoad.validate_extension.
  destruct instance as [items|v]; [|destruct v];
    cbn [CloudTrailLoad.is_object CloudTrailLoad.extension_items andb Nat.leb];
    split; intros H; try discriminate;
    try (split; [reflexivity|eexists; reflexivity]);
    eexists; reflexivity.
Qed.

Section CloudTrailSubtypes.

(** A subtype that the load accepts: its extension is a dictionary and
    every rule of it passes [validate_extension_field]. *)
Local Abbreviation accepted := (fun st : string * CloudTrailLoad.subtype_map =>
  exists instance items,
    CloudTrailLoad.extension (snd st) = Some instance
    /\ CloudTrailLoad.is_object instance = true
    /\ CloudTrailLoad.extension_items instance = Ok items
    /\ List.Forall
         (fun fr => CloudTrail.validate_extension_field (snd fr) = Ok tt) items).

Lemma validate_subtypes_none (subtypes : list (string * CloudTrailLoad.subtype_map)) :
  CloudTrailLoad.validate_subtypes subtypes = None
  <-> List.Forall accepted subtypes.
Proof.
  induction subtypes as [|[st sm] rest IH]; cbn [CloudTrailLoad.validate_subtypes].
  - split; [constructor|reflexivity].
  - destruct (CloudTrailLoad.extension sm) as [instance|] eqn:He.
    + destruct (CloudTrailLoad.is_object instance) eqn:Ho.
      * destruct (proj1 (validate_extension_object instance) Ho)
          as [Hv [items Hi]].
        rewrite Hv, Hi.
        destruct (CloudTrailLoad.validate_fields st items) as [e|] eqn:Hf.
        -- split; [discriminate|].
           intros H. inversion H as [|x l (instance' & items' & He' & _ & Hi' & Hall)].
           cbn [snd] in He'. rewrite He in He'. injection He' as <-.
           rewrite Hi in Hi'. injection Hi' as <-.
           apply (validate_fields_none st) in Hall. congruence.
        -- rewrite IH. split.
           ++ intros H. constructor; [|exact H].
              exists instance, items. cbn [snd].
              repeat split; try assumption.
              apply (validate_fields_none st). exact Hf.
           ++ intros H. inversion H. assumption.
      * destruct (proj2 (validate_extension_object instance) Ho) as [msg Hv].
        rewrite Hv. split; [discriminate|].
        intros H. inversion H as [|x l (instance' & items' & He' & Ho' & _)].
        cbn [snd] in He'. rewrite He in He'. injection He' as <-. congruence.
    + split; [discriminate|].
      intros H. inversion H as [|x l (instance' & items' & He' & _)].
      cbn [snd] in He'. congruence.
Qed.

Lemma validate_subtypes_skip
    (done rest : list (string * CloudTrailLoad.subtype_map)) :
  List.Forall accepted done ->
  CloudTrailLoad.validate_subtypes (done ++ rest)%list
  = CloudTrailLoad.validate_subtypes rest.
Proof.
  intros Hd. induction Hd as [|[st sm] l Hst Hl IH]; [reflexivity|].
  cbn [app CloudTrailLoad.validate_subtypes].
  destruct Hst as (instance & items & He & Ho & Hi & Hall). cbn [snd] in He.
  rewrite He.
  rewrite (proj1 (proj1 (validate_extension_object instance) Ho)), Hi.
  rewrite (proj2 (validate_fields_none st items) Hall). exact IH.
Qed.

Lemma validate_subtypes_caught
    (subtypes : list (string * CloudTrailLoad.subtype_map)) (err : exn) :
  CloudTrailLoad.validate_subtypes subtypes
  <> Some (CloudTrailLoad.Uncaught err).
Proof.
  induction subtypes as [|[st sm] rest IH]; cbn [CloudTrailLoad.validate_subtypes];
    [discriminate|].
  destruct (CloudTrailLoad.extension sm) as [instance|]; [|discriminate].
  destruct (CloudTrailLoad.is_object instance) eqn:Ho.
  - destruct (proj1 (validate_extension_object instance) Ho) as [Hv [items Hi]].
    rewrite Hv, Hi.
    destruct (CloudTrailLoad.validate_fields st items) as [e|] eqn:Hf;
      [|exact IH].
    intros [= ->]. exact (validate_fields_caught st items err Hf).
  - destruct (proj2 (validate_extension_object instance) Ho) as [msg Hv].
    rewrite Hv. discriminate.
Qed.

(** X18: [get_cloudtrail_mappings] returns the taxonomy, whole and
    unchanged, exactly when the data type is in it, every subtype of the
    data type has a dictionary for its extension and every rule of these
    extensions passes [validate_extension_field]; a data type that is
    missing is a [KeyError]. Otherwise the error is that of the first
    subtype, in the order of the taxonomy, that is not accepted: a
    [KeyError] when it has no extension, a [MappingValidationError] with
    the subtype when its extension is not a dictionary, and a
    [MappingValidationError] with the subtype and the field for its first
    rule that fails. No other error leaves the function. *)
Theorem get_cloudtrail_mappings_accepts
    (taxonomy : list (string * list (string * CloudTrailLoad.subtype_map)))
    (data_type : string) :
  (forall loaded, CloudTrailLoad.get_cloudtrail_mappings taxonomy data_type
                  = inr loaded -> loaded = taxonomy)
  /\ (CloudTrailLoad.lookup_data_type taxonomy data_type = None ->
      CloudTrailLoad.get_cloudtrail_mappings taxonomy data_type
      = inl (CloudTrailLoad.LoadKeyError data_type))
  /\ (forall subtypes,
      CloudTrailLoad.lookup_data_type taxonomy data_type = Some subtypes ->
      (CloudTrailLoad.get_cloudtrail_mappings taxonomy data_type = inr taxonomy
       <-> List.Forall accepted subtypes))
  /\ (forall done subtype sm rest,
      CloudTrailLoad.lookup_data_type taxonomy data_type
      = Some (done ++ (subtype, sm) :: rest)%list ->
      List.Forall accepted done ->
      (CloudTrailLoad.extension sm = None ->
       CloudTrailLoad.get_cloudtrail_mappings taxonomy data_type
       = inl (CloudTrailLoad.LoadKeyError "extension"))
      /\ (forall instance,
          CloudTrailLoad.extension sm = Some instance ->
          CloudTrailLoad.is_object instance = false ->
          exists msg,
            CloudTrailLoad.get_cloudtrail_mappings taxonomy data_type
            = inl (CloudTrailLoad.MappingValidationError subtype None
                     (JsonSchemaValidationError msg)))
      /\ (forall instance before field ext_dict after msg,
          CloudTrailLoad.extension sm = Some instance ->
          CloudTrailLoad.extension_items instance
          = Ok (before ++ (field, ext_dict) :: after)%list ->
          List.Forall
            (fun fr => CloudTrail.validate_extension_field (snd fr) = Ok tt)
            before ->
          CloudTrail.validate_extension_field ext_dict
          = Raise (JsonSchemaValidationError msg) ->
          CloudTrailLoad.get_cloudtrail_mappings taxonomy data_type
          = inl (CloudTrailLoad.MappingValidationError subtype (Some field)
                   (JsonSchemaValidationError msg))))
  /\ (forall err, CloudTrailLoad.get_cloudtrail_mappings taxonomy data_type
                  <> inl (CloudTrailLoad.Uncaught err)).
Proof.
  unfold CloudTrailLoad.get_cloudtrail_mappings.
  split; [|split; [|split; [|split]]].
  - intros loaded.
    destruct (CloudTrailLoad.lookup_data_type taxonomy data_type) as [sts|];
      [|discriminate].
    destruct (CloudTrailLoad.validate_subtypes sts); [discriminate|].
    intros [= <-]. reflexivity.
  - intros ->. reflexivity.
  - intros subtypes ->. rewrite <- validate_subtypes_none.
    destruct (CloudTrailLoad.validate_subtypes subtypes); split;
      try discriminate; reflexivity.
  - intros done subtype sm rest -> Hd.
    rewrite (validate_subtypes_skip done _ Hd).
    cbn [CloudTrailLoad.validate_subtypes]. split; [|split].
    + intros ->. reflexivity.
    + intros instance -> Ho.
      destruct (proj2 (validate_extension_object instance) Ho) as [msg Hv].
      exists msg. rewrite Hv. reflexivity.
    + intros instance before field ext_dict after msg -> Hi Hb Hv.
      assert (Ho : CloudTrailLoad.is_object instance = true).
      { destruct instance as [items|v]; [reflexivity|].
        destruct v; try discriminate. reflexivity. }
      rewrite (proj1 (proj1 (validate_extension_object instance) Ho)), Hi.
      rewrite (validate_fields_first subtype before after field ext_dict msg Hb Hv).
      reflexivity.
  - intros err.
    destruct (CloudTrailLoad.lookup_data_type taxonomy data_type) as [sts|];
      [|discriminate].
    destruct (CloudTrailLoad.validate_subtypes sts) as [e|] eqn:Hv;
      [|discriminate].
    intros [= ->]. exact (validate_subtypes_caught sts err Hv).
Qed.

End CloudTrailSubtypes.

(** ** The headers of the Chronicle plugin *)

Section ChronicleHeaders.

Variable repr : pyval -> string.
Variable jsonpath : gmap string pyval -> pyval -> result (list pyval).
Variable str_lower : string -> string.
Variable tenant_name : pyval.
Variable event_timestamp : gmap string pyval -> result pyval.

Local Abbreviation hloop :=
  (ChronicleTransform.get_headers_loop repr jsonpath str_lower tenant_name).

Lemma chronicle_headers_loop_keeps (items : list (string * gmap string pyval))
    (data : gmap string pyval) (k : string) :
  forall h0 h, hloop items data h0 = Ok h ->
  (is_Some (h0 !! k) -> is_Some (h !! k))
  /\ (~ In k (map fst items) -> h !! k = h0 !! k).
Proof.
  induction items as [|[n m] rest IH]; intros h0 h;
    cbn [ChronicleTransform.get_headers_loop map fst].
  - intros [= <-]. split; [tauto|reflexivity].
  - destruct (Chronicle.get_field_value_from_data repr jsonpath m data false)
      as [v|e].
    + intros Hl. destruct (IH _ _ Hl) as [H1 H2]. split.
      * intros Hs. apply H1. destruct (decide (n = k)) as [->|Hne].
        -- rewrite lookup_insert_eq. eauto.
        -- rewrite lookup_insert_ne by exact Hne. exact Hs.
      * intros Hnot. rewrite H2 by (intros Hin; apply Hnot; right; exact Hin).
        apply lookup_insert_ne. intros ->. apply Hnot. left. reflexivity.
    + destruct e; try discriminate.
      intros Hl. destruct (IH _ _ Hl) as [H1 H2]. split; [exact H1|].
      intros Hnot. apply H2. intros Hin. apply Hnot. right. exact Hin.
Qed.

(** X19: the headers that the Chronicle [get_headers] returns always have
    [metadata.event_timestamp], and its value is the timestamp of the
    record unless a header of that name is configured; when the timestamp
    of the record cannot be computed, [get_headers] raises. *)
Theorem chronicle_headers_have_timestamp
    (header_mappings : list (string * gmap string pyval))
    (data : gmap string pyval) :
  (forall e, event_timestamp data = Raise e ->
     ChronicleTransform.get_headers repr jsonpath str_lower tenant_name
       event_timestamp header_mappings data = Raise e)
  /\ (forall headers,
      ChronicleTransform.get_headers repr jsonpath str_lower tenant_name
        event_timestamp header_mappings data = Ok headers ->
      is_Some (headers !! "metadata.event_timestamp")
      /\ (~ In "metadata.event_timestamp" (map fst header_mappings) ->
          event_timestamp data = Ok (default VNone
                                       (headers !! "metadata.event_timestamp")))).
Proof.
  unfold ChronicleTransform.get_headers. split.
  - intros e ->. reflexivity.
  - intros headers. destruct (event_timestamp data) as [ts|e]; [|discriminate].
    cbn [bind]. intros Hl.
    destruct (chronicle_headers_loop_keeps header_mappings data
                "metadata.event_timestamp" _ _ Hl) as [H1 H2].
    split.
    + apply H1. rewrite lookup_singleton_eq. eauto.
    + intros Hnot. rewrite (H2 Hnot), lookup_singleton_eq. reflexivity.
Qed.

End ChronicleHeaders.

(** ** The extra properties on the data of the examples *)

Lemma field_not_found_is_skipped_witness :
  SolarWinds.get_extensions no_repr jsonpath_member int_of_int
    [("suser", user_rule); ("dst", missing_rule)] alice_record
  = SolarWinds.get_extensions no_repr jsonpath_member int_of_int
      [("suser", user_rule)] alice_record.
Proof.
  apply (proj2 (field_not_found_is_skipped no_repr jsonpath_member int_of_int lower
           (VStr "tenant") [("suser", user_rule)] [] "dst" missing_rule
           alice_record "alerts" (VStr "dst"))).
  reflexivity.
Defined.

Lemma unresolvable_rule_drops_all_witness :
  SolarWinds.transform no_repr jsonpath_member int_of_int lower (VStr "tenant")
    fixed_cef_event broken_mapping [alice_record; other_record] "alerts" = [].
Proof.
  apply (unresolvable_rule_drops_all no_repr jsonpath_member int_of_int lower
           (VStr "tenant") fixed_cef_event broken_mapping
           [alice_record; other_record] "alerts" "Name" broken_rule).
  - reflexivity.
  - reflexivity.
  - left. exists [("Device Vendor", vendor_rule); ("Name", broken_rule)].
    split; [reflexivity|]. right. left. reflexivity.
Defined.

Lemma resolvers_agree_witness :
  Chronicle.get_field_value_from_data no_repr jsonpath_member user_rule
    alice_record false = Ok (VStr "alice").
Proof.
  exact (resolvers_agree no_repr jsonpath_member int_of_int user_rule alice_record
           false eq_refl eq_refl eq_refl).
Defined.

Lemma mapped_value_not_empty_witness :
  truthy (VStr "alice") || isinstance_int (VStr "alice") = true.
Proof.
  apply (mapped_value_not_empty no_repr jsonpath_member int_of_int user_rule
           alice_record (VStr "alice")).
  reflexivity.
Defined.

Lemma transform_batches_witness :
  truthy (VStr "CEF:0") = true
  /\ exists data, In data [alice_record; other_record] /\ data <> ∅
       /\ SolarWinds.transform_record no_repr jsonpath_member int_of_int lower
            (VStr "tenant") fixed_cef_event alert_mapping data "alerts"
          = Some (VStr "CEF:0").
Proof.
  assert (Hin : In (VStr "CEF:0")
                  (SolarWinds.transform no_repr jsonpath_member int_of_int lower
                     (VStr "tenant") fixed_cef_event alert_mapping
                     [alice_record; other_record] "alerts")).
  { vm_compute. left. reflexivity. }
  exact (proj2 (proj2 (transform_batches no_repr jsonpath_member int_of_int lower
           (VStr "tenant") fixed_cef_event alert_mapping
           [alice_record; other_record] [] "alerts")) (VStr "CEF:0") Hin).
Defined.

Lemma validate_extension_field_accepts_witness :
  CloudTrail.validate_extension_field (VDict user_rule) = Ok tt.
Proof.
  apply (proj2 (validate_extension_field_accepts (VDict user_rule))).
  exists user_rule. split; [reflexivity|]. split; [reflexivity|].
  left. reflexivity.
Defined.

Lemma field_table_built_iff_witness :
  exists e, ArcSightRegistry.field_table no_repr example_converters bogus_taxonomy
            = Raise e.
Proof.
  apply (proj2 (field_table_built_iff no_repr example_converters bogus_taxonomy
           [("suser", bogus_rule)] eq_refl) "suser" bogus_rule (KeyError "Bogus")).
  - left. reflexivity.
  - reflexivity.
Defined.

Lemma field_table_entries_witness :
  exists c,
    ArcSightRegistry.table_getitem no_repr example_converters
      (ArcSightRegistry.transformation_of epoch_rule) = Ok c
    /\ example_extension_converters !! "rt" = Some ("rt", c).
Proof.
  assert (Hb : ArcSightRegistry.field_table no_repr example_converters
                 example_taxonomy = Ok example_extension_converters).
  { reflexivity. }
  assert (Hr : example_rules
               = ([("Device Vendor", vendor_rule); ("suser", user_rule)]
                  ++ ("rt", epoch_rule) :: [])%list).
  { reflexivity. }
  exact (proj2 (field_table_entries no_repr example_converters example_taxonomy
           example_rules example_extension_converters eq_refl Hb)
           [("Device Vendor", vendor_rule); ("suser", user_rule)] "rt" epoch_rule []
           Hr (fun H : In "rt" (map fst []) => H)).
Defined.

Lemma converters_and_sanitizers_match_witness :
  is_Some (example_extension_converters !! "rt")
  <-> is_Some (example_valid_extensions !! "rt").
Proof.
  assert (Hc : ArcSightRegistry.field_table no_repr example_converters
                 example_taxonomy = Ok example_extension_converters).
  { reflexivity. }
  assert (Hs : ArcSightRegistry.field_table no_repr example_sanitizers
                 example_taxonomy = Ok example_valid_extensions).
  { reflexivity. }
  exact (proj1 (converters_and_sanitizers_match no_repr example_converters
                  example_sanitizers example_taxonomy example_extension_converters
                  example_valid_extensions "rt" Hc Hs)).
Defined.

Lemma extension_field_pipeline_witness :
  ArcSightRegistry.extension_loop example_extension_converters
    example_valid_extensions escape_equals
    [("dst", VStr "10.0.0.1"); ("suser", VStr "a=b")] ∅
  = ArcSightRegistry.extension_loop example_extension_converters
      example_valid_extensions escape_equals [("suser", VStr "a=b")] ∅
  /\ ArcSightRegistry.extension_loop example_extension_converters
       example_valid_extensions escape_equals [("suser", VStr "a=b")] ∅ !! "suser"
     = Some (VStr "a\=b").
Proof.
  split.
  - apply (proj1 (extension_field_pipeline example_extension_converters
             example_valid_extensions escape_equals [] [("suser", VStr "a=b")]
             "dst" (VStr "10.0.0.1") ∅)).
    vm_compute. reflexivity.
  - apply (proj1 (proj2 (extension_field_pipeline example_extension_converters
             example_valid_extensions escape_equals [] []
             "suser" (VStr "a=b") ∅) "suser" (VStr "a\=b") ltac:(vm_compute; reflexivity))).
Defined.

Lemma get_cloudtrail_mappings_accepts_witness :
  CloudTrailLoad.get_cloudtrail_mappings cloudtrail_taxonomy "alerts"
  = inr cloudtrail_taxonomy
  /\ CloudTrailLoad.get_cloudtrail_mappings cloudtrail_taxonomy "events"
     = inl (CloudTrailLoad.LoadKeyError "events")
  /\ (exists msg,
       CloudTrailLoad.get_cloudtrail_mappings cloudtrail_bad_taxonomy "alerts"
       = inl (CloudTrailLoad.MappingValidationError "malware" (Some "rt")
                (JsonSchemaValidationError msg)))
  /\ (exists msg,
       CloudTrailLoad.get_cloudtrail_mappings cloudtrail_list_taxonomy "alerts"
       = inl (CloudTrailLoad.MappingValidationError "malware" None
                (JsonSchemaValidationError msg))).
Proof.
  assert (Hgood : List.Forall
            (fun st : string * CloudTrailLoad.subtype_map =>
               exists instance items,
                 CloudTrailLoad.extension (snd st) = Some instance
                 /\ CloudTrailLoad.is_object instance = true
                 /\ CloudTrailLoad.extension_items instance = Ok items
                 /\ List.Forall
                      (fun fr => CloudTrail.validate_extension_field (snd fr) = Ok tt)
                      items)
            [("dlp", good_subtype_map)]).
  { constructor; [|constructor].
    eexists. eexists. split; [reflexivity|]. split; [reflexivity|].
    split; [reflexivity|].
    constructor; [reflexivity|]. constructor; [reflexivity|]. constructor. }
  split; [|split; [|split]].
  - apply (proj1 (proj2 (proj2 (get_cloudtrail_mappings_accepts cloudtrail_taxonomy
             "alerts"))) _ eq_refl).
    exact Hgood.
  - apply (proj1 (proj2 (get_cloudtrail_mappings_accepts cloudtrail_taxonomy
             "events"))).
    reflexivity.
  - eexists.
    apply (proj2 (proj2 (proj1 (proj2 (proj2 (proj2 (get_cloudtrail_mappings_accepts
             cloudtrail_bad_taxonomy "alerts")))) [("dlp", good_subtype_map)]
             "malware" bad_subtype_map [] eq_refl Hgood))
             (CloudTrailLoad.ExtensionDict
                [("suser", VDict user_rule); ("rt", VDict empty_rule)])
             [("suser", VDict user_rule)] "rt" (VDict empty_rule) []).
    + reflexivity.
    + reflexivity.
    + constructor; [reflexivity|constructor].
    + reflexivity.
  - apply (proj1 (proj2 (proj1 (proj2 (proj2 (proj2 (get_cloudtrail_mappings_accepts
             cloudtrail_list_taxonomy "alerts")))) [("dlp", good_subtype_map)]
             "malware" list_subtype_map [] eq_refl Hgood))
             (CloudTrailLoad.ExtensionOther (VList [VDict user_rule]))).
    + reflexivity.
    + reflexivity.
Defined.

Lemma chronicle_headers_have_timestamp_witness :
  ChronicleTransform.get_headers no_repr jsonpath_member lower (VStr "tenant")
    failing_timestamp udm_header_mappings alice_record
  = Raise TypeError
  /\ fixed_timestamp alice_record
     = Ok (default VNone (alice_headers !! "metadata.event_timestamp")).
Proof.
  assert (Hget : ChronicleTransform.get_headers no_repr jsonpath_member lower
                   (VStr "tenant") fixed_timestamp udm_header_mappings alice_record
                 = Ok alice_headers).
  { reflexivity. }
  assert (Hnot : ~ In "metadata.event_timestamp" (map fst udm_header_mappings)).
  { intros [H|[]]. discriminate H. }
  split.
  - exact (proj1 (chronicle_headers_have_timestamp no_repr jsonpath_member lower
             (VStr "tenant") failing_timestamp udm_header_mappings alice_record)
             TypeError eq_refl).
  - exact (proj2 (proj2 (chronicle_headers_have_timestamp no_repr jsonpath_member
             lower (VStr "tenant") fixed_timestamp udm_header_mappings alice_record)
             alice_headers Hget) Hnot).
Defined.

(** ** Headers and extensions of the SolarWinds plugin *)

Section HeadersAndExtensions.

Variable repr : pyval -> string.
Variable jsonpath : gmap string pyval -> pyval -> result (list pyval).
Variable py_int : pyval -> option Z.
Variable str_lower : string -> string.
Variable tenant_name : pyval.

Local Abbreviation headers_loop :=
  (SolarWinds.get_headers_loop repr jsonpath py_int str_lower tenant_name).
Local Abbreviation extensions_loop :=
  (SolarWinds.get_extensions_loop repr jsonpath py_int).

Lemma handle_variable_webtx (v : pyval) :
  SolarWinds.handle_variable str_lower tenant_name "webtx" v = v.
Proof.
  unfold SolarWinds.handle_variable, SolarWinds.mapping_variables.
  destruct v; reflexivity.
Qed.

Lemma loops_related (items : list (string * gmap string pyval))
    (data : gmap string pyval) (data_type : string) :
  List.Forall (fun nm => SolarWinds.has_is_json_path (snd nm) = false) items ->
  forall (h x : gmap string pyval) (f : bool),
  match headers_loop items data data_type h f, extensions_loop items data x f with
  | Ok (h', fh), Ok (x', fe) =>
      fh = fe
      /\ (dom h = dom x -> dom h' = dom x')
      /\ (data_type = "webtx" -> h = x -> h' = x')
  | Raise e, Raise e' => e = e'
  | _, _ => False
  end.
Proof.
  induction 1 as [|[n m] rest Hm _ IH]; intros h x f;
    cbn [SolarWinds.get_headers_loop SolarWinds.get_extensions_loop].
  - split; [reflexivity|]. split; tauto.
  - cbn [snd] in Hm. rewrite Hm.
    destruct (SolarWinds.get_field_value_from_data repr jsonpath py_int m data false)
      as [[v b]|e].
    + specialize (IH (<[n := SolarWinds.handle_variable str_lower tenant_name
                              data_type v]> h) (<[n := v]> x)
                     (if b then b else f)).
      destruct (headers_loop rest data data_type _ _) as [[h' fh]|e1];
        destruct (extensions_loop rest data _ _) as [[x' fe]|e2]; try exact IH.
      destruct IH as (Hf & Hd & Hw). split; [exact Hf|]. split.
      * intros Hdom. apply Hd. rewrite !dom_insert_L, Hdom. reflexivity.
      * intros -> ->. apply Hw; [reflexivity|].
        rewrite handle_variable_webtx. reflexivity.
    + destruct e; try reflexivity. apply IH.
Qed.

(** X20: on rules without [is_json_path], [get_headers] and
    [get_extensions] fail together, return the same mapped flag and the
    same field names; the substitution of [$tenant_name] changes values
    only, and for the data type ["webtx"], which has no substitution, the
    two dictionaries are equal. *)
Theorem headers_like_extensions (items : list (string * gmap string pyval))
    (data : gmap string pyval) (data_type : string) :
  List.Forall (fun nm => SolarWinds.has_is_json_path (snd nm) = false) items ->
  match SolarWinds.get_headers repr jsonpath py_int str_lower tenant_name
          items data data_type,
        SolarWinds.get_extensions repr jsonpath py_int items data with
  | Ok (headers, mapped_flag_header), Ok (extension, mapped_flag_extension) =>
      mapped_flag_header = mapped_flag_extension
      /\ dom headers = dom extension
      /\ (data_type = "webtx" -> headers = extension)
  | Raise e, Raise e' => e = e'
  | _, _ => False
  end.
Proof.
  intros Hall. unfold SolarWinds.get_headers, SolarWinds.get_extensions.
  pose proof (loops_related items data data_type Hall ∅ ∅ false) as H.
  destruct (headers_loop items data data_type ∅ false) as [[h fh]|e1];
    destruct (extensions_loop items data ∅ false) as [[x fe]|e2]; try exact H.
  destruct H as (Hf & Hd & Hw). split; [exact Hf|]. split.
  - apply Hd. reflexivity.
  - intros Hdt. apply Hw; [exact Hdt|reflexivity].
Qed.

End HeadersAndExtensions.

Lemma headers_like_extensions_witness :
  SolarWinds.get_headers no_repr jsonpath_member int_of_int lower (VStr "tenant")
    [("suser", user_rule); ("dst", missing_rule)] alice_record "webtx"
  = SolarWinds.get_extensions no_repr jsonpath_member int_of_int
      [("suser", user_rule); ("dst", missing_rule)] alice_record.
Proof.
  pose proof (headers_like_extensions no_repr jsonpath_member int_of_int lower
                (VStr "tenant") [("suser", user_rule); ("dst", missing_rule)]
                alice_record "webtx") as H.
  assert (Hall : List.Forall
                   (fun nm => SolarWinds.has_is_json_path (snd nm) = false)
                   [("suser", user_rule); ("dst", missing_rule)]).
  { repeat constructor. }
  specialize (H Hall).
  destruct (SolarWinds.get_headers no_repr jsonpath_member int_of_int lower
              (VStr "tenant") [("suser", user_rule); ("dst", missing_rule)]
              alice_record "webtx") as [[h fh]|e1];
    destruct (SolarWinds.get_extensions no_repr jsonpath_member int_of_int
                [("suser", user_rule); ("dst", missing_rule)] alice_record)
      as [[x fe]|e2]; try contradiction.
  - destruct H as (-> & _ & Hw). rewrite (Hw eq_refl). reflexivity.
  - rewrite H. reflexivity.
Defined.

(** ** What a composite mapping reads *)

Section CompositeReads.

Variable repr : pyval -> string.
Variable jsonpath : gmap string pyval -> pyval -> result (list pyval).

Lemma component_value_agree (data data' : gmap string pyval) (c : string) :
  data !! c = data' !! c ->
  Chronicle.component_value data c = Chronicle.component_value data' c.
Proof. unfold Chronicle.component_value. intros ->. reflexivity. Qed.

Lemma composite_loop_agree (m data data' : gmap string pyval) (mf : pyval)
    (fields : list string) :
  (forall c, In c (map Chronicle.trim_component fields) -> data !! c = data' !! c) ->
  forall out, Chronicle.composite_loop m data mf fields out
              = Chronicle.composite_loop m data' mf fields out.
Proof.
  induction fields as [|field rest IH]; intros Hag out; [reflexivity|].
  rewrite !composite_loop_step.
  rewrite (component_value_agree data data' (Chronicle.trim_component field))
    by (apply Hag; left; reflexivity).
  destruct (Chronicle.component_value data' (Chronicle.trim_component field));
    [|reflexivity].
  apply IH. intros c Hc. apply Hag. right. exact Hc.
Qed.

(** X21: a mapping with a hyphen is never looked up as one field: the
    Chronicle resolver reads the record at the components of the mapping
    only, so two records that agree on the components give the same
    result, whatever they hold under the whole name. *)
Theorem composite_reads_components (m data data' : gmap string pyval) (s : string) :
  m !! "mapping_field" = Some (VStr s) ->
  composite m = true ->
  (forall c, In c (Chronicle.components s) -> data !! c = data' !! c) ->
  Chronicle.get_field_value_from_data repr jsonpath m data false
  = Chronicle.get_field_value_from_data repr jsonpath m data' false.
Proof.
  intros Hm Hc Hag. destruct (composite_is_truthy m s Hm Hc) as [Ht Hl].
  unfold Chronicle.get_field_value_from_data. rewrite Hm, Ht, Hl.
  apply composite_loop_agree. exact Hag.
Qed.

End CompositeReads.

Lemma composite_reads_components_witness :
  Chronicle.get_field_value_from_data no_repr jsonpath_member user_app_rule
    whole_name_record false
  = Chronicle.get_field_value_from_data no_repr jsonpath_member user_app_rule
      user_app_record false.
Proof.
  apply (composite_reads_components no_repr jsonpath_member user_app_rule
           whole_name_record user_app_record "user - [app]" eq_refl eq_refl).
  intros c Hc. vm_compute in Hc.
  destruct Hc as [<-|[<-|[]]]; reflexivity.
Defined.
